(** * trAIder dashboard clients: a shallow embedding and its properties

    The development follows the two client scripts of the repository:
    - [Dashboard]: [src/ui/static/js/dashboard.js], the [DashboardManager]
      class (fetch, redraw, market summary, polling timer, toggles), and
      the interleaving of its requests;
    - [MarketClient]: the second client script ([updateMarketInfo],
      [updateSignals], [updateDashboard] and the candle array they read);
    - [MarketPage]: the same script with its two requests, its [config]
      and its console.

    Both scripts sit on outside layers that are modelled first:
    - [JS]: the fragment of ECMAScript the scripts rely on: IEEE 754
      binary64 numbers, [Number.prototype.toFixed], truthiness, the
      string-to-number coercion behind [>=], and exceptions;
    - [Page]: the page the class lives in: the elements of the template,
      [console], [alert], [setInterval]/[clearInterval], the network and
      the two entry points [newPlot] and [react] of the plot library, kept
      in one state record and threaded through a state-and-exception monad.

    The definitions come first; the properties follow from "Vocabulary of
    the properties" on. *)

From Stdlib Require Import ZArith List String Ascii Bool Lia.
From Stdlib Require Import Floats.SpecFloat Numbers.DecimalString.
From Stdlib Require Numbers.DecimalFacts Numbers.DecimalN.
Import ListNotations.

Set Implicit Arguments.

(* ================================================================== *)
(** * The ECMAScript fragment *)
(* ================================================================== *)

Module JS.

Open Scope string_scope.
Open Scope Z_scope.

(** ** Numbers

    A JavaScript number is an IEEE 754 binary64 value.  [spec_float] gives
    them as sign, mantissa and exponent ([m * 2^e]) with the two zeros, the
    infinities and NaN; its operations round to nearest, ties to even. *)

Definition prec : Z := 53.
Definition emax : Z := 1024.

Definition number : Type := spec_float.

(** [num m e] is the number nearest to [m * 2^e]. *)
Definition num (m e : Z) : number := binary_normalize prec emax m e false.

(** Integer literals ([1e9], [100], ...). *)
Definition of_Z (z : Z) : number := num z 0.

Definition NaN : number := S754_nan.

Definition div (a b : number) : number := SFdiv prec emax a b.
Definition mul (a b : number) : number := SFmul prec emax a b.
Definition sub (a b : number) : number := SFsub prec emax a b.

(** [a >= b] on numbers; false as soon as one side is NaN, and the two
    zeros compare equal. *)
Definition ge (a b : number) : bool := SFleb b a.

(** [a < 0] as a real number (so [-0 < 0] is false). *)
Definition is_negative (a : number) : bool := SFltb a (S754_zero false).

(** ** Decimal digits *)

Definition dec (n : Z) : string := NilEmpty.string_of_uint (N.to_uint (Z.to_N n)).

Fixpoint zeros (n : nat) : string :=
  match n with
  | O => ""
  | S n' => String "0" (zeros n')
  end.

Definition pad_left (width : nat) (s : string) : string :=
  zeros (width - String.length s) ++ s.

(** ** [Number.prototype.toFixed]  (ECMA-262, 21.1.3.3)

    For a finite [x] below [10^21] in magnitude, [toFixed(f)] takes the
    integer [n] for which [n / 10^f - x] is as close to zero as possible,
    the larger [n] when there are two, and prints it with [f] digits after
    the point.  The choice is exact arithmetic on the number's value
    [m * 2^e], which is what [scaled_round] computes. *)

(** [m * 2^e >= bound], exactly. *)
Definition mag_ge (m : positive) (e : Z) (bound : Z) : bool :=
  if 0 <=? e then bound <=? Zpos m * 2 ^ e
  else bound * 2 ^ (- e) <=? Zpos m.

(** [floor (m * 2^e * 10^f + 1/2)]. *)
Definition scaled_round (m : positive) (e : Z) (f : Z) : Z :=
  if 0 <=? e then Zpos m * 2 ^ e * 10 ^ f
  else (2 * Zpos m * 10 ^ f + 2 ^ (- e)) / 2 ^ (1 - e).

(** The digits of [n] with the point [f] places from the right. *)
Definition fixed_digits (f : nat) (n : Z) : string :=
  match f with
  | O => dec n
  | S _ =>
      let m := pad_left (S f) (dec n) in
      let k := String.length m in
      substring 0 (k - f) m ++ "." ++ substring (k - f) f m
  end.

(** *** [Number::toString] at or above [10^21]

    [toFixed] hands numbers of that size to the general number printer,
    which writes the shortest digit string that reads back as the same
    number, in exponent form.  Such a number is an integer [X]. *)

Definition reads_back (x : number) (V : Z) : bool := SFeqb (of_Z V) x.

(** The shortest [V] (fewest significant digits, then nearest to [X]) that
    reads back as [x]; [k] is the number of significant digits tried and
    [d] the number of digits of [X]. *)
Fixpoint shortest (fuel : nat) (k d : nat) (x : number) (X : Z) : Z :=
  match fuel with
  | O => X
  | S fuel' =>
      let P := 10 ^ Z.of_nat (d - k) in
      let lo := (X / P) * P in
      let hi := lo + P in
      match reads_back x lo, reads_back x hi with
      | true, true =>
          match (X - lo) ?= (hi - X) with
          | Lt => lo
          | Gt => hi
          | Eq => if Z.even (lo / P) then lo else hi
          end
      | true, false => lo
      | false, true => hi
      | false, false => shortest fuel' (S k) d x X
      end
  end.

Fixpoint strip_zeros_rev (s : list ascii) : list ascii :=
  match s with
  | "0"%char :: s' => strip_zeros_rev s'
  | _ => s
  end.

Definition strip_trailing_zeros (s : string) : string :=
  string_of_list_ascii (rev (strip_zeros_rev (rev (list_ascii_of_string s)))).

Definition exponent_form (V : Z) : string :=
  let all := dec V in
  let digits := strip_trailing_zeros all in
  let e := dec (Z.of_nat (String.length all) - 1) in
  match digits with
  | String c "" => String c "" ++ "e+" ++ e
  | String c rest => String c "" ++ "." ++ rest ++ "e+" ++ e
  | "" => "0"
  end.

Definition toString_large (x : number) (X : Z) : string :=
  let d := String.length (dec X) in
  exponent_form (shortest d 1 d x X).

Definition toFixed (f : nat) (x : number) : string :=
  match x with
  | S754_nan => "NaN"
  | S754_infinity s => if s then "-Infinity" else "Infinity"
  | S754_zero _ => fixed_digits f 0
  | S754_finite s m e =>
      (if s then "-" else "") ++
      (if mag_ge m e (10 ^ 21)
       then toString_large (S754_finite false m e) (Zpos m * 2 ^ e)
       else fixed_digits f (scaled_round m e (Z.of_nat f)))
  end.

(** ** Strings to numbers  (ECMA-262, 7.1.4.1.1 StringToNumber)

    [>=] between a string and a number first turns the string into a
    number.  Strings are sequences of code units below 256; the grammar is
    the one of [StringNumericLiteral]: optional white space around an
    optionally signed decimal literal (digits, point, exponent part,
    [Infinity]) or an unsigned [0x]/[0o]/[0b] integer.  The empty string is
    [+0] and anything else is NaN. *)

Definition is_white_space (c : ascii) : bool :=
  match nat_of_ascii c with
  | 9%nat | 10%nat | 11%nat | 12%nat | 13%nat | 32%nat | 160%nat => true
  | _ => false
  end.

Fixpoint drop_white_space (s : list ascii) : list ascii :=
  match s with
  | c :: s' => if is_white_space c then drop_white_space s' else s
  | [] => []
  end.

Definition trim (s : list ascii) : list ascii :=
  rev (drop_white_space (rev (drop_white_space s))).

(** The value of [c] as a digit in [base] (2, 8, 10 or 16). *)
Definition digit_value (base : Z) (c : ascii) : option Z :=
  let n := Z.of_nat (nat_of_ascii c) in
  let v :=
    if (48 <=? n) && (n <=? 57) then n - 48
    else if (97 <=? n) && (n <=? 102) then n - 87
    else if (65 <=? n) && (n <=? 70) then n - 55
    else base in
  if v <? base then Some v else None.

(** The longest prefix of digits: its value, its length, and what follows. *)
Fixpoint digits (base : Z) (acc count : Z) (s : list ascii) : Z * Z * list ascii :=
  match s with
  | c :: s' =>
      match digit_value base c with
      | Some v => digits base (acc * base + v) (count + 1) s'
      | None => (acc, count, s)
      end
  | [] => (acc, count, [])
  end.

Variant literal : Type :=
  | LitInfinity
  | LitDecimal (N : Z) (E : Z).    (* N * 10^E *)

(** [ExponentPart], and nothing after it. *)
Definition exponent_part (s : list ascii) : option Z :=
  match s with
  | [] => Some 0
  | c :: s' =>
      if (Ascii.eqb c "e" || Ascii.eqb c "E")%bool then
        let '(neg, s'') :=
          match s' with
          | "-"%char :: t => (true, t)
          | "+"%char :: t => (false, t)
          | _ => (false, s')
          end in
        match digits 10 0 0 s'' with
        | (x, nx, []) => if 0 <? nx then Some (if neg then - x else x) else None
        | _ => None
        end
      else None
  end.

(** [StrUnsignedDecimalLiteral]. *)
Definition unsigned_decimal (s : list ascii) : option literal :=
  if list_eq_dec ascii_dec s (list_ascii_of_string "Infinity") then Some LitInfinity
  else
    let '(i, ni, r1) := digits 10 0 0 s in
    let '(f, nf, r2) :=
      match r1 with
      | "."%char :: t => digits 10 0 0 t
      | _ => (0, 0, r1)
      end in
    if 0 <? ni + nf then
      match exponent_part r2 with
      | Some E => Some (LitDecimal (i * 10 ^ nf + f) (E - nf))
      | None => None
      end
    else None.

(** [NonDecimalIntegerLiteral]: [0x], [0o] or [0b] and at least one digit. *)
Definition non_decimal (s : list ascii) : option Z :=
  match s with
  | "0"%char :: p :: t =>
      let base :=
        if (Ascii.eqb p "x" || Ascii.eqb p "X")%bool then 16
        else if (Ascii.eqb p "o" || Ascii.eqb p "O")%bool then 8
        else if (Ascii.eqb p "b" || Ascii.eqb p "B")%bool then 2
        else 0 in
      if base =? 0 then None
      else
        match digits base 0 0 t with
        | (v, n, []) => if 0 <? n then Some v else None
        | _ => None
        end
  | _ => None
  end.

(** The number nearest to [(-1)^neg * N * 10^E]. *)
Definition number_of_decimal (neg : bool) (N E : Z) : number :=
  match N with
  | Zpos p =>
      if 0 <=? E then num ((if neg then -1 else 1) * N * 10 ^ E) 0
      else div (S754_finite neg p 0) (S754_finite false (Z.to_pos (10 ^ (- E))) 0)
  | _ => S754_zero neg
  end.

Definition StringToNumber (str : string) : number :=
  match trim (list_ascii_of_string str) with
  | [] => S754_zero false
  | (c :: t) as s =>
      match non_decimal s with
      | Some v => of_Z v
      | None =>
          let '(neg, body) :=
            if Ascii.eqb c "-" then (true, t)
            else if Ascii.eqb c "+" then (false, t)
            else (false, s) in
          match unsigned_decimal body with
          | Some LitInfinity => S754_infinity neg
          | Some (LitDecimal N E) => number_of_decimal neg N E
          | None => NaN
          end
      end
  end.

(** ** Values, truthiness and coercion

    The values a JSON scalar field can hold once parsed, with [VUndefined]
    for a field that is absent. *)

Variant value : Type :=
  | VUndefined
  | VNull
  | VBool (b : bool)
  | VNum (n : number)
  | VStr (s : string).

(** [ToBoolean]: what an [if (v)] tests. *)
Definition truthy (v : value) : bool :=
  match v with
  | VUndefined | VNull => false
  | VBool b => b
  | VNum (S754_zero _) | VNum S754_nan => false
  | VNum _ => true
  | VStr s => negb (String.eqb s "")
  end.

Definition ToNumber (v : value) : number :=
  match v with
  | VUndefined => NaN
  | VNull => S754_zero false
  | VBool b => if b then of_Z 1 else S754_zero false
  | VNum n => n
  | VStr s => StringToNumber s
  end.

(** ** Exceptions *)

Variant Error : Type :=
  | TypeError            (* a call or property read on a value that has none *)
  | RangeError           (* [toISOString] of an invalid date *)
  | SyntaxError          (* [JSON.parse], [response.json()] *)
  | Rejected             (* a promise of the network or of the plot library rejects *)
  | ErrorObject (message : string).   (* [new Error(message)] *)

Variant completion (A : Type) : Type :=
  | Normal (a : A)
  | Abrupt (e : Error).
Arguments Abrupt {A} e.

(** [v.toFixed(f)]: only numbers have the method. *)
Definition call_toFixed (v : value) (f : nat) : completion string :=
  match v with
  | VNum n => Normal (toFixed f n)
  | _ => Abrupt TypeError
  end.

End JS.

(* ================================================================== *)
(** * The page: DOM, console, timers, network, plot library *)
(* ================================================================== *)

Module Page.

Import JS.
Open Scope string_scope.

(** ** What the backend answers

    [Response.t] is the parsed body of an [/api/...] answer, the object the
    script calls [data]. *)

Module Response.

(** [data.data] is JSON text; [JSON.parse] either throws on it or yields an
    object whose [data] and [layout] go to the plot library as they are. *)
Variant chart_text : Type :=
  | Malformed
  | ChartText (data layout : string).

(** A [signal] or [llmAnalysis] object: its [message] is text, its
    [details] markup that may be missing. *)
Record panel : Type := Panel {
  message : string;
  details : option string
}.

(** [success] is the truthiness of [data.success].  The three summary
    fields are kept as the JSON scalars they arrive as, since the script
    calls a method on them that only numbers have. *)
Record t : Type := Make {
  success : bool;
  error : string;
  data : chart_text;
  lastPrice : value;
  priceChange : value;
  volume : value;
  lastUpdate : option Z;      (* time value of [new Date(data.lastUpdate)];
                                 [None] is an Invalid Date *)
  signal : option panel;      (* [None]: absent or null *)
  llmAnalysis : option panel
}.

End Response.

(** The two awaits of a request: [fetch] rejects, or resolves to a response
    whose [json()] rejects ([None]) or resolves to the parsed body.  [fetch]
    resolves whatever the HTTP status, and the script does not look at it. *)
Variant FetchOutcome : Type :=
  | NetworkFailure
  | Responds (body : option Response.t).

(** An awaited call into the plot library resolves or rejects. *)
Variant Settles : Type := Resolves | Rejects.

Variant Request : Type :=
  | GET_chart_data (timeframe : string)
  | POST_update (timeframe : string) (lastUpdate : Z)
  | POST_toggle_indicator (indicator : string)
  | POST_toggle_signals.

(** ** The plot on [#mainChart] *)

Variant Config : Type :=
  | DefaultConfig
  | GivenConfig (responsive scrollZoom displayModeBar : bool)
                (modeBarButtonsToRemove : list string).

Record Plot : Type := MkPlot {
  traces : string;
  layout : string;
  config : Config
}.

(** The graph div [newPlot] resolves to. *)
Variant Handle : Type := GraphDiv.

(** ** The elements the class holds in [this.elements] *)

Record Elements : Type := MkElements {
  mainChart_plot : option Plot;
  timeframeSelect_value : string;
  rsiToggle_checked : bool;
  macdToggle_checked : bool;
  signalsToggle_checked : bool;
  lastPrice_textContent : string;
  priceChange_textContent : string;
  priceChange_className : string;
  volume_textContent : string;
  signalMessage_textContent : string;
  signalDetails_innerHTML : string;
  llmMessage_textContent : string;
  llmDetails_innerHTML : string
}.

(** ** What the page does that can be observed, newest first *)

Variant Effect : Type :=
  | Fetch (r : Request)
  | ConsoleError (msg : string)
  | Alert (msg : string)
  | NewPlot
  | React
  | SetInterval (id : nat) (ms : Z)
  | ClearInterval (id : nat).

(** A [Date] object by its time value. *)
Variant Date : Type := MkDate (timeValue : option Z).

(** ** The state: the fields of [DashboardManager], the elements, and the
    window's timers and observable effects *)

Record State : Type := MkState {
  mainChart : option Handle;
  lastUpdateTime : option Date;
  updateInterval : option nat;
  timeframe : string;
  elements : Elements;
  timers : list (nat * Z);       (* active [setInterval] timers: id, period in ms *)
  nextTimer : nat;
  effects : list Effect
}.

Definition set_mainChart (v : option Handle) (s : State) : State :=
  MkState v (lastUpdateTime s) (updateInterval s) (timeframe s) (elements s)
          (timers s) (nextTimer s) (effects s).
Definition set_lastUpdateTime (v : option Date) (s : State) : State :=
  MkState (mainChart s) v (updateInterval s) (timeframe s) (elements s)
          (timers s) (nextTimer s) (effects s).
Definition set_updateInterval (v : option nat) (s : State) : State :=
  MkState (mainChart s) (lastUpdateTime s) v (timeframe s) (elements s)
          (timers s) (nextTimer s) (effects s).
Definition set_timeframe (v : string) (s : State) : State :=
  MkState (mainChart s) (lastUpdateTime s) (updateInterval s) v (elements s)
          (timers s) (nextTimer s) (effects s).
Definition set_elements (v : Elements) (s : State) : State :=
  MkState (mainChart s) (lastUpdateTime s) (updateInterval s) (timeframe s) v
          (timers s) (nextTimer s) (effects s).
Definition set_timers (v : list (nat * Z)) (n : nat) (s : State) : State :=
  MkState (mainChart s) (lastUpdateTime s) (updateInterval s) (timeframe s)
          (elements s) v n (effects s).
Definition emit (e : Effect) (s : State) : State :=
  MkState (mainChart s) (lastUpdateTime s) (updateInterval s) (timeframe s)
          (elements s) (timers s) (nextTimer s) (e :: effects s).

Definition set_plot (v : option Plot) (e : Elements) : Elements :=
  MkElements v (timeframeSelect_value e) (rsiToggle_checked e)
    (macdToggle_checked e) (signalsToggle_checked e) (lastPrice_textContent e)
    (priceChange_textContent e) (priceChange_className e) (volume_textContent e)
    (signalMessage_textContent e) (signalDetails_innerHTML e)
    (llmMessage_textContent e) (llmDetails_innerHTML e).
Definition set_select (v : string) (e : Elements) : Elements :=
  MkElements (mainChart_plot e) v (rsiToggle_checked e)
    (macdToggle_checked e) (signalsToggle_checked e) (lastPrice_textContent e)
    (priceChange_textContent e) (priceChange_className e) (volume_textContent e)
    (signalMessage_textContent e) (signalDetails_innerHTML e)
    (llmMessage_textContent e) (llmDetails_innerHTML e).
Definition set_toggles (rsi macd signals : bool) (e : Elements) : Elements :=
  MkElements (mainChart_plot e) (timeframeSelect_value e) rsi macd signals
    (lastPrice_textContent e)
    (priceChange_textContent e) (priceChange_className e) (volume_textContent e)
    (signalMessage_textContent e) (signalDetails_innerHTML e)
    (llmMessage_textContent e) (llmDetails_innerHTML e).
Definition set_lastPrice (v : string) (e : Elements) : Elements :=
  MkElements (mainChart_plot e) (timeframeSelect_value e) (rsiToggle_checked e)
    (macdToggle_checked e) (signalsToggle_checked e) v
    (priceChange_textContent e) (priceChange_className e) (volume_textContent e)
    (signalMessage_textContent e) (signalDetails_innerHTML e)
    (llmMessage_textContent e) (llmDetails_innerHTML e).
Definition set_priceChange_text (v : string) (e : Elements) : Elements :=
  MkElements (mainChart_plot e) (timeframeSelect_value e) (rsiToggle_checked e)
    (macdToggle_checked e) (signalsToggle_checked e) (lastPrice_textContent e)
    v (priceChange_className e) (volume_textContent e)
    (signalMessage_textContent e) (signalDetails_innerHTML e)
    (llmMessage_textContent e) (llmDetails_innerHTML e).
Definition set_priceChange_class (v : string) (e : Elements) : Elements :=
  MkElements (mainChart_plot e) (timeframeSelect_value e) (rsiToggle_checked e)
    (macdToggle_checked e) (signalsToggle_checked e) (lastPrice_textContent e)
    (priceChange_textContent e) v (volume_textContent e)
    (signalMessage_textContent e) (signalDetails_innerHTML e)
    (llmMessage_textContent e) (llmDetails_innerHTML e).
Definition set_volume (v : string) (e : Elements) : Elements :=
  MkElements (mainChart_plot e) (timeframeSelect_value e) (rsiToggle_checked e)
    (macdToggle_checked e) (signalsToggle_checked e) (lastPrice_textContent e)
    (priceChange_textContent e) (priceChange_className e) v
    (signalMessage_textContent e) (signalDetails_innerHTML e)
    (llmMessage_textContent e) (llmDetails_innerHTML e).
Definition set_signal (msg det : string) (e : Elements) : Elements :=
  MkElements (mainChart_plot e) (timeframeSelect_value e) (rsiToggle_checked e)
    (macdToggle_checked e) (signalsToggle_checked e) (lastPrice_textContent e)
    (priceChange_textContent e) (priceChange_className e) (volume_textContent e)
    msg det
    (llmMessage_textContent e) (llmDetails_innerHTML e).
Definition set_llm (msg det : string) (e : Elements) : Elements :=
  MkElements (mainChart_plot e) (timeframeSelect_value e) (rsiToggle_checked e)
    (macdToggle_checked e) (signalsToggle_checked e) (lastPrice_textContent e)
    (priceChange_textContent e) (priceChange_className e) (volume_textContent e)
    (signalMessage_textContent e) (signalDetails_innerHTML e)
    msg det.

(** ** Computations: state plus exceptions

    A computation runs from a state and either returns a value or throws;
    in both cases the state it reached is kept, since nothing in the script
    undoes a write when a later statement throws. *)

Variant outcome (A : Type) : Type :=
  | Returns (a : A) (s : State)
  | Throws (e : Error) (s : State).
Arguments Throws {A} e s.

Definition M (A : Type) : Type := State -> outcome A.

Definition ret {A} (a : A) : M A := fun s => Returns a s.
Definition throw {A} (e : Error) : M A := fun s => Throws e s.
Definition bind {A B} (c : M A) (k : A -> M B) : M B :=
  fun s => match c s with
           | Returns a s' => k a s'
           | Throws e s' => Throws e s'
           end.
Definition try_catch {A} (body : M A) (handler : Error -> M A) : M A :=
  fun s => match body s with
           | Returns a s' => Returns a s'
           | Throws e s' => handler e s'
           end.
Definition gets {A} (f : State -> A) : M A := fun s => Returns (f s) s.
Definition modify (f : State -> State) : M unit := fun s => Returns tt (f s).
Definition lift {A} (c : completion A) : M A :=
  match c with
  | Normal a => ret a
  | Abrupt e => throw e
  end.
Definition when (b : bool) (c : M unit) : M unit := if b then c else ret tt.

(** The state a computation ends in, however it ends. *)
Definition final {A} (o : outcome A) : State :=
  match o with
  | Returns _ s => s
  | Throws _ s => s
  end.

Declare Scope js_scope.
Delimit Scope js_scope with js.
Notation "x <- c1 ;; c2" := (bind c1 (fun x => c2))
  (at level 100, c1 at next level, right associativity) : js_scope.
Notation "c1 ;; c2" := (bind c1 (fun _ => c2))
  (at level 100, right associativity) : js_scope.
Open Scope js_scope.

(** ** Window and library calls *)

Definition console_error (msg : string) : M unit := modify (emit (ConsoleError msg)).
Definition alert (msg : string) : M unit := modify (emit (Alert msg)).

Definition setInterval (ms : Z) : M nat :=
  fun s =>
    let id := nextTimer s in
    Returns id (emit (SetInterval id ms) (set_timers ((id, ms) :: timers s) (S id) s)).

Definition clearInterval (id : nat) : M unit :=
  modify (fun s =>
    emit (ClearInterval id)
         (set_timers (filter (fun t => negb (Nat.eqb (fst t) id)) (timers s))
                     (nextTimer s) s)).

(** The promise of a request settles: rejected, or resolved to a response. *)
Definition awaited (net : FetchOutcome) : M (option Response.t) :=
  match net with
  | NetworkFailure => throw Rejected
  | Responds body => ret body
  end.

(** [await fetch(...)]: the request goes out, then its promise settles. *)
Definition fetch (r : Request) (net : FetchOutcome) : M (option Response.t) :=
  modify (emit (Fetch r)) ;;
  awaited net.

(** [await response.json()]. *)
Definition json (response : option Response.t) : M Response.t :=
  match response with
  | Some data => ret data
  | None => throw SyntaxError
  end.

(** [JSON.parse(data.data)], as the pair [chartData.data], [chartData.layout]. *)
Definition JSON_parse (text : Response.chart_text) : M (string * string) :=
  match text with
  | Response.Malformed => throw SyntaxError
  | Response.ChartText d l => ret (d, l)
  end.

(** [date.toISOString()] on [this.lastUpdateTime]: a [TypeError] on [null],
    a [RangeError] on an Invalid Date.  The ISO text is kept as the time
    value it prints. *)
Definition toISOString (d : option Date) : M Z :=
  match d with
  | None => throw TypeError
  | Some (MkDate None) => throw RangeError
  | Some (MkDate (Some t)) => ret t
  end.

(** [Plotly.newPlot(div, data, layout, config)] draws a fresh plot on the
    div and resolves to it; a rejected call leaves the div as it was. *)
Definition Plotly_newPlot (settles : Settles) (data layout : string) (cfg : Config)
  : M Handle :=
  modify (emit NewPlot) ;;
  match settles with
  | Rejects => throw Rejected
  | Resolves =>
      modify (fun s => set_elements (set_plot (Some (MkPlot data layout cfg)) (elements s)) s) ;;
      ret GraphDiv
  end.

(** [Plotly.react(div, data, layout)] brings the plot on the div to the new
    traces and layout, keeping the configuration it was created with (a div
    with no plot yet gets one with the default configuration). *)
Definition Plotly_react (settles : Settles) (data layout : string) : M unit :=
  modify (emit React) ;;
  match settles with
  | Rejects => throw Rejected
  | Resolves =>
      modify (fun s =>
        let cfg := match mainChart_plot (elements s) with
                   | Some p => config p
                   | None => DefaultConfig
                   end in
        set_elements (set_plot (Some (MkPlot data layout cfg)) (elements s)) s)
  end.

End Page.

(* ================================================================== *)
(** * [dashboard.js]: the [DashboardManager] class *)
(* ================================================================== *)

Module Dashboard.

Import JS Page.
Open Scope string_scope.
Open Scope js_scope.

(** The page as the template serves it and the constructor leaves it before
    [initialize()] runs: no chart, no timer, timeframe ['1h'], the summary
    showing dashes and every indicator box ticked. *)
Definition initial_elements : Elements :=
  {| mainChart_plot := None;
     timeframeSelect_value := "1h";
     rsiToggle_checked := true;
     macdToggle_checked := true;
     signalsToggle_checked := true;
     lastPrice_textContent := "-";
     priceChange_textContent := "-";
     priceChange_className := "value";
     volume_textContent := "-";
     signalMessage_textContent := "No signal available";
     signalDetails_innerHTML := "";
     llmMessage_textContent := "No analysis available";
     llmDetails_innerHTML := "" |}.

Definition constructed : State :=
  {| mainChart := None;
     lastUpdateTime := None;
     updateInterval := None;
     timeframe := "1h";
     elements := initial_elements;
     timers := [];
     nextTimer := 1;
     effects := [] |}.

Definition update_elements (f : Elements -> Elements) : M unit :=
  modify (fun s => set_elements (f (elements s)) s).

(** ** [showError(message)] *)
Definition showError (message : string) : M unit :=
  console_error message ;;
  alert message.

(** ** [formatVolume(volume)] *)
Definition formatVolume (volume : value) : completion string :=
  if ge (ToNumber volume) (of_Z 1000000000) then
    Normal (toFixed 2 (div (ToNumber volume) (of_Z 1000000000)) ++ "B")
  else if ge (ToNumber volume) (of_Z 1000000) then
    Normal (toFixed 2 (div (ToNumber volume) (of_Z 1000000)) ++ "M")
  else if ge (ToNumber volume) (of_Z 1000) then
    Normal (toFixed 2 (div (ToNumber volume) (of_Z 1000)) ++ "K")
  else call_toFixed volume 2.

(** ** [updateMarketSummary(data)]

    Each block is guarded by the truthiness of its field.  [change] is the
    string [toFixed] returned, so [change >= 0] compares the number that
    string reads as. *)
Definition update_lastPrice (data : Response.t) : M unit :=
  when (truthy (Response.lastPrice data))
    (text <- lift (call_toFixed (Response.lastPrice data) 2) ;;
     update_elements (set_lastPrice text)).

Definition update_priceChange (data : Response.t) : M unit :=
  when (truthy (Response.priceChange data))
    (change <- lift (call_toFixed (Response.priceChange data) 2) ;;
     update_elements (set_priceChange_text (change ++ "%")) ;;
     update_elements (set_priceChange_class
       ("value " ++ (if ge (ToNumber (VStr change)) (of_Z 0)
                     then "positive" else "negative")))).

Definition update_volume (data : Response.t) : M unit :=
  when (truthy (Response.volume data))
    (text <- lift (formatVolume (Response.volume data)) ;;
     update_elements (set_volume text)).

(** [panel.details || ''] *)
Definition details_or_empty (p : Response.panel) : string :=
  match Response.details p with
  | Some d => d
  | None => ""
  end.

Definition update_signal (data : Response.t) : M unit :=
  match Response.signal data with
  | Some sg => update_elements (set_signal (Response.message sg) (details_or_empty sg))
  | None => ret tt
  end.

Definition update_llmAnalysis (data : Response.t) : M unit :=
  match Response.llmAnalysis data with
  | Some a => update_elements (set_llm (Response.message a) (details_or_empty a))
  | None => ret tt
  end.

Definition updateMarketSummary (data : Response.t) : M unit :=
  update_lastPrice data ;;
  update_priceChange data ;;
  update_volume data ;;
  update_signal data ;;
  update_llmAnalysis data.

(** The options object handed to [Plotly.newPlot]. *)
Definition plot_options : Config :=
  GivenConfig true true true ["autoScale2d"; "lasso2d"; "select2d"].

(** ** [fetchChartData()]

    [net] and [plot] are what the awaited request and the awaited plot call
    turn out to be. *)

(** The [if (!this.mainChart) ... else ...] statement. *)
Definition draw (plot : Settles) (chartData : string * string) : M unit :=
  chart <- gets mainChart ;;
  match chart with
  | None =>
      h <- Plotly_newPlot plot (fst chartData) (snd chartData) plot_options ;;
      modify (set_mainChart (Some h))
  | Some _ =>
      Plotly_react plot (fst chartData) (snd chartData)
  end.

(** The statements that follow [await fetch(...)]. *)
Definition fetchChartData_rest (response : option Response.t) (plot : Settles)
  : M unit :=
  data <- json response ;;
  when (negb (Response.success data)) (throw (ErrorObject (Response.error data))) ;;
  chartData <- JSON_parse (Response.data data) ;;
  draw plot chartData ;;
  updateMarketSummary data ;;
  modify (set_lastUpdateTime (Some (MkDate (Response.lastUpdate data)))).

Definition fetchChartData_try (net : FetchOutcome) (plot : Settles) : M unit :=
  tf <- gets timeframe ;;
  response <- fetch (GET_chart_data tf) net ;;
  fetchChartData_rest response plot.

Definition fetchChartData_catch (error : Error) : M unit :=
  console_error "Failed to fetch chart data:" ;;
  showError "Failed to fetch chart data".

Definition fetchChartData (net : FetchOutcome) (plot : Settles) : M unit :=
  try_catch (fetchChartData_try net plot) fetchChartData_catch.

(** ** [startRealTimeUpdates()] *)

Definition intervals : list (string * Z) :=
  [("1m", 1000); ("5m", 5000); ("15m", 15000);
   ("1h", 60000); ("4h", 240000); ("1d", 300000)].

Fixpoint lookup (key : string) (table : list (string * Z)) : option Z :=
  match table with
  | [] => None
  | (k, v) :: rest => if String.eqb k key then Some v else lookup key rest
  end.

(** The literal is an ordinary object: a key it does not own is looked up
    on [Object.prototype] (ECMA-262, 20.1.3 and B.2.2.1), which holds eleven
    functions and the accessor [__proto__], whose value is the prototype
    object itself.  No script of the page adds to it. *)
Definition Object_prototype : list string :=
  ["constructor"; "hasOwnProperty"; "isPrototypeOf"; "propertyIsEnumerable";
   "toLocaleString"; "toString"; "valueOf"; "__proto__";
   "__defineGetter__"; "__defineSetter__"; "__lookupGetter__"; "__lookupSetter__"].

(** [intervals[key]]: a number of the literal, a function or an object of
    the prototype, or [undefined]. *)
Variant property : Type :=
  | OwnNumber (ms : Z)
  | Inherited
  | Missing.

Definition intervals_at (key : string) : property :=
  match lookup key intervals with
  | Some ms => OwnNumber ms
  | None =>
      if existsb (String.eqb key) Object_prototype then Inherited else Missing
  end.

(** [intervals[this.timeframe] || 60000] as [setInterval] takes it, in
    milliseconds.  A number of the literal is not zero and so is kept; an
    inherited function or object is truthy and is kept too, and
    [setInterval] turns its timeout into an integer: such a value is not a
    number (NaN) and becomes 0; [undefined] gives way to 60000. *)
Definition cadence (tf : string) : Z :=
  match intervals_at tf with
  | OwnNumber ms => if Z.eqb ms 0 then 60000 else ms
  | Inherited => 0
  | Missing => 60000
  end.

Definition startRealTimeUpdates : M unit :=
  running <- gets updateInterval ;;
  match running with
  | Some (S _ as id) => clearInterval id
  | _ => ret tt
  end ;;
  tf <- gets timeframe ;;
  id <- setInterval (cadence tf) ;;
  modify (set_updateInterval (Some id)).

(** ** [fetchUpdate()] *)

(** The statements that follow [await fetch(...)]. *)
Definition fetchUpdate_rest (response : option Response.t) (plot : Settles)
  : M unit :=
  data <- json response ;;
  when (negb (Response.success data)) (throw (ErrorObject (Response.error data))) ;;
  chartData <- JSON_parse (Response.data data) ;;
  Plotly_react plot (fst chartData) (snd chartData) ;;
  updateMarketSummary data ;;
  modify (set_lastUpdateTime (Some (MkDate (Response.lastUpdate data)))).

Definition fetchUpdate_try (net : FetchOutcome) (plot : Settles) : M unit :=
  tf <- gets timeframe ;;
  last <- gets lastUpdateTime ;;
  iso <- toISOString last ;;
  response <- fetch (POST_update tf iso) net ;;
  fetchUpdate_rest response plot.

(** Updates show no error, they only log it. *)
Definition fetchUpdate_catch (error : Error) : M unit :=
  console_error "Failed to fetch update:".

Definition fetchUpdate (net : FetchOutcome) (plot : Settles) : M unit :=
  try_catch (fetchUpdate_try net plot) fetchUpdate_catch.

(** ** [toggleIndicator(indicator)] and [toggleSignals()]

    [toggled] is what the toggle request turns out to be; [net] and [plot]
    serve the refresh that follows a successful toggle. *)
Definition toggleIndicator (indicator : string)
    (toggled net : FetchOutcome) (plot : Settles) : M unit :=
  try_catch
    (response <- fetch (POST_toggle_indicator indicator) toggled ;;
     data <- json response ;;
     when (negb (Response.success data)) (throw (ErrorObject (Response.error data))) ;;
     fetchChartData net plot)
    (fun error =>
       console_error ("Failed to toggle " ++ indicator ++ ":") ;;
       showError ("Failed to toggle " ++ indicator)).

Definition toggleSignals (toggled net : FetchOutcome) (plot : Settles) : M unit :=
  try_catch
    (response <- fetch POST_toggle_signals toggled ;;
     data <- json response ;;
     when (negb (Response.success data)) (throw (ErrorObject (Response.error data))) ;;
     fetchChartData net plot)
    (fun error =>
       console_error "Failed to toggle signals:" ;;
       showError "Failed to toggle signals").

(** ** [initialize()]

    The method run with nothing else happening between its request and the
    answer.  Below, [initialize_send] and [initialize_resume] are its two
    halves around the request, and [initialize_continue] runs it from one
    [await] to the next, with room for other events in between. *)
Definition initialize_catch (error : Error) : M unit :=
  console_error "Failed to initialize dashboard:" ;;
  showError "Failed to initialize dashboard".

Definition initialize (net : FetchOutcome) (plot : Settles) : M unit :=
  try_catch
    (fetchChartData net plot ;;
     startRealTimeUpdates)
    initialize_catch.

(** ** The listeners of [bindEvents()]

    A [change] event reaches its listener after the browser has already
    given the control its new value: the select shows the chosen option,
    the checkbox is already flipped.  The [resize] listener only asks the
    plot library to refit the plot and is left out. *)

(** The listener on [timeframeSelect]; [value] is [e.target.value]. *)
Definition on_timeframe_change (value : string)
    (net : FetchOutcome) (plot : Settles) : M unit :=
  modify (set_timeframe value) ;;
  fetchChartData net plot.

Definition on_rsiToggle_change := toggleIndicator "rsi".
Definition on_macdToggle_change := toggleIndicator "macd".
Definition on_signalsToggle_change := toggleSignals.

(** The user picks an option of the select. *)
Definition select_timeframe (value : string)
    (net : FetchOutcome) (plot : Settles) : M unit :=
  update_elements (set_select value) ;;
  on_timeframe_change value net plot.

(** The user clicks the RSI or the MACD box. *)
Definition click_rsiToggle (toggled net : FetchOutcome) (plot : Settles) : M unit :=
  update_elements (fun e =>
    set_toggles (negb (rsiToggle_checked e)) (macdToggle_checked e)
                (signalsToggle_checked e) e) ;;
  on_rsiToggle_change toggled net plot.

Definition click_macdToggle (toggled net : FetchOutcome) (plot : Settles) : M unit :=
  update_elements (fun e =>
    set_toggles (rsiToggle_checked e) (negb (macdToggle_checked e))
                (signalsToggle_checked e) e) ;;
  on_macdToggle_change toggled net plot.

(** The callback of the polling timer, run when timer [id] is still active. *)
Definition timer_fires (id : nat) (net : FetchOutcome) (plot : Settles) : M unit :=
  active <- gets timers ;;
  when (existsb (fun t => Nat.eqb (fst t) id) active) (fetchUpdate net plot).

(** ** Requests in flight

    An [async] method runs up to its first [await] and is resumed when the
    awaited promise settles; other listeners and timer callbacks run in
    between.  Each method is cut at its [fetch]: [_send] is the part up to
    the request, [_resume] the part that runs once the response is there. *)

Definition fetchChartData_send : M unit :=
  tf <- gets timeframe ;;
  modify (emit (Fetch (GET_chart_data tf))).

Definition fetchChartData_resume (net : FetchOutcome) (plot : Settles) : M unit :=
  try_catch
    (response <- awaited net ;;
     fetchChartData_rest response plot)
    fetchChartData_catch.

(** [fetchUpdate] may throw before its request is made; [true] says the
    request went out. *)
Definition fetchUpdate_send : M bool :=
  try_catch
    (tf <- gets timeframe ;;
     last <- gets lastUpdateTime ;;
     iso <- toISOString last ;;
     modify (emit (Fetch (POST_update tf iso))) ;;
     ret true)
    (fun error => fetchUpdate_catch error ;; ret false).

Definition fetchUpdate_resume (net : FetchOutcome) (plot : Settles) : M unit :=
  try_catch
    (response <- awaited net ;;
     fetchUpdate_rest response plot)
    fetchUpdate_catch.

(** [initialize] awaits [fetchChartData]: it is suspended with it at the
    request and goes on to [startRealTimeUpdates] once [fetchChartData] has
    handled the answer, reading [this.timeframe] as it is by then. *)
Definition initialize_send : M unit := fetchChartData_send.

Definition initialize_resume (net : FetchOutcome) (plot : Settles) : M unit :=
  try_catch
    (fetchChartData_resume net plot ;;
     startRealTimeUpdates)
    initialize_catch.

(** *** The load, cut at every [await]

    [fetchChartData] awaits three promises in turn: the request, the body
    of the response, and the plot call; at each of them the page can run
    other listeners before the method goes on.  [Suspended] says where the
    method waits and what it holds by then: the response, or the parsed
    body with the chart data and whether it called [newPlot] or [react]. *)
Variant Suspended : Type :=
  | AtFetch
  | AtJson (response : option Response.t)
  | AtPlot (data : Response.t) (chartData : string * string) (creating : bool).

(** What the settled promise of a plot call does to the div: see
    [Plotly_newPlot] and [Plotly_react]. *)
Definition plot_settles (settles : Settles) (chartData : string * string)
    (creating : bool) : M unit :=
  match settles with
  | Rejects => throw Rejected
  | Resolves =>
      if creating then
        modify (fun s =>
          set_elements
            (set_plot (Some (MkPlot (fst chartData) (snd chartData) plot_options))
                      (elements s)) s) ;;
        modify (set_mainChart (Some GraphDiv))
      else
        modify (fun s =>
          let cfg := match mainChart_plot (elements s) with
                     | Some p => config p
                     | None => DefaultConfig
                     end in
          set_elements
            (set_plot (Some (MkPlot (fst chartData) (snd chartData) cfg))
                      (elements s)) s)
  end.

(** [fetchChartData] from one [await] to the next, inside its [try]: the
    result is where it waits next, or [None] when the method has ended. *)
Definition fetchChartData_continue (at_ : Suspended)
    (net : FetchOutcome) (plot : Settles) : M (option Suspended) :=
  try_catch
    (match at_ with
     | AtFetch =>
         response <- awaited net ;;
         ret (Some (AtJson response))
     | AtJson response =>
         data <- json response ;;
         when (negb (Response.success data))
           (throw (ErrorObject (Response.error data))) ;;
         chartData <- JSON_parse (Response.data data) ;;
         chart <- gets mainChart ;;
         match chart with
         | None =>
             modify (emit NewPlot) ;;
             ret (Some (AtPlot data chartData true))
         | Some _ =>
             modify (emit React) ;;
             ret (Some (AtPlot data chartData false))
         end
     | AtPlot data chartData creating =>
         plot_settles plot chartData creating ;;
         updateMarketSummary data ;;
         modify (set_lastUpdateTime (Some (MkDate (Response.lastUpdate data)))) ;;
         ret None
     end)
    (fun error => fetchChartData_catch error ;; ret None).

(** [initialize] waits with [fetchChartData] and starts the timer as soon
    as [fetchChartData] has ended. *)
Definition initialize_continue (at_ : Suspended)
    (net : FetchOutcome) (plot : Settles) : M (option Suspended) :=
  try_catch
    (next <- fetchChartData_continue at_ net plot ;;
     match next with
     | Some _ => ret next
     | None => startRealTimeUpdates ;; ret None
     end)
    (fun error => initialize_catch error ;; ret None).

Variant Pending : Type := AwaitsChartData | AwaitsUpdate.

(** A page with its requests in flight.  The script keeps no request ids;
    [issued] and [shown] are the observer's bookkeeping: requests are
    numbered in the order they are sent, and [shown] is the number of the
    request whose response drew the chart now on the page. *)
Record Session : Type := MkSession {
  page : State;
  inflight : list (nat * Pending);
  issued : nat;
  shown : option nat
}.

Fixpoint pending_of (id : nat) (l : list (nat * Pending)) : option Pending :=
  match l with
  | [] => None
  | (i, k) :: rest => if Nat.eqb i id then Some k else pending_of id rest
  end.

Definition without (id : nat) (l : list (nat * Pending)) : list (nat * Pending) :=
  filter (fun r => negb (Nat.eqb (fst r) id)) l.

(** The response is one the script draws: a body with [success], chart
    text that parses, and a plot call that resolves. *)
Definition draws (net : FetchOutcome) (plot : Settles) : bool :=
  match net, plot with
  | Responds (Some data), Resolves =>
      Response.success data &&
      match Response.data data with
      | Response.ChartText _ _ => true
      | Response.Malformed => false
      end
  | _, _ => false
  end.

(** What happens on the page: the user picks a timeframe (the listener
    runs up to its request), the timer fires (the poll runs up to its
    request), or the response to request [id] arrives. *)
Variant Event : Type :=
  | Picks (value : string)
  | Fires
  | Arrives (id : nat) (net : FetchOutcome) (plot : Settles).

Definition step (ev : Event) (ss : Session) : Session :=
  match ev with
  | Picks value =>
      MkSession (final ((update_elements (set_select value) ;;
                         modify (set_timeframe value) ;;
                         fetchChartData_send) (page ss)))
                ((issued ss, AwaitsChartData) :: inflight ss)
                (S (issued ss)) (shown ss)
  | Fires =>
      match fetchUpdate_send (page ss) with
      | Returns true s' =>
          MkSession s' ((issued ss, AwaitsUpdate) :: inflight ss)
                    (S (issued ss)) (shown ss)
      | o => MkSession (final o) (inflight ss) (issued ss) (shown ss)
      end
  | Arrives id net plot =>
      match pending_of id (inflight ss) with
      | None => ss
      | Some k =>
          let resume := match k with
                        | AwaitsChartData => fetchChartData_resume
                        | AwaitsUpdate => fetchUpdate_resume
                        end in
          MkSession (final (resume net plot (page ss)))
                    (without id (inflight ss))
                    (issued ss)
                    (if draws net plot then Some id else shown ss)
      end
  end.

Definition run (evs : list Event) (ss : Session) : Session :=
  fold_left (fun acc ev => step ev acc) evs ss.

Definition session_of (s : State) : Session := MkSession s [] 0 None.

End Dashboard.

(* ================================================================== *)
(** * The second client script *)
(* ================================================================== *)

Module MarketClient.

Import JS.
Open Scope string_scope.
Open Scope Z_scope.

Record Candle : Type := MkCandle {
  timestamp : string;
  open : number;
  high : number;
  low : number;
  close : number;
  volume : number
}.

(** The body of [/api/signals]. *)
Record Signals : Type := MkSignals {
  signal : number;
  confidence : number
}.

(** The elements the script writes, and the data its charts were last
    drawn from. *)
Record View : Type := MkView {
  charts : option (list Candle);
  lastPrice_textContent : string;
  priceChange_textContent : string;
  priceChange_color : string;
  volume_textContent : string;
  latestSignal_textContent : string;
  latestSignal_color : string;
  signalConfidence_textContent : string
}.

(** A function body ends normally or by an exception, in the view reached. *)
Variant ended : Type :=
  | Done (v : View)
  | Failed (e : Error) (v : View).

(** [data[i]]: [undefined] outside the array, in particular at [-1], [-2]. *)
Definition index (data : list Candle) (i : Z) : option Candle :=
  if i <? 0 then None else nth_error data (Z.to_nat i).

Definition length (data : list Candle) : Z := Z.of_nat (List.length data).

Section Locale.

(** [Number.prototype.toLocaleString] prints by the browser's locale. *)
Variable toLocaleString : number -> string.

(** ** [updateMarketInfo(data)] *)
Definition updateMarketInfo (data : list Candle) (v : View) : ended :=
  let latest := index data (length data - 1) in
  let prev := index data (length data - 2) in
  match latest with
  | None => Failed TypeError v
  | Some latest =>
      let v1 := MkView (charts v) (toFixed 2 (close latest))
                  (priceChange_textContent v) (priceChange_color v)
                  (volume_textContent v) (latestSignal_textContent v)
                  (latestSignal_color v) (signalConfidence_textContent v) in
      match prev with
      | None => Failed TypeError v1
      | Some prev =>
          let change :=
            mul (div (sub (close latest) (close prev)) (close prev)) (of_Z 100) in
          Done (MkView (charts v1) (lastPrice_textContent v1)
                  (toFixed 2 change ++ "%")
                  (if ge change (of_Z 0)
                   then "var(--success-color)" else "var(--error-color)")
                  (toLocaleString (volume latest))
                  (latestSignal_textContent v1) (latestSignal_color v1)
                  (signalConfidence_textContent v1))
      end
  end.

(** ** [updateSignals(signals)] *)
Definition updateSignals (signals : option Signals) (v : View) : View :=
  match signals with
  | None => v
  | Some sg =>
      let up := SFltb (of_Z 0) (signal sg) in
      let down := SFltb (signal sg) (of_Z 0) in
      MkView (charts v) (lastPrice_textContent v) (priceChange_textContent v)
        (priceChange_color v) (volume_textContent v)
        (if up then "BUY" else if down then "SELL" else "NEUTRAL")
        (if up then "var(--success-color)"
         else if down then "var(--error-color)" else "var(--text-color)")
        ("Confidence: " ++ toFixed 1 (mul (confidence sg) (of_Z 100)) ++ "%")
  end.

(** ** [updateDashboard()]

    [data] and [signals] are what [fetchMarketData()] and [fetchSignals()]
    resolve to: [None] is the [null] they return after a failed request. *)
Definition updateDashboard (data : option (list Candle)) (signals : option Signals)
    (v : View) : ended :=
  match data with
  | None => Done v
  | Some data =>
      let drawn := MkView (Some data) (lastPrice_textContent v)
                     (priceChange_textContent v) (priceChange_color v)
                     (volume_textContent v) (latestSignal_textContent v)
                     (latestSignal_color v) (signalConfidence_textContent v) in
      match updateMarketInfo data drawn with
      | Done v' => Done (updateSignals signals v')
      | Failed e v' => Failed e v'
      end
  end.

End Locale.

End MarketClient.

(* ================================================================== *)
(** * The second client script and its backend *)
(* ================================================================== *)

Module MarketPage.

Import JS MarketClient.
Open Scope string_scope.

(** The envelope of [/api/market-data] and [/api/signals]:
    [{ status, data, message }]; [data] may be missing. *)
Record Envelope (A : Type) : Type := MkEnvelope {
  status : string;
  data : option A;
  message : string
}.
Arguments MkEnvelope {A} status data message.
Arguments status {A} e.
Arguments data {A} e.
Arguments message {A} e.

(** What a request turns out to be: [fetch] rejects, the body is not JSON,
    or the body is an envelope. *)
Variant Answer (A : Type) : Type :=
  | Unreachable
  | NotJson
  | Answered (e : Envelope A).
Arguments Unreachable {A}.
Arguments NotJson {A}.
Arguments Answered {A} e.

Variant Request : Type :=
  | GET_market_data (symbol interval : string)
  | GET_signals (symbol : string).

(** The script's [config] object, the view it writes, and what it sent and
    logged, newest first. *)
Record Client : Type := MkClient {
  symbol : string;
  interval : string;
  view : View;
  requests : list Request;
  console : list string
}.

(** The page when the script is loaded: [config] as written in the script;
    the texts on the page are not part of the repository and are left
    empty. *)
Definition blank_view : View :=
  MkView None "" "" "" "" "" "" "".

Definition loaded_client : Client :=
  MkClient "BTCUSDT" "1m" blank_view [] [].

Definition send (r : Request) (c : Client) : Client :=
  MkClient (symbol c) (interval c) (view c) (r :: requests c) (console c).

Definition console_error (msg : string) (c : Client) : Client :=
  MkClient (symbol c) (interval c) (view c) (requests c) (msg :: console c).

Definition set_view (v : View) (c : Client) : Client :=
  MkClient (symbol c) (interval c) v (requests c) (console c).

(** What the [try] block of a fetch function comes to once the request is
    out: [json.data] when [json.status === 'success'], an exception
    otherwise, and the [catch] turns every exception into a log line and
    [null]. *)
Definition settle {A} (label : string) (answer : Answer A) (c : Client)
  : option A * Client :=
  match answer with
  | Answered e =>
      if String.eqb (status e) "success" then (data e, c)
      else (None, console_error label c)
  | _ => (None, console_error label c)
  end.

(** ** [fetchMarketData()] and [fetchSignals()] *)
Definition fetchMarketData (answer : Answer (list Candle)) (c : Client)
  : option (list Candle) * Client :=
  settle "Error fetching market data:" answer
         (send (GET_market_data (symbol c) (interval c)) c).

Definition fetchSignals (answer : Answer Signals) (c : Client)
  : option Signals * Client :=
  settle "Error fetching signals:" answer (send (GET_signals (symbol c)) c).

Section Locale.

Variable toLocaleString : number -> string.

(** ** [updateDashboard()] with its two requests

    The result is the client and, when [updateMarketInfo] threw, the
    exception the promise of [updateDashboard] rejects with.  The signals
    are only asked for once the market data has been drawn and written. *)
Definition refresh (market : Answer (list Candle)) (signals : Answer Signals)
    (c : Client) : Client * option Error :=
  let '(fetched, c1) := fetchMarketData market c in
  match fetched with
  | None => (c1, None)
  | Some candles =>
      let drawn := MkView (Some candles) (lastPrice_textContent (view c1))
                     (priceChange_textContent (view c1)) (priceChange_color (view c1))
                     (volume_textContent (view c1))
                     (latestSignal_textContent (view c1))
                     (latestSignal_color (view c1))
                     (signalConfidence_textContent (view c1)) in
      match updateMarketInfo toLocaleString candles drawn with
      | Failed e v => (set_view v c1, Some e)
      | Done v =>
          let '(sg, c2) := fetchSignals signals (set_view v c1) in
          (set_view (updateSignals sg (view c2)) c2, None)
      end
  end.



End Locale.

(** The envelope says ['success'], and what the script then takes from it. *)
Definition succeeded {A} (answer : Answer A) : bool :=
  match answer with
  | Answered e => String.eqb (status e) "success"
  | _ => false
  end.

Definition delivers {A} (answer : Answer A) : option A :=
  match answer with
  | Answered e => if String.eqb (status e) "success" then data e else None
  | _ => None
  end.

End MarketPage.

(* ================================================================== *)
(** * Vocabulary of the properties *)
(* ================================================================== *)

Import JS Page Dashboard.
Open Scope string_scope.
Open Scope js_scope.

Unset Implicit Arguments.

(** [c] takes every state to one related to it by [R], whether it returns
    or throws. *)
Definition respects {B} (R : State -> State -> Prop) (c : M B) : Prop :=
  forall s, R s (final (c s)).

(** [c] leaves the observation [f] of the state alone. *)
Definition preserves {A B} (f : State -> A) (c : M B) : Prop :=
  respects (fun s s' => f s' = f s) c.

(** The effects of a redraw: no request, no timer call. *)
Definition quiet (e : Effect) : bool :=
  match e with
  | Fetch _ | SetInterval _ _ | ClearInterval _ => false
  | _ => true
  end.

(** The configuration the next redraw of [fetchChartData] ends with: the
    options it passes to [newPlot] while there is no chart, the plot's own
    afterwards. *)
Definition next_config (s : State) : Config :=
  match mainChart s with
  | None => plot_options
  | Some _ =>
      match mainChart_plot (elements s) with
      | Some p => config p
      | None => DefaultConfig
      end
  end.

(** What handling a response may change: the plot, the summary, [mainChart]
    and [lastUpdateTime], and quiet effects; never the timer, the
    timeframe or a control. *)
Record redraws (s s' : State) : Prop := Redraws {
  redraws_updateInterval : updateInterval s' = updateInterval s;
  redraws_timeframe : timeframe s' = timeframe s;
  redraws_timers : timers s' = timers s;
  redraws_nextTimer : nextTimer s' = nextTimer s;
  redraws_select :
    timeframeSelect_value (elements s') = timeframeSelect_value (elements s);
  redraws_rsi : rsiToggle_checked (elements s') = rsiToggle_checked (elements s);
  redraws_macd : macdToggle_checked (elements s') = macdToggle_checked (elements s);
  redraws_signals :
    signalsToggle_checked (elements s') = signalsToggle_checked (elements s);
  redraws_config : next_config s' = next_config s;
  redraws_effects :
    exists new, effects s' = (new ++ effects s)%list /\ forallb quiet new = true
}.

(** The request itself fails: the network, a body that is not JSON, or an
    answer with [success: false]. *)
Definition request_fails (net : FetchOutcome) : bool :=
  match net with
  | NetworkFailure => true
  | Responds None => true
  | Responds (Some data) => negb (Response.success data)
  end.

(** A summary field the script can take: falsy (skipped) or a number. *)
Definition writes_cleanly (v : value) : bool :=
  match v with
  | VNum _ => true
  | _ => negb (truthy v)
  end.

(** A valid payload: [success], chart text that parses, and summary fields
    that are numbers where they are present. *)
Definition valid (data : Response.t) : bool :=
  Response.success data &&
  match Response.data data with
  | Response.ChartText _ _ => true
  | Response.Malformed => false
  end &&
  writes_cleanly (Response.lastPrice data) &&
  writes_cleanly (Response.priceChange data) &&
  writes_cleanly (Response.volume data).

(** A payload that carries every field of the summary: the three numbers
    present and not zero, and both panels. *)
Definition complete (data : Response.t) : bool :=
  truthy (Response.lastPrice data) &&
  truthy (Response.priceChange data) &&
  truthy (Response.volume data) &&
  match Response.signal data with Some _ => true | None => false end &&
  match Response.llmAnalysis data with Some _ => true | None => false end.

(** The ways a background poll fails before [updateMarketSummary] runs. *)
Variant fails_before_summary (s : State) : FetchOutcome -> Settles -> Prop :=
  | no_previous_update net plot :
      lastUpdateTime s = None -> fails_before_summary s net plot
  | invalid_previous_update net plot :
      lastUpdateTime s = Some (MkDate None) -> fails_before_summary s net plot
  | fetch_rejected plot :
      fails_before_summary s NetworkFailure plot
  | body_not_json plot :
      fails_before_summary s (Responds None) plot
  | success_false data plot :
      Response.success data = false ->
      fails_before_summary s (Responds (Some data)) plot
  | malformed_chart data plot :
      Response.data data = Response.Malformed ->
      fails_before_summary s (Responds (Some data)) plot
  | redraw_rejected data :
      fails_before_summary s (Responds (Some data)) Rejects.

(** The effects that are requests. *)
Definition is_fetch (e : Effect) : bool :=
  match e with
  | Fetch _ => true
  | _ => false
  end.

Definition count_fetches (l : list Effect) : nat := List.length (filter is_fetch l).

(** ** Sample inputs *)

(** -1.25, 0.5, -0.001 and 101.5 as the nearest binary64 numbers. *)
Definition minus_1_25 : number := div (of_Z (-125)) (of_Z 100).
Definition plus_0_50 : number := div (of_Z 50) (of_Z 100).
Definition minus_0_001 : number := div (of_Z (-1)) (of_Z 1000).
Definition price_101_5 : number := div (of_Z 1015) (of_Z 10).

Definition summary_only (lastPrice priceChange volume : value) : Response.t :=
  Response.Make true "" (Response.ChartText "traces" "layout")
    lastPrice priceChange volume (Some 1700000000000%Z) None None.

(** Two answers of [/api/chart-data]: the first carries a signal, the
    second does not. *)
Definition payload_1 : Response.t :=
  Response.Make true "" (Response.ChartText "traces-1" "layout-1")
    (VNum (of_Z 100)) (VNum minus_1_25) (VNum (of_Z 1500000))
    (Some 1700000000000%Z)
    (Some (Response.Panel "BUY" (Some "<b>RSI oversold</b>"))) None.

Definition payload_2 : Response.t :=
  Response.Make true "" (Response.ChartText "traces-2" "layout-2")
    (VNum price_101_5) (VNum plus_0_50) (VNum (of_Z 2300))
    (Some 1700000060000%Z) None None.

(** An answer that carries every field. *)
Definition payload_full : Response.t :=
  Response.Make true "" (Response.ChartText "traces-4" "layout-4")
    (VNum price_101_5) (VNum plus_0_50) (VNum (of_Z 2300))
    (Some 1700000180000%Z)
    (Some (Response.Panel "SELL" None))
    (Some (Response.Panel "Momentum is fading" (Some "<p>MACD crossed down</p>"))).

(** An answer whose [priceChange] came as text. *)
Definition payload_text_change : Response.t :=
  Response.Make true "" (Response.ChartText "traces-3" "layout-3")
    (VNum price_101_5) (VStr "1.25") (VNum (of_Z 2300))
    (Some 1700000120000%Z) None None.

Definition failure_payload : Response.t :=
  Response.Make false "backend unavailable" Response.Malformed
    VUndefined VUndefined VUndefined None None None.

(** The page after a first successful load. *)
Definition loaded : State :=
  final (initialize (Responds (Some payload_1)) Resolves constructed).

(** Samples for the second client: a stand-in for the browser's locale, two
    candles, and answers of its two endpoints. *)
Definition sample_locale : number -> string := toFixed 0.

Definition candle_100 : MarketClient.Candle :=
  MarketClient.MkCandle "2024-01-01T00:00:00Z"
    (of_Z 100) (of_Z 100) (of_Z 100) (of_Z 100) (of_Z 10).

Definition candle_101 : MarketClient.Candle :=
  MarketClient.MkCandle "2024-01-01T00:01:00Z"
    (of_Z 100) (of_Z 101) (of_Z 100) (of_Z 101) (of_Z 12).

Definition market_answer : MarketPage.Answer (list MarketClient.Candle) :=
  MarketPage.Answered
    (MarketPage.MkEnvelope "success" (Some [candle_100; candle_101]) "").

Definition short_market_answer : MarketPage.Answer (list MarketClient.Candle) :=
  MarketPage.Answered (MarketPage.MkEnvelope "success" (Some [candle_101]) "").

Definition signals_answer : MarketPage.Answer MarketClient.Signals :=
  MarketPage.Answered
    (MarketPage.MkEnvelope "success"
       (Some (MarketClient.MkSignals (of_Z 1) (of_Z 1))) "").

Definition refused (A : Type) : MarketPage.Answer A :=
  MarketPage.Answered (MarketPage.MkEnvelope "error" None "symbol not found").

(** A field that is absent, [null] or the number zero. *)
Definition absent_null_or_zero (v : value) : Prop :=
  v = VUndefined \/ v = VNull \/ exists sign, v = VNum (S754_zero sign).

(** What a valid, complete payload makes of the elements, given the
    configuration the plot ends with. *)
Definition fixed_text (v : value) : string :=
  match v with
  | VNum n => toFixed 2 n
  | _ => ""
  end.

Definition volume_text (v : value) : string :=
  match formatVolume v with
  | Normal t => t
  | Abrupt _ => ""
  end.

Definition panel_message (p : option Response.panel) : string :=
  match p with
  | Some x => Response.message x
  | None => ""
  end.

Definition panel_details (p : option Response.panel) : string :=
  match p with
  | Some x => details_or_empty x
  | None => ""
  end.

Definition chart_of (data : Response.t) (cfg : Config) : option Plot :=
  match Response.data data with
  | Response.ChartText d l => Some (MkPlot d l cfg)
  | Response.Malformed => None
  end.

Definition rendered (data : Response.t) (cfg : Config) (e : Elements) : Elements :=
  let change := fixed_text (Response.priceChange data) in
  MkElements (chart_of data cfg)
    (timeframeSelect_value e) (rsiToggle_checked e) (macdToggle_checked e)
    (signalsToggle_checked e)
    (fixed_text (Response.lastPrice data))
    (change ++ "%")
    ("value " ++ (if ge (ToNumber (VStr change)) (of_Z 0)
                  then "positive" else "negative"))
    (volume_text (Response.volume data))
    (panel_message (Response.signal data)) (panel_details (Response.signal data))
    (panel_message (Response.llmAnalysis data))
    (panel_details (Response.llmAnalysis data)).

(** The summary of the fresh page after a payload that carries only the
    price change [v]. *)
Definition after_priceChange (v : number) : Elements :=
  elements (final (updateMarketSummary
    (summary_only VUndefined (VNum v) VUndefined) constructed)).

(** The state after the catch block of [fetchChartData] ran on [s]. *)
Definition chart_data_failed (s : State) : State :=
  emit (Alert "Failed to fetch chart data")
    (emit (ConsoleError "Failed to fetch chart data")
       (emit (ConsoleError "Failed to fetch chart data:")
          (emit (Fetch (GET_chart_data (timeframe s))) s))).

(** The state after the catch block of [toggleIndicator] ran on [s]. *)
Definition toggle_failed (indicator : string) (s : State) : State :=
  emit (Alert ("Failed to toggle " ++ indicator))
    (emit (ConsoleError ("Failed to toggle " ++ indicator))
       (emit (ConsoleError ("Failed to toggle " ++ indicator ++ ":"))
          (emit (Fetch (POST_toggle_indicator indicator)) s))).

(** The effects of a poll that are not the log line of its failure. *)
Definition is_request_or_redraw (e : Effect) : bool :=
  match e with
  | Fetch _ | React => true
  | _ => false
  end.

(** Two timeframe picks in a row on the loaded page, requests 0 and 1 in
    flight; then the answer to request 1 arrives first. *)
Definition two_requests : Session :=
  run [Picks "5m"; Picks "1d"] (session_of loaded).

Definition newer_first : Session :=
  step (Arrives 1 (Responds (Some payload_2)) Resolves) two_requests.

Definition older_last : Session :=
  step (Arrives 0 (Responds (Some payload_1)) Resolves) newer_first.

(** ** Whole sessions of the dashboard *)

(** The user clicks the signals box. *)
Definition click_signalsToggle (toggled net : FetchOutcome) (plot : Settles) : M unit :=
  update_elements (fun e =>
    set_toggles (rsiToggle_checked e) (macdToggle_checked e)
                (negb (signalsToggle_checked e)) e) ;;
  on_signalsToggle_change toggled net plot.

(** What can happen on the page once it is loaded, each with what the
    network and the plot library answer: the user picks a timeframe or
    clicks one of the three boxes, or timer [id] fires. *)
Variant Action : Type :=
  | SelectTimeframe (value : string) (net : FetchOutcome) (plot : Settles)
  | ClickRsi (toggled net : FetchOutcome) (plot : Settles)
  | ClickMacd (toggled net : FetchOutcome) (plot : Settles)
  | ClickSignals (toggled net : FetchOutcome) (plot : Settles)
  | Tick (id : nat) (net : FetchOutcome) (plot : Settles).

Definition perform (a : Action) : M unit :=
  match a with
  | SelectTimeframe value net plot => select_timeframe value net plot
  | ClickRsi toggled net plot => click_rsiToggle toggled net plot
  | ClickMacd toggled net plot => click_macdToggle toggled net plot
  | ClickSignals toggled net plot => click_signalsToggle toggled net plot
  | Tick id net plot => timer_fires id net plot
  end.

Definition perform_all (actions : list Action) (s : State) : State :=
  fold_left (fun acc a => final (perform a acc)) actions s.

(** A run of background polls, one per answer. *)
Definition polls (answers : list (FetchOutcome * Settles)) (s : State) : State :=
  fold_left (fun acc a => final (fetchUpdate (fst a) (snd a) acc)) answers s.

(** The effects a poll can have once its request is out. *)
Definition calm (e : Effect) : bool :=
  match e with
  | ConsoleError _ | React => true
  | _ => false
  end.

(** The effects a poll can have at all. *)
Definition poll_effect (e : Effect) : bool :=
  match e with
  | ConsoleError _ | React | Fetch (POST_update _ _) => true
  | _ => false
  end.

(** The effects that create a plot. *)
Definition is_newPlot (e : Effect) : bool :=
  match e with
  | NewPlot => true
  | _ => false
  end.

(** What resuming a poll may change: the plot, the summary and
    [lastUpdateTime], with calm effects only. *)
Record polled (s s' : State) : Prop := Polled {
  polled_mainChart : mainChart s' = mainChart s;
  polled_updateInterval : updateInterval s' = updateInterval s;
  polled_timeframe : timeframe s' = timeframe s;
  polled_timers : timers s' = timers s;
  polled_nextTimer : nextTimer s' = nextTimer s;
  polled_select :
    timeframeSelect_value (elements s') = timeframeSelect_value (elements s);
  polled_rsi : rsiToggle_checked (elements s') = rsiToggle_checked (elements s);
  polled_macd : macdToggle_checked (elements s') = macdToggle_checked (elements s);
  polled_signals :
    signalsToggle_checked (elements s') = signalsToggle_checked (elements s);
  polled_effects :
    exists new, effects s' = (new ++ effects s)%list /\ forallb calm new = true
}.

(** The timer as the class and the window hold it. *)
Definition timer_state (s : State) : list (nat * Z) * option nat * nat :=
  (timers s, updateInterval s, nextTimer s).

(** Once there is a chart it stays, and no plot is created again. *)
Definition chart_kept (s s' : State) : Prop :=
  mainChart s <> None ->
  mainChart s' <> None /\
  exists new, effects s' = (new ++ effects s)%list /\
              forallb (fun e => negb (is_newPlot e)) new = true.

(** ** The page between a request and its answer

    What the page runs in one go: an event handled whole, with its answers
    there before anything else happens, or one half of a method, up to its
    request or from its answer on.  A list of pieces may handle an answer
    whose request it has not sent and fire a timer that is not set: it
    ranges over every order the page can see and over more.  The halves
    are not cut again at the later awaits of a method; the only write to
    [this.timeframe] is in the listener of the select, before its request,
    and the only calls that touch a timer are in [startRealTimeUpdates],
    so a finer cut makes the same writes to both. *)
Variant Piece : Type :=
  | Whole (a : Action)
  | PickSent (value : string)
  | TickSent (id : nat)
  | ChartAnswered (net : FetchOutcome) (plot : Settles)
  | UpdateAnswered (net : FetchOutcome) (plot : Settles).

Definition run_piece (p : Piece) : M unit :=
  match p with
  | Whole a => perform a
  | PickSent value =>
      update_elements (set_select value) ;;
      modify (set_timeframe value) ;;
      fetchChartData_send
  | TickSent id =>
      active <- gets timers ;;
      when (existsb (fun t => Nat.eqb (fst t) id) active)
        (sent <- fetchUpdate_send ;; ret tt)
  | ChartAnswered net plot => fetchChartData_resume net plot
  | UpdateAnswered net plot => fetchUpdate_resume net plot
  end.

(** The timeframe after the pieces: the last one picked, [tf] when none
    was. *)
Definition picked (p : Piece) (tf : string) : string :=
  match p with
  | Whole (SelectTimeframe value _ _) => value
  | PickSent value => value
  | _ => tf
  end.

Definition last_pick (l : list Piece) (tf : string) : string :=
  fold_left (fun acc p => picked p acc) l tf.

(** The page while it loads.  [load] is where [initialize] waits, [None]
    once it has ended; [started_with] is the observer's note of the
    timeframe the page had when [initialize] ended. *)
Record Loading : Type := MkLoading {
  now : State;
  load : option Suspended;
  started_with : option string
}.

(** The page runs a piece, or the promise the load waits for settles. *)
Variant Step : Type :=
  | Runs (p : Piece)
  | LoadResumes (net : FetchOutcome) (plot : Settles).

Definition advance (st : Step) (x : Loading) : Loading :=
  match st with
  | Runs p => MkLoading (final (run_piece p (now x))) (load x) (started_with x)
  | LoadResumes net plot =>
      match load x with
      | None => x
      | Some at_ =>
          match initialize_continue at_ net plot (now x) with
          | Returns (Some next) s' => MkLoading s' (Some next) None
          | o => MkLoading (final o) None (Some (timeframe (now x)))
          end
      end
  end.

(** The constructor has called [initialize], which waits for its request. *)
Definition loading (s : State) : Loading :=
  MkLoading (final (initialize_send s)) (Some AtFetch) None.

Definition advance_all (steps : list Step) (x : Loading) : Loading :=
  fold_left (fun acc st => advance st acc) steps x.

(** The pieces among the steps. *)
Definition pieces_of (steps : list Step) : list Piece :=
  flat_map (fun st => match st with Runs p => [p] | LoadResumes _ _ => [] end) steps.

(** What holds of the page while it loads and ever after. *)
Definition load_invariant (s : State) (steps : list Step) (x : Loading) : Prop :=
  timeframe (now x) = last_pick (pieces_of steps) (timeframe s) /\
  match started_with x with
  | None =>
      load x <> None /\
      timer_state (now x) = ([], None, nextTimer s)
  | Some tf =>
      load x = None /\
      timer_state (now x)
      = ([(nextTimer s, cadence tf)], Some (nextTimer s), S (nextTimer s)) /\
      exists before after : list Step,
        steps = (before ++ after)%list /\
        tf = last_pick (pieces_of before) (timeframe s)
  end.

(** A click flips the box before the [change] listener runs. *)
Definition flip_rsi (e : Elements) : Elements :=
  set_toggles (negb (rsiToggle_checked e)) (macdToggle_checked e)
              (signalsToggle_checked e) e.

Definition flip_macd (e : Elements) : Elements :=
  set_toggles (rsiToggle_checked e) (negb (macdToggle_checked e))
              (signalsToggle_checked e) e.

(** ** What [toFixed] prints *)

(** Finite and below [10^21] in magnitude: printed in fixed notation. *)
Definition prints_fixed (x : number) : bool :=
  match x with
  | S754_zero _ => true
  | S754_finite _ m e => negb (mag_ge m e (10 ^ 21))
  | _ => false
  end.

(** The magnitude of [x] in hundredths, rounded as [toFixed(2)] does. *)
Definition hundredths (x : number) : Z :=
  match x with
  | S754_finite _ m e => scaled_round m e 2
  | _ => 0
  end.

(** [s] is made of decimal digits only and reads as the integer [n],
    read by [StringToNumber]'s digit reader. *)
Definition reads_as (s : string) (n : Z) : Prop :=
  digits 10 0 0 (list_ascii_of_string s) = (n, Z.of_nat (String.length s), []).

(** No leading zero, the text "0" apart. *)
Definition no_leading_zero (s : string) : Prop :=
  s = "0" \/ (exists c rest, s = String c rest /\ c <> "0"%char).

(* ================================================================== *)
(** * The monad: reasoning by a relation between start and end state *)
(* ================================================================== *)

Section Respects.

Variable R : State -> State -> Prop.
Hypothesis R_refl : forall s, R s s.
Hypothesis R_trans : forall a b c, R a b -> R b c -> R a c.

Lemma respects_ret B (b : B) : respects R (ret b).
Proof. intro s. apply R_refl. Qed.

Lemma respects_throw B (e : Error) : respects R (@throw B e).
Proof. intro s. apply R_refl. Qed.

Lemma respects_gets B (g : State -> B) : respects R (gets g).
Proof. intro s. apply R_refl. Qed.

Lemma respects_lift B (c : completion B) : respects R (lift c).
Proof. destruct c; intro s; apply R_refl. Qed.

Lemma respects_modify (g : State -> State) :
  (forall s, R s (g s)) -> respects R (modify g).
Proof. intros H s. apply H. Qed.

Lemma respects_bind B C (c : M B) (k : B -> M C) :
  respects R c -> (forall b, respects R (k b)) -> respects R (bind c k).
Proof.
  intros Hc Hk s. unfold bind.
  specialize (Hc s). destruct (c s) as [b s1 | e s1]; simpl in Hc.
  - apply R_trans with s1; [exact Hc | apply Hk].
  - exact Hc.
Qed.

Lemma respects_try_catch B (body : M B) (handler : Error -> M B) :
  respects R body -> (forall e, respects R (handler e)) ->
  respects R (try_catch body handler).
Proof.
  intros Hb Hh s. unfold try_catch.
  specialize (Hb s). destruct (body s) as [b s1 | e s1]; simpl in Hb.
  - exact Hb.
  - apply R_trans with s1; [exact Hb | apply Hh].
Qed.

Lemma respects_when (b : bool) (c : M unit) :
  respects R c -> respects R (when b c).
Proof. intros H. destruct b; [exact H | apply respects_ret]. Qed.

End Respects.

(** Breaks [respects R c] along the structure of [c]; what is left are the
    writes, as [forall s, R s (g s)], and the calls it does not know. *)
Ltac respects_structure Hrefl Htrans :=
  repeat first
    [ apply (@respects_bind _ Htrans); [ | intro ]
    | apply (@respects_try_catch _ Htrans); [ | intro ]
    | apply (@respects_when _ Hrefl)
    | apply (@respects_ret _ Hrefl)
    | apply (@respects_throw _ Hrefl)
    | apply (@respects_gets _ Hrefl)
    | apply (@respects_lift _ Hrefl)
    | match goal with
      | |- respects _ (match ?x with _ => _ end) => destruct x
      end
    | apply respects_modify ].

(** ** Observations *)

Section Frame.

Context {A : Type} (f : State -> A).

Let same (s s' : State) : Prop := f s' = f s.

Lemma same_refl s : same s s.
Proof. reflexivity. Qed.

Lemma same_trans a b c : same a b -> same b c -> same a c.
Proof. unfold same. intros H1 H2. rewrite H2. exact H1. Qed.

Lemma preserves_ret B (b : B) : preserves f (ret b).
Proof. apply (@respects_ret _ same_refl). Qed.

Lemma preserves_lift B (c : completion B) : preserves f (lift c).
Proof. apply (@respects_lift _ same_refl). Qed.

Lemma preserves_modify (g : State -> State) :
  (forall s, f (g s) = f s) -> preserves f (modify g).
Proof. intros H. apply respects_modify. exact H. Qed.

Lemma preserves_bind B C (c : M B) (k : B -> M C) :
  preserves f c -> (forall b, preserves f (k b)) -> preserves f (bind c k).
Proof. apply (@respects_bind _ same_trans). Qed.

Lemma preserves_when (b : bool) (c : M unit) :
  preserves f c -> preserves f (when b c).
Proof. apply (@respects_when _ same_refl). Qed.

End Frame.

Lemma absent_null_or_zero_falsy v : absent_null_or_zero v -> truthy v = false.
Proof.
  intros [-> | [-> | [sign ->]]]; reflexivity.
Qed.

(** ** The blocks of [updateMarketSummary] and the fields they leave alone *)

Lemma update_lastPrice_frame {A} (f : Elements -> A) data :
  (forall v e, f (set_lastPrice v e) = f e) ->
  preserves (fun s => f (elements s)) (update_lastPrice data).
Proof.
  intros H. unfold update_lastPrice, update_elements.
  apply preserves_when, preserves_bind; [apply preserves_lift | intro text].
  apply preserves_modify. intro s. simpl. apply H.
Qed.

Lemma update_priceChange_frame {A} (f : Elements -> A) data :
  (forall v e, f (set_priceChange_text v e) = f e) ->
  (forall v e, f (set_priceChange_class v e) = f e) ->
  preserves (fun s => f (elements s)) (update_priceChange data).
Proof.
  intros Ht Hc. unfold update_priceChange, update_elements.
  apply preserves_when, preserves_bind; [apply preserves_lift | intro change].
  apply preserves_bind; [ | intros _ ];
    apply preserves_modify; intro s; simpl; [apply Ht | apply Hc].
Qed.

Lemma update_volume_frame {A} (f : Elements -> A) data :
  (forall v e, f (set_volume v e) = f e) ->
  preserves (fun s => f (elements s)) (update_volume data).
Proof.
  intros H. unfold update_volume, update_elements.
  apply preserves_when, preserves_bind; [apply preserves_lift | intro text].
  apply preserves_modify. intro s. simpl. apply H.
Qed.

Lemma update_signal_frame {A} (f : Elements -> A) data :
  (forall m d e, f (set_signal m d e) = f e) ->
  preserves (fun s => f (elements s)) (update_signal data).
Proof.
  intros H. unfold update_signal, update_elements.
  destruct (Response.signal data); [ | apply preserves_ret ].
  apply preserves_modify. intro s. simpl. apply H.
Qed.

Lemma update_llmAnalysis_frame {A} (f : Elements -> A) data :
  (forall m d e, f (set_llm m d e) = f e) ->
  preserves (fun s => f (elements s)) (update_llmAnalysis data).
Proof.
  intros H. unfold update_llmAnalysis, update_elements.
  destruct (Response.llmAnalysis data); [ | apply preserves_ret ].
  apply preserves_modify. intro s. simpl. apply H.
Qed.

(** A block whose guard is falsy does nothing. *)
Lemma update_lastPrice_falsy data :
  truthy (Response.lastPrice data) = false -> update_lastPrice data = ret tt.
Proof. intros H. unfold update_lastPrice. rewrite H. reflexivity. Qed.

Lemma update_priceChange_falsy data :
  truthy (Response.priceChange data) = false -> update_priceChange data = ret tt.
Proof. intros H. unfold update_priceChange. rewrite H. reflexivity. Qed.

Lemma update_volume_falsy data :
  truthy (Response.volume data) = false -> update_volume data = ret tt.
Proof. intros H. unfold update_volume. rewrite H. reflexivity. Qed.

Lemma update_signal_absent data :
  Response.signal data = None -> update_signal data = ret tt.
Proof. intros H. unfold update_signal. rewrite H. reflexivity. Qed.

Lemma update_llmAnalysis_absent data :
  Response.llmAnalysis data = None -> update_llmAnalysis data = ret tt.
Proof. intros H. unfold update_llmAnalysis. rewrite H. reflexivity. Qed.

(** Walks the five blocks of [updateMarketSummary] for one observation of
    the elements. *)
Ltac summary_blocks f :=
  unfold updateMarketSummary;
  repeat (apply (@preserves_bind _ f); [ | intros _ ]);
  first
    [ apply preserves_ret
    | apply update_lastPrice_frame; reflexivity
    | apply update_priceChange_frame; reflexivity
    | apply update_volume_frame; reflexivity
    | apply update_signal_frame; reflexivity
    | apply update_llmAnalysis_frame; reflexivity ].

(** C10. [updateMarketSummary] writes a display field only when the payload
    field is truthy: when [lastPrice], [priceChange] or [volume] is absent,
    [null] or the number 0, or when [signal] or [llmAnalysis] is absent or
    [null], the element's text (and for [priceChange] its class too) is what
    it was before the call, however the call ends.  So a price change of 0
    or a volume of 0 is never displayed. *)
Theorem updateMarketSummary_writes_only_truthy_fields
    (data : Response.t) (s : State) :
  let e := elements s in
  let e' := elements (final (updateMarketSummary data s)) in
  (absent_null_or_zero (Response.lastPrice data) ->
     lastPrice_textContent e' = lastPrice_textContent e) /\
  (absent_null_or_zero (Response.priceChange data) ->
     priceChange_textContent e' = priceChange_textContent e /\
     priceChange_className e' = priceChange_className e) /\
  (absent_null_or_zero (Response.volume data) ->
     volume_textContent e' = volume_textContent e) /\
  (Response.signal data = None ->
     signalMessage_textContent e' = signalMessage_textContent e /\
     signalDetails_innerHTML e' = signalDetails_innerHTML e) /\
  (Response.llmAnalysis data = None ->
     llmMessage_textContent e' = llmMessage_textContent e /\
     llmDetails_innerHTML e' = llmDetails_innerHTML e).
Proof.
  cbv zeta. unfold updateMarketSummary.
  split; [ | split; [ | split; [ | split ] ] ]; intros H.
  - apply absent_null_or_zero_falsy in H.
    rewrite (update_lastPrice_falsy _ H).
    summary_blocks (fun s => lastPrice_textContent (elements s)).
  - apply absent_null_or_zero_falsy in H.
    rewrite (update_priceChange_falsy _ H). split.
    + summary_blocks (fun s => priceChange_textContent (elements s)).
    + summary_blocks (fun s => priceChange_className (elements s)).
  - apply absent_null_or_zero_falsy in H.
    rewrite (update_volume_falsy _ H).
    summary_blocks (fun s => volume_textContent (elements s)).
  - rewrite (update_signal_absent _ H). split.
    + summary_blocks (fun s => signalMessage_textContent (elements s)).
    + summary_blocks (fun s => signalDetails_innerHTML (elements s)).
  - rewrite (update_llmAnalysis_absent _ H). split.
    + summary_blocks (fun s => llmMessage_textContent (elements s)).
    + summary_blocks (fun s => llmDetails_innerHTML (elements s)).
Qed.

(** At a payload whose price change and volume are the number 0, on the
    loaded page: the change shown stays the one of the first load. *)
Lemma zero_change_is_not_displayed :
  priceChange_textContent
    (elements (final (updateMarketSummary
       (summary_only (VNum price_101_5) (VNum (of_Z 0)) (VNum (of_Z 0))) loaded)))
  = "-1.25%".
Proof.
  destruct (updateMarketSummary_writes_only_truthy_fields
              (summary_only (VNum price_101_5) (VNum (of_Z 0)) (VNum (of_Z 0)))
              loaded) as (_ & Hchange & _).
  destruct Hchange as [Htext _].
  - right; right. exists false. reflexivity.
  - rewrite Htext. reflexivity.
Defined.

(* ================================================================== *)
(** * Formatting *)
(* ================================================================== *)

(** [toFixed] rounds to the nearest multiple of [10^-f], upwards on a tie:
    for a number [m * 2^e] with a fractional part ([e < 0]) the integer [n]
    it prints satisfies [(2n - 1) / 2 <= m * 2^e * 10^f < (2n + 1) / 2],
    stated here with both sides multiplied by [2 * 2^-e]. *)
Lemma scaled_round_is_nearest (m : positive) (e f : Z) :
  (e < 0)%Z -> (0 <= f)%Z ->
  let n := scaled_round m e f in
  (2 ^ (- e) * (2 * n - 1) <= 2 * Zpos m * 10 ^ f
   /\ 2 * Zpos m * 10 ^ f < 2 ^ (- e) * (2 * n + 1))%Z.
Proof.
  intros He Hf n. subst n. unfold scaled_round.
  rewrite (proj2 (Z.leb_gt 0 e) He).
  assert (Hp : (0 < 2 ^ (- e))%Z) by (apply Z.pow_pos_nonneg; lia).
  replace (1 - e)%Z with (Z.succ (- e)) by lia.
  rewrite Z.pow_succ_r by lia.
  set (P := (2 ^ (- e))%Z) in *.
  set (a := (2 * Zpos m * 10 ^ f + P)%Z).
  pose proof (Z.div_mod a (2 * P)) as Hdm.
  pose proof (Z.mod_pos_bound a (2 * P)) as Hb.
  nia.
Qed.

Lemma string_length_append (s1 s2 : string) :
  String.length (s1 ++ s2) = (String.length s1 + String.length s2)%nat.
Proof. induction s1 as [ | c s1 IH]; simpl; [reflexivity | rewrite IH; reflexivity]. Qed.

Lemma substring_length (s : string) :
  forall i n : nat,
    (i + n <= String.length s)%nat -> String.length (substring i n s) = n.
Proof.
  induction s as [ | c s IH]; intros i n H; simpl in H.
  - destruct i, n; simpl; try reflexivity; lia.
  - destruct i as [ | i]; simpl.
    + destruct n as [ | n]; [reflexivity | ]. simpl. rewrite (IH 0%nat n) by lia.
      reflexivity.
    + apply IH. lia.
Qed.

Lemma zeros_length (k : nat) : String.length (zeros k) = k.
Proof. induction k as [ | k IH]; simpl; [reflexivity | rewrite IH; reflexivity]. Qed.

Lemma pad_left_length (width : nat) (s : string) :
  (width <= String.length (pad_left width s))%nat.
Proof. unfold pad_left. rewrite string_length_append, zeros_length. lia. Qed.

(** *** The digits [toFixed] prints, read back *)

Lemma digits_of_uint_acc (u : Decimal.uint) :
  forall (p : positive) (count : Z),
    digits 10 (Zpos p) count (list_ascii_of_string (NilEmpty.string_of_uint u))
    = (Zpos (Pos.of_uint_acc u p),
       (count + Z.of_nat (String.length (NilEmpty.string_of_uint u)))%Z, []).
Proof.
  induction u as [ | u IH | u IH | u IH | u IH | u IH | u IH | u IH | u IH
                 | u IH | u IH];
    intros p count;
    [ simpl; f_equal; f_equal; lia | .. ];
    cbn [NilEmpty.string_of_uint list_ascii_of_string digits String.length
         Pos.of_uint_acc];
    match goal with
    | |- context [digit_value 10 ?c] =>
        let v := eval vm_compute in (digit_value 10 c) in
        change (digit_value 10 c) with v
    end;
    cbv iota;
    match goal with
    | |- digits 10 ?a _ _ = (Zpos (Pos.of_uint_acc _ ?q), _, _) =>
        replace a with (Zpos q) by lia
    end;
    rewrite IH; f_equal; f_equal; lia.
Qed.

Lemma digits_of_uint (u : Decimal.uint) :
  forall count : Z,
    digits 10 0 count (list_ascii_of_string (NilEmpty.string_of_uint u))
    = (Z.of_N (Pos.of_uint u),
       (count + Z.of_nat (String.length (NilEmpty.string_of_uint u)))%Z, []).
Proof.
  induction u as [ | u IH | u IH | u IH | u IH | u IH | u IH | u IH | u IH
                 | u IH | u IH];
    intros count;
    [ simpl; f_equal; f_equal; lia | .. ];
    cbn [NilEmpty.string_of_uint list_ascii_of_string digits String.length
         Pos.of_uint];
    match goal with
    | |- context [digit_value 10 ?c] =>
        let v := eval vm_compute in (digit_value 10 c) in
        change (digit_value 10 c) with v
    end;
    cbv iota;
    [ change (0 * 10 + 0)%Z with 0%Z; rewrite IH; f_equal; f_equal; lia | .. ];
    match goal with
    | |- digits 10 ?a _ _ = _ =>
        let v := eval vm_compute in a in change a with v
    end;
    rewrite digits_of_uint_acc; f_equal; f_equal; lia.
Qed.

Lemma reads_as_dec (n : Z) : (0 <= n)%Z -> reads_as (dec n) n.
Proof.
  intros Hn. unfold reads_as, dec.
  rewrite digits_of_uint.
  change (Pos.of_uint (N.to_uint (Z.to_N n))) with (N.of_uint (N.to_uint (Z.to_N n))).
  rewrite DecimalN.Unsigned.of_to, Z2N.id by exact Hn.
  reflexivity.
Qed.

Lemma digits_skip_zeros (j : nat) (s : string) (count : Z) :
  digits 10 0 count (list_ascii_of_string (zeros j ++ s))
  = digits 10 0 (count + Z.of_nat j) (list_ascii_of_string s).
Proof.
  revert count. induction j as [ | j IH]; intro count.
  - simpl. f_equal. lia.
  - cbn [zeros append list_ascii_of_string digits].
    change (digit_value 10 "0"%char) with (Some 0%Z). cbv iota.
    change (0 * 10 + 0)%Z with 0%Z. rewrite IH. f_equal. lia.
Qed.

Lemma reads_as_padded (width : nat) (n : Z) :
  (0 <= n)%Z -> reads_as (pad_left width (dec n)) n.
Proof.
  intros Hn. unfold reads_as, pad_left.
  rewrite digits_skip_zeros.
  pose proof (reads_as_dec n Hn) as Hdec. unfold reads_as in Hdec.
  unfold dec in *. rewrite digits_of_uint in *.
  apply (f_equal (fun t => fst (fst t))) in Hdec. simpl in Hdec.
  rename Hdec into Hvalue.
  rewrite string_length_append, zeros_length, Hvalue.
  f_equal. f_equal. lia.
Qed.

Lemma substring_split (s : string) :
  forall i : nat,
    (i <= String.length s)%nat ->
    substring 0 i s ++ substring i (String.length s - i) s = s.
Proof.
  induction s as [ | c s IH]; intros i Hi; simpl in Hi.
  - destruct i; [reflexivity | lia].
  - destruct i as [ | i].
    + cbn [substring append String.length Nat.sub]. f_equal.
      clear. induction s as [ | c s IH]; [reflexivity | ].
      simpl. f_equal. exact IH.
    + cbn [substring append String.length Nat.sub]. f_equal.
      apply IH. lia.
Qed.

(** [dec] writes no leading zero. *)
Lemma dec_no_leading_zero (n : Z) : no_leading_zero (dec n).
Proof.
  unfold no_leading_zero, dec.
  pose proof (DecimalN.Unsigned.to_of (N.to_uint (Z.to_N n))) as Hnorm.
  rewrite DecimalN.Unsigned.of_to in Hnorm.
  pose proof (DecimalFacts.unorm_nonnil (N.to_uint (Z.to_N n))) as Hnonnil.
  pose proof (DecimalFacts.nzhead_nonzero (N.to_uint (Z.to_N n))) as Hhead.
  rewrite <- Hnorm in Hnonnil.
  unfold Decimal.unorm in Hnorm.
  destruct (N.to_uint (Z.to_N n)) as [ | u | u | u | u | u | u | u | u | u | u ];
    try (right; eexists; eexists; split; [reflexivity | discriminate]).
  - contradiction.
  - left. destruct (Decimal.nzhead (Decimal.D0 u)) as [ | u0 | | | | | | | | | ] eqn:Hnz;
      try discriminate Hnorm.
    + injection Hnorm as Hu. subst u. reflexivity.
    + exfalso. apply (Hhead u0). reflexivity.
Qed.

Lemma fixed_digits_two (n : Z) :
  (0 <= n)%Z ->
  exists whole frac : string,
    fixed_digits 2 n = whole ++ "." ++ frac /\
    String.length frac = 2%nat /\
    no_leading_zero whole /\
    reads_as (whole ++ frac) n.
Proof.
  intros Hn. unfold fixed_digits.
  set (m := pad_left 3 (dec n)).
  pose proof (pad_left_length 3 (dec n)) as Hlen. fold m in Hlen.
  exists (substring 0 (String.length m - 2) m),
         (substring (String.length m - 2) 2 m).
  split; [reflexivity | ].
  split; [apply substring_length; lia | ].
  split.
  - destruct (dec_no_leading_zero n) as [Hzero | (c & rest & Hdec & Hc)].
    + left. subst m. rewrite Hzero. reflexivity.
    + destruct (Nat.le_gt_cases 3 (String.length (dec n))) as [Hlong | Hshort].
      * right. subst m. unfold pad_left in *.
        replace (3 - String.length (dec n))%nat with 0%nat in * by lia.
        cbn [zeros append] in *. rewrite Hdec in *. simpl in Hlen, Hlong.
        exists c. eexists. split; [ | exact Hc].
        cbn [String.length].
        replace (S (String.length rest) - 2)%nat
          with (S (String.length rest - 2)) by lia.
        reflexivity.
      * left. subst m. unfold pad_left in *.
        destruct (3 - String.length (dec n))%nat as [ | j] eqn:Hpad; [lia | ].
        assert (Hthree : String.length (zeros (S j) ++ dec n) = 3%nat)
          by (rewrite string_length_append, zeros_length; lia).
        rewrite Hthree. change (3 - 2)%nat with 1%nat.
        cbn [zeros append substring].
        destruct (zeros j ++ dec n); reflexivity.
  - pose proof (substring_split m (String.length m - 2)) as Hsplit.
    replace (String.length m - (String.length m - 2))%nat with 2%nat in Hsplit by lia.
    rewrite Hsplit by lia.
    apply reads_as_padded. exact Hn.
Qed.

Lemma scaled_round_nonneg (m : positive) (e f : Z) :
  (0 <= f)%Z -> (0 <= scaled_round m e f)%Z.
Proof.
  intros Hf. unfold scaled_round.
  destruct (0 <=? e)%Z eqn:He.
  - apply Z.leb_le in He.
    apply Z.mul_nonneg_nonneg; [apply Z.mul_nonneg_nonneg | ];
      try lia; apply Z.pow_nonneg; lia.
  - apply Z.leb_gt in He.
    apply Z.div_pos; [ | apply Z.pow_pos_nonneg; lia].
    assert (0 <= 10 ^ f)%Z by (apply Z.pow_nonneg; lia).
    assert (0 <= 2 ^ (- e))%Z by (apply Z.pow_nonneg; lia).
    nia.
Qed.

(** Every finite number below [10^21] in magnitude, the two zeros with
    them, is printed by [toFixed(2)] as a minus sign when it is below zero,
    then decimal digits with no leading zero, a point and two more decimal
    digits; read together as one integer the digits are the magnitude in
    hundredths, rounded to the nearest, upwards on a tie. *)
Lemma toFixed_two_decimals (x : number) :
  prints_fixed x = true ->
  exists whole frac : string,
    toFixed 2 x = (if is_negative x then "-" else "") ++ whole ++ "." ++ frac /\
    String.length frac = 2%nat /\
    no_leading_zero whole /\
    reads_as (whole ++ frac) (hundredths x).
Proof.
  intros Hfixed.
  destruct x as [sign | sign | | sign m e]; try discriminate Hfixed.
  - destruct (fixed_digits_two 0) as (whole & frac & Hprint & Hrest); [lia | ].
    exists whole, frac. split; [ | exact Hrest].
    unfold toFixed. rewrite Hprint. destruct sign; reflexivity.
  - unfold prints_fixed in Hfixed. apply negb_true_iff in Hfixed.
    destruct (fixed_digits_two (scaled_round m e 2)) as (whole & frac & Hprint & Hrest);
      [apply scaled_round_nonneg; lia | ].
    exists whole, frac. split; [ | exact Hrest].
    unfold toFixed. rewrite Hfixed.
    change (Z.of_nat 2) with 2%Z. rewrite Hprint.
    destruct sign; reflexivity.
Qed.

Lemma toFixed_of_2_3 :
  exists whole frac : string,
    toFixed 2 (S754_finite false 5179139571476070 (-51))
    = (if is_negative (S754_finite false 5179139571476070 (-51)) then "-" else "")
      ++ whole ++ "." ++ frac /\
    String.length frac = 2%nat /\
    no_leading_zero whole /\
    reads_as (whole ++ frac) (hundredths (S754_finite false 5179139571476070 (-51))).
Proof.
  exact (toFixed_two_decimals (S754_finite false 5179139571476070 (-51)) eq_refl).
Defined.

(** C5. [formatVolume(v)] on a number: [v / 1e9] to two decimals and ["B"]
    when [v >= 1e9], else [v / 1e6] and ["M"] when [v >= 1e6], else
    [v / 1e3] and ["K"] when [v >= 1e3], else [v] to two decimals with no
    suffix; and [formatVolume(1500000) = "1.50M"],
    [formatVolume(2300) = "2.30K"], [formatVolume(500) = "500.00"]. *)
Theorem formatVolume_suffix_by_magnitude :
  (forall v : number,
     formatVolume (VNum v) =
     Normal
       (if ge v (of_Z 1000000000) then toFixed 2 (div v (of_Z 1000000000)) ++ "B"
        else if ge v (of_Z 1000000) then toFixed 2 (div v (of_Z 1000000)) ++ "M"
        else if ge v (of_Z 1000) then toFixed 2 (div v (of_Z 1000)) ++ "K"
        else toFixed 2 v)) /\
  formatVolume (VNum (of_Z 1500000)) = Normal "1.50M" /\
  formatVolume (VNum (of_Z 2300)) = Normal "2.30K" /\
  formatVolume (VNum (of_Z 500)) = Normal "500.00".
Proof.
  split.
  - intro v. unfold formatVolume, ToNumber, call_toFixed.
    destruct (ge v (of_Z 1000000000)); [reflexivity | ].
    destruct (ge v (of_Z 1000000)); [reflexivity | ].
    destruct (ge v (of_Z 1000)); reflexivity.
  - repeat split; vm_compute; reflexivity.
Qed.

(** C6, on the code.  The two examples of the specification hold: -1.25
    shows as ["-1.25%"] with class [negative], 0.50 as ["0.50%"] with class
    [positive].  But the class is chosen from the rounded text, not from
    the number: -0.001 is negative and not zero, shows as ["-0.00%"], and
    gets the class [positive]. *)
Theorem priceChange_class_is_taken_from_rounded_text :
  (priceChange_textContent (after_priceChange minus_1_25) = "-1.25%" /\
   priceChange_className (after_priceChange minus_1_25) = "value negative") /\
  (priceChange_textContent (after_priceChange plus_0_50) = "0.50%" /\
   priceChange_className (after_priceChange plus_0_50) = "value positive") /\
  (is_negative minus_0_001 = true /\
   truthy (VNum minus_0_001) = true /\
   priceChange_textContent (after_priceChange minus_0_001) = "-0.00%" /\
   priceChange_className (after_priceChange minus_0_001) = "value positive").
Proof.
  repeat split; vm_compute; reflexivity.
Qed.

(* ================================================================== *)
(** * The second client: [updateMarketInfo] *)
(* ================================================================== *)

Section SecondClient.

Import MarketClient.

Variable toLocaleString : number -> string.

Lemma index_last (init : list Candle) (prev latest : Candle) :
  index (init ++ [prev; latest]) (length (init ++ [prev; latest]) - 1) = Some latest.
Proof.
  unfold index, length. rewrite length_app. simpl List.length.
  replace (Z.of_nat (List.length init + 2) - 1)%Z
    with (Z.of_nat (List.length init + 1)) by lia.
  destruct (Z.ltb_spec (Z.of_nat (List.length init + 1)) 0) as [Hneg | _]; [lia | ].
  rewrite Nat2Z.id, nth_error_app2 by lia.
  replace (List.length init + 1 - List.length init)%nat with 1%nat by lia.
  reflexivity.
Qed.

Lemma index_before_last (init : list Candle) (prev latest : Candle) :
  index (init ++ [prev; latest]) (length (init ++ [prev; latest]) - 2) = Some prev.
Proof.
  unfold index, length. rewrite length_app. simpl List.length.
  replace (Z.of_nat (List.length init + 2) - 2)%Z
    with (Z.of_nat (List.length init)) by lia.
  destruct (Z.ltb_spec (Z.of_nat (List.length init)) 0) as [Hneg | _]; [lia | ].
  rewrite Nat2Z.id, nth_error_app2 by lia.
  rewrite Nat.sub_diag. reflexivity.
Qed.

(** C9. [updateMarketInfo] reads the last and the second-to-last candle.
    On an array that ends with [prev; latest] it shows [latest.close] to two
    decimals, the change [(latest.close - prev.close) / prev.close * 100] to
    two decimals with ["%"], coloured by [change >= 0], and the volume.  On
    an array of fewer than two candles the previous candle is [undefined]
    and the update throws: at once on the empty array, after the last price
    has been written on an array of one; [updateDashboard] passes such an
    array on (an array is truthy even when empty) and fails with it. *)
Theorem updateMarketInfo_reads_last_two_candles (v : View) :
  (forall (init : list Candle) (prev latest : Candle),
     let change :=
       mul (div (sub (close latest) (close prev)) (close prev)) (of_Z 100) in
     updateMarketInfo toLocaleString (init ++ [prev; latest]) v =
     Done (MkView (charts v)
             (toFixed 2 (close latest))
             (toFixed 2 change ++ "%")
             (if ge change (of_Z 0)
              then "var(--success-color)" else "var(--error-color)")
             (toLocaleString (volume latest))
             (latestSignal_textContent v) (latestSignal_color v)
             (signalConfidence_textContent v))) /\
  updateMarketInfo toLocaleString [] v = Failed TypeError v /\
  (forall only : Candle,
     updateMarketInfo toLocaleString [only] v =
     Failed TypeError
       (MkView (charts v) (toFixed 2 (close only))
          (priceChange_textContent v) (priceChange_color v)
          (volume_textContent v) (latestSignal_textContent v)
          (latestSignal_color v) (signalConfidence_textContent v))) /\
  (forall signals, exists v',
     updateDashboard toLocaleString (Some []) signals v = Failed TypeError v').
Proof.
  repeat split.
  - intros init prev latest change. unfold updateMarketInfo.
    rewrite index_last, index_before_last. reflexivity.
  - intros signals. eexists. reflexivity.
Qed.

End SecondClient.

(* ================================================================== *)
(** * Handling a response only redraws *)
(* ================================================================== *)

Lemma redraws_refl s : redraws s s.
Proof. constructor; try reflexivity. exists []. split; reflexivity. Qed.

Lemma redraws_trans a b c : redraws a b -> redraws b c -> redraws a c.
Proof.
  intros [U1 T1 M1 N1 S1 R1 C1 G1 F1 (n1 & E1 & Q1)]
         [U2 T2 M2 N2 S2 R2 C2 G2 F2 (n2 & E2 & Q2)].
  constructor; try congruence.
  exists (n2 ++ n1)%list. split.
  - rewrite E2, E1. apply app_assoc.
  - rewrite forallb_app, Q1, Q2. reflexivity.
Qed.

(** A single write or quiet effect, by computation. *)
Ltac redraws_write :=
  intros; constructor; try reflexivity;
  first [ exists (@nil Effect); split; reflexivity
        | eexists (cons _ nil); split; reflexivity ].

Ltac redraws_structure := respects_structure redraws_refl redraws_trans.

Lemma console_error_redraws msg : respects redraws (console_error msg).
Proof. apply respects_modify. redraws_write. Qed.

Lemma showError_redraws msg : respects redraws (showError msg).
Proof. unfold showError, console_error, alert. redraws_structure; redraws_write. Qed.

Lemma updateMarketSummary_redraws data : respects redraws (updateMarketSummary data).
Proof.
  unfold updateMarketSummary, update_lastPrice, update_priceChange, update_volume,
    update_signal, update_llmAnalysis, update_elements.
  redraws_structure; redraws_write.
Qed.

(** The first draw makes the plot with [plot_options] and sets [mainChart];
    later ones keep the plot's configuration: [next_config] stays. *)
Lemma draw_redraws plot chartData : respects redraws (draw plot chartData).
Proof.
  intro s. unfold draw, Plotly_newPlot, Plotly_react, bind, gets, modify.
  destruct (mainChart s) as [h | ] eqn:Hchart; destruct plot; simpl;
    constructor; simpl; try reflexivity;
    try (eexists (cons _ nil); split; reflexivity);
    unfold next_config; simpl; rewrite Hchart; try reflexivity.
Qed.

Lemma fetchChartData_catch_redraws e : respects redraws (fetchChartData_catch e).
Proof.
  unfold fetchChartData_catch.
  apply (@respects_bind _ redraws_trans);
    [apply console_error_redraws | intros _; apply showError_redraws].
Qed.

Lemma fetchChartData_rest_redraws response plot :
  respects redraws (fetchChartData_rest response plot).
Proof.
  unfold fetchChartData_rest, json, JSON_parse.
  repeat first
    [ apply draw_redraws
    | apply updateMarketSummary_redraws
    | apply (@respects_bind _ redraws_trans); [ | intro ]
    | apply (@respects_when _ redraws_refl)
    | apply (@respects_ret _ redraws_refl)
    | apply (@respects_throw _ redraws_refl)
    | match goal with
      | |- respects _ (match ?x with _ => _ end) => destruct x
      end
    | apply respects_modify; redraws_write ].
Qed.

Lemma fetchChartData_resume_redraws net plot :
  respects redraws (fetchChartData_resume net plot).
Proof.
  unfold fetchChartData_resume, awaited.
  apply (@respects_try_catch _ redraws_trans);
    [ | apply fetchChartData_catch_redraws ].
  apply (@respects_bind _ redraws_trans);
    [ destruct net; [apply (@respects_throw _ redraws_refl)
                    | apply (@respects_ret _ redraws_refl)]
    | intro response; apply fetchChartData_rest_redraws ].
Qed.

(** ** A method is its part before the request and its part after *)

Lemma fetchChartData_split net plot s :
  fetchChartData net plot s =
  fetchChartData_resume net plot (final (fetchChartData_send s)).
Proof. reflexivity. Qed.

Lemma fetchUpdate_split net plot s :
  fetchUpdate net plot s =
  match fetchUpdate_send s with
  | Returns true s' => fetchUpdate_resume net plot s'
  | Returns false s' => Returns tt s'
  | Throws e s' => Throws e s'
  end.
Proof.
  unfold fetchUpdate, fetchUpdate_try, fetchUpdate_send, fetchUpdate_resume,
    fetchUpdate_catch, fetch, toISOString, try_catch, bind, gets, modify,
    console_error, ret.
  destruct (lastUpdateTime s) as [[[t | ]] | ]; reflexivity.
Qed.

Lemma fetchChartData_returns net plot s :
  fetchChartData net plot s = Returns tt (final (fetchChartData net plot s)).
Proof.
  unfold fetchChartData, try_catch.
  destruct (fetchChartData_try net plot s) as [[] s1 | e s1]; reflexivity.
Qed.

Lemma count_fetches_quiet new l :
  forallb quiet new = true ->
  count_fetches (new ++ l) = count_fetches l.
Proof.
  intros H. unfold count_fetches. rewrite filter_app, length_app.
  induction new as [ | e new IH]; [reflexivity | ].
  simpl in H. apply andb_prop in H. destruct H as [He Hnew].
  destruct e; simpl in *; try discriminate; auto.
Qed.

(** What [fetchChartData] as a whole leaves alone, and its one request. *)
Lemma fetchChartData_frame net plot s :
  let s' := final (fetchChartData net plot s) in
  updateInterval s' = updateInterval s /\
  timeframe s' = timeframe s /\
  timers s' = timers s /\
  nextTimer s' = nextTimer s /\
  timeframeSelect_value (elements s') = timeframeSelect_value (elements s) /\
  rsiToggle_checked (elements s') = rsiToggle_checked (elements s) /\
  macdToggle_checked (elements s') = macdToggle_checked (elements s) /\
  signalsToggle_checked (elements s') = signalsToggle_checked (elements s) /\
  next_config s' = next_config s /\
  count_fetches (effects s') = S (count_fetches (effects s)) /\
  exists new,
    effects s' = (new ++ Fetch (GET_chart_data (timeframe s)) :: effects s)%list /\
    forallb quiet new = true.
Proof.
  cbv zeta. rewrite fetchChartData_split.
  destruct (fetchChartData_resume_redraws net plot (final (fetchChartData_send s)))
    as [U T M N S R C G F (new & E & Q)].
  simpl in *. repeat split; try assumption.
  - rewrite E, (count_fetches_quiet _ _ Q). reflexivity.
  - exists new. split; assumption.
Qed.

(* ================================================================== *)
(** * The request fails *)
(* ================================================================== *)

Lemma fetchChartData_request_fails net plot s :
  request_fails net = true ->
  fetchChartData net plot s = Returns tt (chart_data_failed s).
Proof.
  intros H.
  unfold fetchChartData, fetchChartData_try, fetchChartData_rest, fetch, awaited,
    json, try_catch, bind, gets, modify, when.
  destruct net as [ | [data | ]]; simpl in *; try reflexivity.
  destruct (Response.success data); [discriminate | reflexivity].
Qed.

Lemma toggleIndicator_request_fails indicator toggled net plot s :
  request_fails toggled = true ->
  toggleIndicator indicator toggled net plot s =
  Returns tt (toggle_failed indicator s).
Proof.
  intros H.
  unfold toggleIndicator, fetch, awaited, json, try_catch, bind, gets, modify, when.
  destruct toggled as [ | [data | ]]; simpl in *; try reflexivity.
  destruct (Response.success data); [discriminate | reflexivity].
Qed.

(** C3, as the code has it.  When the request of [toggleIndicator(name)]
    fails (the fetch is rejected, the body is not JSON, or the answer has
    [success: false]), the call ends normally, changes no element of the
    page, and surfaces the error: two lines on the console and the [alert].
    It never writes the control, so the box keeps what the user's click
    gave it: after a failed attempt on the RSI or the MACD box, that box
    shows the opposite of what it showed before the attempt and every other
    element is what it was. *)
Theorem failed_toggle_keeps_the_click_and_alerts
    (indicator : string) (toggled net : FetchOutcome) (plot : Settles) (s : State) :
  request_fails toggled = true ->
  let s' := final (toggleIndicator indicator toggled net plot s) in
  let rsi := final (click_rsiToggle toggled net plot s) in
  let macd := final (click_macdToggle toggled net plot s) in
  (toggleIndicator indicator toggled net plot s = Returns tt s' /\
   elements s' = elements s /\
   effects s' =
     Alert ("Failed to toggle " ++ indicator)
     :: ConsoleError ("Failed to toggle " ++ indicator)
     :: ConsoleError ("Failed to toggle " ++ indicator ++ ":")
     :: Fetch (POST_toggle_indicator indicator) :: effects s) /\
  (rsiToggle_checked (elements rsi) = negb (rsiToggle_checked (elements s)) /\
   elements rsi = flip_rsi (elements s) /\
   hd_error (effects rsi) = Some (Alert "Failed to toggle rsi")) /\
  (macdToggle_checked (elements macd) = negb (macdToggle_checked (elements s)) /\
   elements macd = flip_macd (elements s) /\
   hd_error (effects macd) = Some (Alert "Failed to toggle macd")).
Proof.
  intros H. cbv zeta.
  unfold click_rsiToggle, click_macdToggle, on_rsiToggle_change,
    on_macdToggle_change, update_elements, bind, modify.
  rewrite (toggleIndicator_request_fails indicator toggled net plot s H).
  rewrite (toggleIndicator_request_fails "rsi" toggled net plot _ H).
  rewrite (toggleIndicator_request_fails "macd" toggled net plot _ H).
  repeat split.
Qed.

Lemma failed_toggle_on_loaded_page :
  rsiToggle_checked
    (elements (final (click_rsiToggle (Responds (Some failure_payload))
                        NetworkFailure Resolves loaded)))
  = negb (rsiToggle_checked (elements loaded)).
Proof.
  destruct (failed_toggle_keeps_the_click_and_alerts
              "rsi" (Responds (Some failure_payload)) NetworkFailure Resolves loaded)
    as (_ & (H & _) & _).
  - reflexivity.
  - exact H.
Defined.

(** On the loaded page the RSI box is checked; the user clicks it and the
    toggle request is rejected: the box is left unchecked. *)
Lemma failed_toggle_changes_the_box :
  request_fails NetworkFailure = true /\
  rsiToggle_checked (elements loaded) = true /\
  rsiToggle_checked
    (elements (final (click_rsiToggle NetworkFailure NetworkFailure Resolves loaded)))
  = false /\
  hd_error
    (effects (final (click_rsiToggle NetworkFailure NetworkFailure Resolves loaded)))
  = Some (Alert "Failed to toggle rsi").
Proof.
  repeat split; vm_compute; reflexivity.
Qed.

(** The box itself was flipped by the click that raised the [change] event,
    before the listener ran; the failed call does not flip it back. *)
Lemma failed_click_leaves_box_flipped
    (toggled net : FetchOutcome) (plot : Settles) (s : State) :
  request_fails toggled = true ->
  rsiToggle_checked (elements (final (click_rsiToggle toggled net plot s)))
  = negb (rsiToggle_checked (elements s)).
Proof.
  intros H. unfold click_rsiToggle, on_rsiToggle_change, update_elements, bind, modify.
  rewrite (toggleIndicator_request_fails "rsi" toggled net plot _ H).
  reflexivity.
Qed.

Lemma failed_click_on_loaded_page :
  rsiToggle_checked
    (elements (final (click_rsiToggle (Responds (Some failure_payload))
                        NetworkFailure Resolves loaded)))
  = false.
Proof.
  rewrite (failed_click_leaves_box_flipped
             (Responds (Some failure_payload)) NetworkFailure Resolves loaded).
  - reflexivity.
  - reflexivity.
Defined.

(* ================================================================== *)
(** * The polling timer *)
(* ================================================================== *)

Lemma startRealTimeUpdates_runs s :
  let s' := final (startRealTimeUpdates s) in
  startRealTimeUpdates s = Returns tt s' /\
  hd_error (effects s') = Some (SetInterval (nextTimer s) (cadence (timeframe s))) /\
  updateInterval s' = Some (nextTimer s) /\
  In (nextTimer s, cadence (timeframe s)) (timers s') /\
  count_fetches (effects s') = count_fetches (effects s) /\
  mainChart s' = mainChart s /\
  elements s' = elements s /\
  lastUpdateTime s' = lastUpdateTime s /\
  timeframe s' = timeframe s /\
  (forall e, In e (effects s) -> In e (effects s')).
Proof.
  cbv zeta.
  unfold startRealTimeUpdates, clearInterval, setInterval, bind, gets, modify.
  destruct (updateInterval s) as [[ | id] | ]; simpl;
    repeat split; auto.
Qed.

(** C2, on the code.  The listener of the timeframe select sets the
    timeframe and fetches; it never reaches [startRealTimeUpdates], so the
    timers, [updateInterval] and the next timer id are what they were and
    no timer call is made.  After a first load at ['1h'] the user picks
    ['1m']: the page still runs its one timer at 60000 ms, where the table
    has 1000 ms for ['1m']. *)
Theorem timeframe_change_keeps_running_timer :
  (forall (value : string) (net : FetchOutcome) (plot : Settles) (s : State),
     let s' := final (on_timeframe_change value net plot s) in
     timeframe s' = value /\
     timers s' = timers s /\
     updateInterval s' = updateInterval s /\
     nextTimer s' = nextTimer s) /\
  timers loaded = [(1%nat, 60000%Z)] /\
  timeframe (final (select_timeframe "1m" (Responds (Some payload_2)) Resolves loaded))
    = "1m" /\
  timers (final (select_timeframe "1m" (Responds (Some payload_2)) Resolves loaded))
    = [(1%nat, 60000%Z)] /\
  cadence "1m" = 1000%Z.
Proof.
  split.
  - intros value net plot s. cbv zeta.
    unfold on_timeframe_change, bind, modify.
    destruct (fetchChartData_frame net plot (set_timeframe value s))
      as (Hu & Ht & Hm & Hn & _).
    cbv zeta in Hu, Ht, Hm, Hn.
    rewrite Hu, Ht, Hm, Hn. repeat split.
  - repeat split; vm_compute; reflexivity.
Qed.

(* ================================================================== *)
(** * Background polls *)
(* ================================================================== *)

(** Closes the conclusion of the theorem below once the poll has been run:
    the fields by computation, the effects made by listing them. *)
Ltac poll_ends :=
  simpl; repeat (split; [first [reflexivity | assumption] | ]);
  first [ exists (@nil Effect); split; reflexivity
        | eexists (cons _ nil); split; reflexivity
        | eexists (cons _ (cons _ nil)); split; reflexivity ].

(** C1, as the code has it.  A background poll that fails before the
    summary is written (no valid [lastUpdateTime] to send, fetch rejected,
    body not JSON, [success: false], malformed chart text, or the redraw
    rejected) ends normally and leaves the elements (chart, last price,
    price change, volume, both panels), [lastUpdateTime] and every other
    field as they were; all it adds to what the page did is the request,
    the redraw call when it got that far, and one [console.error] line. *)
Theorem failed_poll_before_summary_is_only_logged
    (net : FetchOutcome) (plot : Settles) (s : State) :
  fails_before_summary s net plot ->
  let s' := final (fetchUpdate net plot s) in
  fetchUpdate net plot s = Returns tt s' /\
  elements s' = elements s /\
  lastUpdateTime s' = lastUpdateTime s /\
  mainChart s' = mainChart s /\
  timeframe s' = timeframe s /\
  updateInterval s' = updateInterval s /\
  timers s' = timers s /\
  exists made,
    effects s' =
      (ConsoleError "Failed to fetch update:" :: made ++ effects s)%list /\
    forallb is_request_or_redraw made = true.
Proof.
  intros Hfail. cbv zeta.
  unfold fetchUpdate, fetchUpdate_try, fetchUpdate_rest, fetchUpdate_catch,
    fetch, awaited, json, JSON_parse, toISOString, Plotly_react, console_error,
    try_catch, bind, gets, modify, when, ret, throw.
  destruct Hfail as [net plot Hlast | net plot Hlast | plot | plot
                    | data plot Hsuccess | data plot Hchart | data].
  - rewrite Hlast. poll_ends.
  - rewrite Hlast. poll_ends.
  - destruct (lastUpdateTime s) as [[[t | ]] | ] eqn:Hlast; poll_ends.
  - destruct (lastUpdateTime s) as [[[t | ]] | ] eqn:Hlast; poll_ends.
  - rewrite Hsuccess.
    destruct (lastUpdateTime s) as [[[t | ]] | ] eqn:Hlast; poll_ends.
  - rewrite Hchart.
    destruct (lastUpdateTime s) as [[[t | ]] | ] eqn:Hlast; destruct (Response.success data);
      poll_ends.
  - destruct (lastUpdateTime s) as [[[t | ]] | ] eqn:Hlast; destruct (Response.success data);
      destruct (Response.data data); poll_ends.
Qed.

Lemma rejected_poll_on_loaded_page :
  elements (final (fetchUpdate NetworkFailure Resolves loaded)) = elements loaded.
Proof.
  apply (@failed_poll_before_summary_is_only_logged NetworkFailure Resolves loaded).
  apply fetch_rejected.
Defined.

(** C1 as stated fails when the poll breaks inside [updateMarketSummary]:
    the answer draws, its [lastPrice] is written, and its [priceChange], a
    string, has no [toFixed].  The poll has failed (the [try] block threw
    and only a log line records it), yet the chart and the last price on the
    page are the new ones while [lastUpdateTime] is the old one. *)
Lemma failed_poll_after_redraw_changes_display :
  (exists s', fetchUpdate_try (Responds (Some payload_text_change)) Resolves loaded
              = Throws TypeError s') /\
  hd_error (effects (final (fetchUpdate (Responds (Some payload_text_change))
                              Resolves loaded)))
    = Some (ConsoleError "Failed to fetch update:") /\
  lastPrice_textContent (elements loaded) = "100.00" /\
  lastPrice_textContent
    (elements (final (fetchUpdate (Responds (Some payload_text_change))
                        Resolves loaded))) = "101.50" /\
  option_map traces (mainChart_plot (elements loaded)) = Some "traces-1" /\
  option_map traces
    (mainChart_plot
       (elements (final (fetchUpdate (Responds (Some payload_text_change))
                           Resolves loaded)))) = Some "traces-3" /\
  lastUpdateTime (final (fetchUpdate (Responds (Some payload_text_change))
                           Resolves loaded))
    = lastUpdateTime loaded /\
  elements (final (fetchUpdate (Responds (Some payload_text_change)) Resolves loaded))
    <> elements loaded.
Proof.
  split.
  - eexists. vm_compute. reflexivity.
  - repeat split; try (vm_compute; reflexivity).
    intro H. apply (f_equal lastPrice_textContent) in H.
    vm_compute in H. discriminate H.
Qed.

(* ================================================================== *)
(** * Drawing a response *)
(* ================================================================== *)

Lemma summary_keeps_plot data :
  preserves (fun s => mainChart_plot (elements s)) (updateMarketSummary data).
Proof. summary_blocks (fun s => mainChart_plot (elements s)). Qed.

(** Once a plot call [c] has returned, what follows it and the catch block
    keep the plot it drew. *)
Lemma drawn_plot_stays (c : M unit) data (handler : Error -> M unit) s s1 :
  c s = Returns tt s1 ->
  (forall e, preserves (fun s => mainChart_plot (elements s)) (handler e)) ->
  mainChart_plot
    (elements (final (try_catch
       (c ;;
        updateMarketSummary data ;;
        modify (set_lastUpdateTime (Some (MkDate (Response.lastUpdate data)))))
       handler s)))
  = mainChart_plot (elements s1).
Proof.
  intros Hc Hh. unfold try_catch, bind, modify. rewrite Hc.
  pose proof (summary_keeps_plot data s1) as Hs. simpl in Hs.
  destruct (updateMarketSummary data s1) as [[] s2 | e s2]; simpl in *.
  - exact Hs.
  - rewrite (Hh e s2). exact Hs.
Qed.

Lemma fetchChartData_catch_keeps_plot e :
  preserves (fun s => mainChart_plot (elements s)) (fetchChartData_catch e).
Proof. intro s. reflexivity. Qed.

Lemma fetchUpdate_catch_keeps_plot e :
  preserves (fun s => mainChart_plot (elements s)) (fetchUpdate_catch e).
Proof. intro s. reflexivity. Qed.

(** A resolved draw returns, with the payload's traces and layout under
    the configuration [next_config] announced. *)
Lemma draw_resolves d l s :
  draw Resolves (d, l) s = Returns tt (final (draw Resolves (d, l) s)) /\
  elements (final (draw Resolves (d, l) s))
    = set_plot (Some (MkPlot d l (next_config s))) (elements s) /\
  mainChart (final (draw Resolves (d, l) s)) <> None /\
  effects (final (draw Resolves (d, l) s))
    = (match mainChart s with None => NewPlot | Some _ => React end) :: effects s.
Proof.
  unfold draw, Plotly_newPlot, Plotly_react, next_config, bind, gets, modify.
  destruct (mainChart s) as [h | ] eqn:Hmain; simpl; repeat split; congruence.
Qed.

Lemma react_resolves d l s :
  Plotly_react Resolves d l s = Returns tt (final (Plotly_react Resolves d l s)) /\
  exists cfg,
    mainChart_plot (elements (final (Plotly_react Resolves d l s)))
    = Some (MkPlot d l cfg).
Proof.
  unfold Plotly_react, bind, modify. simpl. split; [reflexivity | eexists; reflexivity].
Qed.

(** With [success] and chart text that parses, the statements after the
    request come down to the draw, the summary and the time stamp. *)
Lemma fetchChartData_rest_success data plot d l s :
  Response.success data = true ->
  Response.data data = Response.ChartText d l ->
  fetchChartData_rest (Some data) plot s =
  (draw plot (d, l) ;;
   updateMarketSummary data ;;
   modify (set_lastUpdateTime (Some (MkDate (Response.lastUpdate data))))) s.
Proof.
  intros Hsuccess Hchart.
  unfold fetchChartData_rest, json, JSON_parse, when, bind at 1 2 3, ret.
  rewrite Hsuccess, Hchart. reflexivity.
Qed.

Lemma fetchUpdate_rest_success data plot d l s :
  Response.success data = true ->
  Response.data data = Response.ChartText d l ->
  fetchUpdate_rest (Some data) plot s =
  (Plotly_react plot d l ;;
   updateMarketSummary data ;;
   modify (set_lastUpdateTime (Some (MkDate (Response.lastUpdate data))))) s.
Proof.
  intros Hsuccess Hchart.
  unfold fetchUpdate_rest, json, JSON_parse, when, bind at 1 2 3, ret.
  rewrite Hsuccess, Hchart. reflexivity.
Qed.

(** C4, as the code has it.  The script tags no request and compares no
    ids: when the response to a request in flight arrives with [success],
    chart text that parses and a plot call that resolves, its traces and
    layout are drawn, whatever the number of the request and whatever
    response is on the page; the request leaves the list of those in
    flight. *)
Theorem arriving_response_is_drawn_whatever_its_age
    (ss : Session) (id : nat) (kind : Pending) (data : Response.t) (d l : string) :
  pending_of id (inflight ss) = Some kind ->
  Response.success data = true ->
  Response.data data = Response.ChartText d l ->
  let ss' := step (Arrives id (Responds (Some data)) Resolves) ss in
  (exists cfg, mainChart_plot (elements (page ss')) = Some (MkPlot d l cfg)) /\
  shown ss' = Some id /\
  pending_of id (inflight ss') = None.
Proof.
  intros Hpending Hsuccess Hchart. cbv zeta. unfold step. rewrite Hpending.
  simpl page. simpl shown. simpl inflight.
  split; [ | split ].
  - destruct kind.
    + destruct (draw_resolves d l (page ss)) as (Hdraw & Helts & _).
      exists (next_config (page ss)).
      change (fetchChartData_resume (Responds (Some data)) Resolves (page ss))
        with (try_catch (fetchChartData_rest (Some data) Resolves)
                fetchChartData_catch (page ss)).
      unfold try_catch.
      rewrite (fetchChartData_rest_success data Resolves d l (page ss) Hsuccess Hchart).
      fold (try_catch
              (draw Resolves (d, l) ;;
               updateMarketSummary data ;;
               modify (set_lastUpdateTime (Some (MkDate (Response.lastUpdate data)))))
              fetchChartData_catch (page ss)).
      rewrite (drawn_plot_stays _ data _ _ _ Hdraw fetchChartData_catch_keeps_plot).
      rewrite Helts. reflexivity.
    + destruct (react_resolves d l (page ss)) as (Hreact & cfg & Hplot).
      exists cfg.
      change (fetchUpdate_resume (Responds (Some data)) Resolves (page ss))
        with (try_catch (fetchUpdate_rest (Some data) Resolves)
                fetchUpdate_catch (page ss)).
      unfold try_catch.
      rewrite (fetchUpdate_rest_success data Resolves d l (page ss) Hsuccess Hchart).
      fold (try_catch
              (Plotly_react Resolves d l ;;
               updateMarketSummary data ;;
               modify (set_lastUpdateTime (Some (MkDate (Response.lastUpdate data)))))
              fetchUpdate_catch (page ss)).
      rewrite (drawn_plot_stays _ data _ _ _ Hreact fetchUpdate_catch_keeps_plot).
      exact Hplot.
  - unfold draws. rewrite Hsuccess, Hchart. reflexivity.
  - unfold without. clear. induction (inflight ss) as [ | [i k] rest IH]; simpl.
    + reflexivity.
    + destruct (Nat.eqb i id) eqn:E; simpl; [exact IH | rewrite E; exact IH].
Qed.

Lemma stale_arrival_on_two_requests :
  exists cfg,
    mainChart_plot (elements (page older_last))
    = Some (MkPlot "traces-1" "layout-1" cfg).
Proof.
  apply (arriving_response_is_drawn_whatever_its_age
           newer_first 0 AwaitsChartData payload_1 "traces-1" "layout-1");
    reflexivity.
Defined.

(** C4 as stated fails: request 0 (for ['5m']) is older than request 1 (for
    ['1d']), whose response is on the page; when the response to request 0
    arrives it is not discarded but drawn over it, and the page shows the
    ['5m'] answer under the timeframe ['1d']. *)
Lemma stale_response_overwrites_newer_render :
  shown newer_first = Some 1%nat /\
  pending_of 0 (inflight newer_first) = Some AwaitsChartData /\
  option_map traces (mainChart_plot (elements (page newer_first)))
    = Some "traces-2" /\
  lastPrice_textContent (elements (page newer_first)) = "101.50" /\
  option_map traces (mainChart_plot (elements (page older_last)))
    = Some "traces-1" /\
  lastPrice_textContent (elements (page older_last)) = "100.00" /\
  timeframe (page older_last) = "1d" /\
  elements (page older_last) <> elements (page newer_first).
Proof.
  repeat split; try (vm_compute; reflexivity).
  intro H. apply (f_equal lastPrice_textContent) in H.
  vm_compute in H. discriminate H.
Qed.

(* ================================================================== *)
(** * Rendering one payload after another *)
(* ================================================================== *)

Lemma clean_truthy_is_number v :
  writes_cleanly v = true -> truthy v = true -> exists n, v = VNum n.
Proof.
  destruct v as [ | | b | n | str]; simpl; intros Hc Ht;
    try discriminate; try (rewrite Ht in Hc; discriminate).
  exists n. reflexivity.
Qed.

Lemma formatVolume_number n : formatVolume (VNum n) = Normal (volume_text (VNum n)).
Proof.
  unfold volume_text, formatVolume, ToNumber, call_toFixed.
  destruct (ge n (of_Z 1000000000)); [reflexivity | ].
  destruct (ge n (of_Z 1000000)); [reflexivity | ].
  destruct (ge n (of_Z 1000)); reflexivity.
Qed.

(** Each block on a field it can take: it returns, having written the
    field when it is truthy. *)
Lemma update_lastPrice_clean data s :
  writes_cleanly (Response.lastPrice data) = true ->
  update_lastPrice data s =
  Returns tt
    (if truthy (Response.lastPrice data)
     then set_elements (set_lastPrice (fixed_text (Response.lastPrice data))
                          (elements s)) s
     else s).
Proof.
  intros Hc. unfold update_lastPrice.
  destruct (truthy (Response.lastPrice data)) eqn:Ht; [ | reflexivity ].
  destruct (clean_truthy_is_number _ Hc Ht) as [n Hn]. rewrite Hn. reflexivity.
Qed.

Lemma update_priceChange_clean data s :
  writes_cleanly (Response.priceChange data) = true ->
  update_priceChange data s =
  Returns tt
    (if truthy (Response.priceChange data)
     then
       let change := fixed_text (Response.priceChange data) in
       set_elements
         (set_priceChange_class
            ("value " ++ (if ge (ToNumber (VStr change)) (of_Z 0)
                          then "positive" else "negative"))
            (set_priceChange_text (change ++ "%") (elements s))) s
     else s).
Proof.
  intros Hc. unfold update_priceChange.
  destruct (truthy (Response.priceChange data)) eqn:Ht; [ | reflexivity ].
  destruct (clean_truthy_is_number _ Hc Ht) as [n Hn]. rewrite Hn. reflexivity.
Qed.

Lemma update_volume_clean data s :
  writes_cleanly (Response.volume data) = true ->
  update_volume data s =
  Returns tt
    (if truthy (Response.volume data)
     then set_elements (set_volume (volume_text (Response.volume data))
                          (elements s)) s
     else s).
Proof.
  intros Hc. unfold update_volume.
  destruct (truthy (Response.volume data)) eqn:Ht; [ | reflexivity ].
  destruct (clean_truthy_is_number _ Hc Ht) as [n Hn]. rewrite Hn.
  unfold when, bind, lift. rewrite formatVolume_number. reflexivity.
Qed.

Lemma valid_fields data :
  valid data = true ->
  Response.success data = true /\
  (exists d l, Response.data data = Response.ChartText d l) /\
  writes_cleanly (Response.lastPrice data) = true /\
  writes_cleanly (Response.priceChange data) = true /\
  writes_cleanly (Response.volume data) = true.
Proof.
  unfold valid. intros H.
  repeat (apply andb_prop in H; destruct H as [H ?]).
  repeat split; try assumption.
  destruct (Response.data data) as [ | d l]; [discriminate | ].
  exists d, l. reflexivity.
Qed.

(** The summary of a valid payload returns, and touches nothing but the
    elements. *)
Lemma updateMarketSummary_valid data s :
  valid data = true ->
  exists e',
    updateMarketSummary data s = Returns tt (set_elements e' s) /\
    (complete data = true ->
     e' = MkElements (mainChart_plot (elements s))
            (timeframeSelect_value (elements s))
            (rsiToggle_checked (elements s)) (macdToggle_checked (elements s))
            (signalsToggle_checked (elements s))
            (lastPrice_textContent (rendered data DefaultConfig (elements s)))
            (priceChange_textContent (rendered data DefaultConfig (elements s)))
            (priceChange_className (rendered data DefaultConfig (elements s)))
            (volume_textContent (rendered data DefaultConfig (elements s)))
            (signalMessage_textContent (rendered data DefaultConfig (elements s)))
            (signalDetails_innerHTML (rendered data DefaultConfig (elements s)))
            (llmMessage_textContent (rendered data DefaultConfig (elements s)))
            (llmDetails_innerHTML (rendered data DefaultConfig (elements s)))).
Proof.
  intros Hvalid.
  destruct (valid_fields data Hvalid) as (_ & _ & Hp & Hc & Hv).
  unfold updateMarketSummary, bind.
  rewrite (update_lastPrice_clean data s Hp).
  rewrite update_priceChange_clean by exact Hc.
  rewrite update_volume_clean by exact Hv.
  unfold update_signal, update_llmAnalysis, update_elements, modify, ret, complete,
    rendered, panel_message, panel_details.
  destruct (truthy (Response.lastPrice data));
    destruct (truthy (Response.priceChange data));
    destruct (truthy (Response.volume data));
    destruct (Response.signal data) as [sg | ];
    destruct (Response.llmAnalysis data) as [an | ];
    destruct s as [mc lu ui tf [pl sel rsi macd sig lp pc pcc vol sm sd lm ld] tm nt ef];
    simpl;
    eexists; (split; [reflexivity | ]); intro Hcomplete;
    first [ discriminate Hcomplete | reflexivity ].
Qed.

(** A valid answer to [fetchChartData] with a resolved plot call: the chart
    is there afterwards, made by [newPlot] when there was none and by
    [react] otherwise, with nothing else done after the request; a complete
    payload decides every element it writes. *)
Lemma fetchChartData_valid data s :
  valid data = true ->
  let s' := final (fetchChartData (Responds (Some data)) Resolves s) in
  mainChart s' <> None /\
  effects s' =
    (match mainChart s with None => NewPlot | Some _ => React end)
    :: Fetch (GET_chart_data (timeframe s)) :: effects s /\
  lastUpdateTime s' = Some (MkDate (Response.lastUpdate data)) /\
  (complete data = true ->
   elements s' = rendered data (next_config s) (elements s)).
Proof.
  intros Hvalid. cbv zeta.
  destruct (valid_fields data Hvalid) as (Hsuccess & (d & l & Hchart) & _).
  rewrite fetchChartData_split.
  set (s0 := final (fetchChartData_send s)).
  destruct (draw_resolves d l s0) as (Hdraw & Helts & Hmain & Heff).
  remember (final (draw Resolves (d, l) s0)) as s1 eqn:Hs1.
  destruct (updateMarketSummary_valid data s1 Hvalid) as (e' & Hsummary & He').
  assert (Hrun : fetchChartData_resume (Responds (Some data)) Resolves s0 =
                 Returns tt
                   (set_lastUpdateTime (Some (MkDate (Response.lastUpdate data)))
                      (set_elements e' s1))).
  { change (fetchChartData_resume (Responds (Some data)) Resolves s0)
      with (try_catch (fetchChartData_rest (Some data) Resolves)
              fetchChartData_catch s0).
    unfold try_catch.
    rewrite (fetchChartData_rest_success data Resolves d l s0 Hsuccess Hchart).
    unfold bind, modify. rewrite Hdraw, Hsummary. reflexivity. }
  rewrite Hrun. simpl.
  split; [exact Hmain | ].
  split; [rewrite Heff; reflexivity | ].
  split; [reflexivity | ].
  intros Hcomplete. rewrite (He' Hcomplete), Helts.
  unfold rendered, chart_of. rewrite Hchart. reflexivity.
Qed.




Lemma lookup_missing (key : string) (table : list (string * Z)) :
  ~ In key (map fst table) -> lookup key table = None.
Proof.
  induction table as [ | [k v] rest IH]; intro Hout; [reflexivity | ].
  simpl in *. destruct (String.eqb_spec k key) as [Heq | Hne].
  - exfalso. apply Hout. left. exact Heq.
  - apply IH. intro Hin. apply Hout. right. exact Hin.
Qed.

Lemma cadence_outside_the_table (tf : string) :
  ~ In tf (map fst intervals) -> ~ In tf Object_prototype ->
  cadence tf = 60000%Z.
Proof.
  intros Hkeys Hproto. unfold cadence, intervals_at.
  rewrite (lookup_missing tf intervals Hkeys).
  destruct (existsb (String.eqb tf) Object_prototype) eqn:Hfound; [ | reflexivity].
  exfalso. apply Hproto. apply existsb_exists in Hfound.
  destruct Hfound as (k & Hin & Heq). apply String.eqb_eq in Heq.
  subst k. exact Hin.
Qed.

(** [startRealTimeUpdates] itself replaces the timer: on a page whose one
    timer is the one held in [updateInterval], it clears that timer and
    leaves one timer again, a new one whose period follows from the current
    timeframe.  For the six keys of the table the period is the table's
    (1 s, 5 s, 15 s, 1 min, 4 min, 5 min); for a name that the table
    inherits from [Object.prototype], such as ['constructor'], the value
    found is not a number and [setInterval] takes it as 0; for every other
    timeframe it is 1 min. *)
Lemma startRealTimeUpdates_replaces_timer (s : State) (id : nat) (ms : Z) :
  updateInterval s = Some (S id) ->
  timers s = [(S id, ms)] ->
  timers (final (startRealTimeUpdates s)) = [(nextTimer s, cadence (timeframe s))] /\
  updateInterval (final (startRealTimeUpdates s)) = Some (nextTimer s) /\
  firstn 2 (effects (final (startRealTimeUpdates s)))
    = [SetInterval (nextTimer s) (cadence (timeframe s)); ClearInterval (S id)] /\
  cadence "1m" = 1000%Z /\ cadence "5m" = 5000%Z /\ cadence "15m" = 15000%Z /\
  cadence "1h" = 60000%Z /\ cadence "4h" = 240000%Z /\ cadence "1d" = 300000%Z /\
  (forall tf : string, In tf Object_prototype -> cadence tf = 0%Z) /\
  (forall tf : string,
     ~ In tf ["1m"; "5m"; "15m"; "1h"; "4h"; "1d"] ->
     ~ In tf Object_prototype ->
     cadence tf = 60000%Z).
Proof.
  intros Hid Htimers.
  unfold startRealTimeUpdates, clearInterval, setInterval, bind, gets, modify.
  rewrite Hid. simpl. rewrite Htimers. simpl. rewrite Nat.eqb_refl. simpl.
  repeat (split; [reflexivity | ]).
  split.
  - intros tf Hin. simpl in Hin.
    repeat (destruct Hin as [Heq | Hin]; [subst tf; reflexivity | ]).
    contradiction.
  - exact cadence_outside_the_table.
Qed.

Lemma startRealTimeUpdates_after_timeframe_change :
  timers (final (startRealTimeUpdates
           (final (select_timeframe "1m" (Responds (Some payload_2)) Resolves loaded))))
  = [(2%nat, 1000%Z)].
Proof.
  destruct (startRealTimeUpdates_replaces_timer
              (final (select_timeframe "1m" (Responds (Some payload_2)) Resolves loaded))
              0%nat 60000%Z) as (H & _).
  - vm_compute. reflexivity.
  - vm_compute. reflexivity.
  - exact H.
Defined.

(** 2.3 is the number [5179139571476070 * 2^-51]; [toFixed(2)] prints the
    integer 230 for it, the nearest to 230.0000000000000177... *)
Lemma scaled_round_of_2_3 :
  scaled_round 5179139571476070 (-51) 2 = 230%Z /\
  (2 ^ 51 * (2 * 230 - 1) <= 2 * 5179139571476070 * 10 ^ 2
   /\ 2 * 5179139571476070 * 10 ^ 2 < 2 ^ 51 * (2 * 230 + 1))%Z.
Proof.
  split; [reflexivity | ].
  apply (scaled_round_is_nearest 5179139571476070 (-51) 2); lia.
Defined.

(** In the session model, a pick followed at once by its answer is the
    listener run in one piece. *)
Lemma pick_then_arrival_is_select_timeframe value net plot s :
  page (step (Arrives 0 net plot) (step (Picks value) (session_of s)))
  = final (select_timeframe value net plot s).
Proof. reflexivity. Qed.

(** A poll that succeeds is drawn: with a valid [lastUpdateTime] on the page
    and a valid answer, the plot shows the answer's traces and layout, the
    time stamp is the answer's, and the page did just the request and the
    redraw. *)
Lemma successful_poll_is_drawn (data : Response.t) (t : Z) (d l : string) (s : State) :
  lastUpdateTime s = Some (MkDate (Some t)) ->
  valid data = true ->
  Response.data data = Response.ChartText d l ->
  let s' := final (fetchUpdate (Responds (Some data)) Resolves s) in
  (exists cfg, mainChart_plot (elements s') = Some (MkPlot d l cfg)) /\
  lastUpdateTime s' = Some (MkDate (Response.lastUpdate data)) /\
  effects s' = React :: Fetch (POST_update (timeframe s) t) :: effects s.
Proof.
  intros Hlast Hvalid Hchart. cbv zeta.
  destruct (valid_fields data Hvalid) as (Hsuccess & _).
  set (s0 := emit (Fetch (POST_update (timeframe s) t)) s).
  destruct (react_resolves d l s0) as (Hreact & cfg & Hplot).
  remember (final (Plotly_react Resolves d l s0)) as s1 eqn:Hs1.
  destruct (updateMarketSummary_valid data s1 Hvalid) as (e' & Hsummary & _).
  assert (Hkeep : mainChart_plot e' = mainChart_plot (elements s1)).
  { pose proof (summary_keeps_plot data s1) as Hk. simpl in Hk.
    rewrite Hsummary in Hk. exact Hk. }
  assert (Hrun : fetchUpdate (Responds (Some data)) Resolves s =
                 Returns tt
                   (set_lastUpdateTime (Some (MkDate (Response.lastUpdate data)))
                      (set_elements e' s1))).
  { unfold fetchUpdate, fetchUpdate_try, fetch, awaited, toISOString,
      try_catch, bind at 1 2 3 4 5, gets, modify, ret.
    rewrite Hlast. fold s0.
    rewrite (fetchUpdate_rest_success data Resolves d l s0 Hsuccess Hchart).
    unfold bind, modify. rewrite Hreact, Hsummary. reflexivity. }
  rewrite Hrun. simpl.
  split; [exists cfg; rewrite Hkeep; exact Hplot | ].
  split; [reflexivity | ].
  rewrite Hs1. reflexivity.
Qed.

Lemma successful_poll_on_loaded_page :
  exists cfg,
    mainChart_plot (elements (final (fetchUpdate (Responds (Some payload_2))
                                       Resolves loaded)))
    = Some (MkPlot "traces-2" "layout-2" cfg).
Proof.
  apply (successful_poll_is_drawn payload_2 1700000000000%Z
           "traces-2" "layout-2" loaded); reflexivity.
Defined.

(* ================================================================== *)
(** * Further properties of [dashboard.js] *)
(* ================================================================== *)

(** ** What a background poll never does *)

Lemma polled_refl s : polled s s.
Proof. constructor; try reflexivity. exists []. split; reflexivity. Qed.

Lemma polled_trans a b c : polled a b -> polled b c -> polled a c.
Proof.
  intros [C1 U1 T1 M1 N1 S1 R1 D1 G1 (n1 & E1 & Q1)]
         [C2 U2 T2 M2 N2 S2 R2 D2 G2 (n2 & E2 & Q2)].
  constructor; try congruence.
  exists (n2 ++ n1)%list. split.
  - rewrite E2, E1. apply app_assoc.
  - rewrite forallb_app, Q1, Q2. reflexivity.
Qed.

Lemma fetchUpdate_resume_polled net plot :
  respects polled (fetchUpdate_resume net plot).
Proof.
  unfold fetchUpdate_resume, fetchUpdate_rest, fetchUpdate_catch, awaited, json,
    JSON_parse, Plotly_react, console_error, updateMarketSummary, update_lastPrice,
    update_priceChange, update_volume, update_signal, update_llmAnalysis,
    update_elements.
  respects_structure polled_refl polled_trans; redraws_write.
Qed.

Lemma fetchUpdate_resume_returns net plot s :
  fetchUpdate_resume net plot s = Returns tt (final (fetchUpdate_resume net plot s)).
Proof.
  unfold fetchUpdate_resume, try_catch.
  destruct ((response <- awaited net ;; fetchUpdate_rest response plot) s)
    as [[] s1 | e s1]; reflexivity.
Qed.

Lemma count_fetches_calm new :
  forallb calm new = true -> count_fetches new = 0%nat.
Proof.
  induction new as [ | e new IH]; [reflexivity | ].
  simpl. intros H. apply andb_prop in H. destruct H as [He Hnew].
  destruct e; simpl in *; try discriminate; auto.
Qed.

Lemma calm_is_poll_effect new :
  forallb calm new = true -> forallb poll_effect new = true.
Proof.
  induction new as [ | e new IH]; [reflexivity | ].
  simpl. intros H. apply andb_prop in H. destruct H as [He Hnew].
  rewrite (IH Hnew). destruct e; simpl in *; try discriminate; reflexivity.
Qed.

(** Whatever the network and the plot library answer, [fetchUpdate] ends
    normally, leaves the chart handle, the timer, the timeframe and the
    controls alone, and all it does is log, redraw with [react] and send
    at most one request, to [/api/update]: it never raises an [alert],
    never creates a plot and never touches a timer. *)
Theorem fetchUpdate_is_silent (net : FetchOutcome) (plot : Settles) (s : State) :
  let s' := final (fetchUpdate net plot s) in
  fetchUpdate net plot s = Returns tt s' /\
  mainChart s' = mainChart s /\
  timer_state s' = timer_state s /\
  timeframe s' = timeframe s /\
  timeframeSelect_value (elements s') = timeframeSelect_value (elements s) /\
  rsiToggle_checked (elements s') = rsiToggle_checked (elements s) /\
  macdToggle_checked (elements s') = macdToggle_checked (elements s) /\
  signalsToggle_checked (elements s') = signalsToggle_checked (elements s) /\
  exists new,
    effects s' = (new ++ effects s)%list /\
    forallb poll_effect new = true /\
    (count_fetches new <= 1)%nat.
Proof.
  cbv zeta. rewrite fetchUpdate_split.
  unfold fetchUpdate_send, fetchUpdate_catch, toISOString, console_error,
    try_catch, bind, gets, modify, ret, throw.
  destruct (lastUpdateTime s) as [[[t | ]] | ] eqn:Hlast; simpl.
  - rewrite fetchUpdate_resume_returns.
    destruct (fetchUpdate_resume_polled net plot
                (emit (Fetch (POST_update (timeframe s) t)) s))
      as [C U T M N S R D G (new & E & Q)].
    simpl in *. unfold timer_state. rewrite C, U, T, M, N, S, R, D, G.
    repeat (split; [reflexivity | ]).
    exists (new ++ [Fetch (POST_update (timeframe s) t)])%list.
    split; [rewrite E, <- app_assoc; reflexivity | ].
    split.
    + rewrite forallb_app, (calm_is_poll_effect new Q). reflexivity.
    + unfold count_fetches. rewrite filter_app, length_app.
      fold (count_fetches new). rewrite (count_fetches_calm new Q). simpl. lia.
  - repeat (split; [reflexivity | ]).
    exists [ConsoleError "Failed to fetch update:"].
    repeat split. unfold count_fetches. simpl. lia.
  - repeat (split; [reflexivity | ]).
    exists [ConsoleError "Failed to fetch update:"].
    repeat split. unfold count_fetches. simpl. lia.
Qed.

(** ** Polling without a time stamp *)

Lemma repeat_then_one {A} (a : A) (n : nat) (l : list A) :
  (repeat a n ++ a :: l = a :: repeat a n ++ l)%list.
Proof. induction n as [ | n IH]; simpl; [reflexivity | rewrite IH; reflexivity]. Qed.

(** A page whose [lastUpdateTime] is [null] or an Invalid Date cannot poll:
    [toISOString] throws before the request is built.  So however many
    times the timer fires and whatever the backend would answer, no request
    is sent, the elements and [lastUpdateTime] stay as they are, and each
    tick leaves one line on the console. *)
Theorem polling_needs_a_time_stamp
    (answers : list (FetchOutcome * Settles)) (s : State) :
  lastUpdateTime s = None \/ lastUpdateTime s = Some (MkDate None) ->
  let s' := polls answers s in
  elements s' = elements s /\
  lastUpdateTime s' = lastUpdateTime s /\
  mainChart s' = mainChart s /\
  effects s' =
    (repeat (ConsoleError "Failed to fetch update:") (List.length answers)
     ++ effects s)%list.
Proof.
  cbv zeta. revert s.
  induction answers as [ | [net plot] rest IH]; intros s Hlast.
  - repeat split.
  - assert (Hstep : final (fetchUpdate net plot s)
                    = emit (ConsoleError "Failed to fetch update:") s).
    { unfold fetchUpdate, fetchUpdate_try, fetchUpdate_catch, toISOString,
        console_error, try_catch, bind, gets, modify, throw.
      destruct Hlast as [H | H]; rewrite H; reflexivity. }
    unfold polls in *. simpl fold_left. rewrite Hstep.
    destruct (IH (emit (ConsoleError "Failed to fetch update:") s) Hlast)
      as (He & Hl & Hm & Hf).
    rewrite He, Hl, Hm, Hf. simpl.
    repeat (split; [reflexivity | ]).
    apply repeat_then_one.
Qed.

(** After a first load that failed, three ticks of the timer. *)
Lemma polls_after_a_failed_load :
  elements (polls [(Responds (Some payload_2), Resolves);
                   (Responds (Some payload_full), Resolves);
                   (NetworkFailure, Resolves)]
              (final (initialize NetworkFailure Resolves constructed)))
  = elements (final (initialize NetworkFailure Resolves constructed)).
Proof.
  apply (polling_needs_a_time_stamp
           [(Responds (Some payload_2), Resolves);
            (Responds (Some payload_full), Resolves);
            (NetworkFailure, Resolves)]
           (final (initialize NetworkFailure Resolves constructed))).
  left. reflexivity.
Defined.

(** ** The timer through a whole session *)

Section Observation.

Context {A : Type} (f : State -> A).

Lemma preserves_throw B (e : Error) : preserves f (@throw B e).
Proof. intro s. reflexivity. Qed.

Lemma preserves_gets B (g : State -> B) : preserves f (gets g).
Proof. intro s. reflexivity. Qed.

Lemma preserves_try_catch B (body : M B) (handler : Error -> M B) :
  preserves f body -> (forall e, preserves f (handler e)) ->
  preserves f (try_catch body handler).
Proof.
  apply (@respects_try_catch (fun s s' => f s' = f s)).
  intros a b c H1 H2. rewrite H2. exact H1.
Qed.

End Observation.

(** Walks a computation down to its writes and closes each by computation. *)
Ltac preserves_walk f :=
  repeat first
    [ apply (@preserves_bind _ f); [ | intro ]
    | apply (@preserves_try_catch _ f); [ | intro ]
    | apply (@preserves_when _ f)
    | apply (@preserves_ret _ f)
    | apply (@preserves_throw _ f)
    | apply (@preserves_gets _ f)
    | apply (@preserves_lift _ f)
    | match goal with
      | |- preserves _ (match ?x with _ => _ end) => destruct x
      end
    | apply (@preserves_modify _ f); intro; reflexivity ].

Ltac unfold_dashboard :=
  unfold perform, select_timeframe, on_timeframe_change, click_rsiToggle,
    click_macdToggle, click_signalsToggle, on_rsiToggle_change,
    on_macdToggle_change, on_signalsToggle_change, timer_fires,
    toggleIndicator, toggleSignals,
    fetchChartData, fetchChartData_try, fetchChartData_rest, fetchChartData_catch,
    fetchUpdate, fetchUpdate_try, fetchUpdate_rest, fetchUpdate_catch,
    draw, showError, fetch, awaited, json, JSON_parse, toISOString,
    Plotly_newPlot, Plotly_react, console_error, alert,
    updateMarketSummary, update_lastPrice, update_priceChange, update_volume,
    update_signal, update_llmAnalysis, update_elements.

Lemma perform_keeps_timer (a : Action) : preserves timer_state (perform a).
Proof.
  destruct a; unfold_dashboard; preserves_walk timer_state.
Qed.

Lemma perform_all_keeps_timer (actions : list Action) (s : State) :
  timer_state (perform_all actions s) = timer_state s.
Proof.
  revert s. induction actions as [ | a rest IH]; intro s; [reflexivity | ].
  unfold perform_all in *. simpl. rewrite IH. apply perform_keeps_timer.
Qed.

Lemma initialize_runs net plot s :
  initialize net plot s = startRealTimeUpdates (final (fetchChartData net plot s)).
Proof.
  unfold initialize, try_catch, bind.
  rewrite (fetchChartData_returns net plot s). simpl.
  destruct (startRealTimeUpdates_runs (final (fetchChartData net plot s)))
    as (Hrun & _).
  rewrite Hrun. reflexivity.
Qed.

Lemma run_piece_keeps_timer (p : Piece) : preserves timer_state (run_piece p).
Proof.
  destruct p as [a | value | id | net plot | net plot].
  - apply perform_keeps_timer.
  - unfold run_piece, fetchChartData_send, update_elements;
      preserves_walk timer_state.
  - unfold run_piece, fetchUpdate_send, fetchUpdate_catch, toISOString,
      console_error; preserves_walk timer_state.
  - unfold run_piece, fetchChartData_resume; unfold_dashboard;
      preserves_walk timer_state.
  - unfold run_piece, fetchUpdate_resume; unfold_dashboard;
      preserves_walk timer_state.
Qed.

Lemma run_piece_timeframe (p : Piece) (s : State) :
  timeframe (final (run_piece p s)) = picked p (timeframe s).
Proof.
  destruct p as [a | value | id | net plot | net plot].
  - destruct a as [value net plot | toggled net plot | toggled net plot
                  | toggled net plot | id net plot].
    + unfold run_piece, perform, picked, select_timeframe, on_timeframe_change,
        update_elements, bind, modify.
      destruct (fetchChartData_frame net plot
                  (set_timeframe value
                     (set_elements (set_select value (elements s)) s)))
        as (_ & Htf & _).
      cbv zeta in Htf. rewrite Htf. reflexivity.
    + revert s. change (preserves timeframe (perform (ClickRsi toggled net plot))).
      unfold_dashboard; preserves_walk timeframe.
    + revert s. change (preserves timeframe (perform (ClickMacd toggled net plot))).
      unfold_dashboard; preserves_walk timeframe.
    + revert s. change (preserves timeframe (perform (ClickSignals toggled net plot))).
      unfold_dashboard; preserves_walk timeframe.
    + revert s. change (preserves timeframe (perform (Tick id net plot))).
      unfold_dashboard; preserves_walk timeframe.
  - reflexivity.
  - revert s. change (preserves timeframe (run_piece (TickSent id))).
    unfold run_piece, fetchUpdate_send, fetchUpdate_catch, toISOString,
      console_error; preserves_walk timeframe.
  - revert s. change (preserves timeframe (fetchChartData_resume net plot)).
    unfold fetchChartData_resume; unfold_dashboard; preserves_walk timeframe.
  - revert s. change (preserves timeframe (fetchUpdate_resume net plot)).
    unfold fetchUpdate_resume; unfold_dashboard; preserves_walk timeframe.
Qed.

Lemma fetchChartData_resume_returns net plot s :
  fetchChartData_resume net plot s
  = Returns tt (final (fetchChartData_resume net plot s)).
Proof.
  unfold fetchChartData_resume, try_catch.
  destruct ((response <- awaited net ;; fetchChartData_rest response plot) s)
    as [[] s1 | e s1]; reflexivity.
Qed.

Lemma initialize_resume_runs net plot s :
  initialize_resume net plot s
  = startRealTimeUpdates (final (fetchChartData_resume net plot s)).
Proof.
  unfold initialize_resume, try_catch, bind.
  rewrite (fetchChartData_resume_returns net plot s). simpl.
  destruct (startRealTimeUpdates_runs (final (fetchChartData_resume net plot s)))
    as (Hrun & _).
  rewrite Hrun. reflexivity.
Qed.

Lemma initialize_split net plot s :
  initialize net plot s = initialize_resume net plot (final (initialize_send s)).
Proof.
  rewrite initialize_runs, initialize_resume_runs, fetchChartData_split.
  reflexivity.
Qed.

Lemma fetchChartData_valid_plot data d l s :
  valid data = true ->
  Response.data data = Response.ChartText d l ->
  mainChart_plot (elements (final (fetchChartData (Responds (Some data)) Resolves s)))
  = Some (MkPlot d l (next_config s)).
Proof.
  intros Hvalid Hchart.
  destruct (valid_fields data Hvalid) as (Hsuccess & _).
  rewrite fetchChartData_split.
  set (s0 := final (fetchChartData_send s)).
  destruct (draw_resolves d l s0) as (Hdraw & Helts & _).
  remember (final (draw Resolves (d, l) s0)) as s1 eqn:Hs1.
  destruct (updateMarketSummary_valid data s1 Hvalid) as (e' & Hsummary & _).
  assert (Hkeep : mainChart_plot e' = mainChart_plot (elements s1)).
  { pose proof (summary_keeps_plot data s1) as Hk. simpl in Hk.
    rewrite Hsummary in Hk. exact Hk. }
  assert (Hrun : fetchChartData_resume (Responds (Some data)) Resolves s0 =
                 Returns tt
                   (set_lastUpdateTime (Some (MkDate (Response.lastUpdate data)))
                      (set_elements e' s1))).
  { change (fetchChartData_resume (Responds (Some data)) Resolves s0)
      with (try_catch (fetchChartData_rest (Some data) Resolves)
              fetchChartData_catch s0).
    unfold try_catch.
    rewrite (fetchChartData_rest_success data Resolves d l s0 Hsuccess Hchart).
    unfold bind, modify. rewrite Hdraw, Hsummary. reflexivity. }
  rewrite Hrun. simpl. rewrite Hkeep, Helts. reflexivity.
Qed.

(** C8. [initialize()] makes one [fetchChartData] pass, one request, and
    then starts the polling timer at the cadence of the timeframe; it is
    suspended at the request and resumed with the answer, and ends normally
    whatever the answer is.  When the answer is a valid payload and the plot
    call resolves, on a page with no chart yet, the pass renders: the plot
    is created with [newPlot] from the payload's traces and layout under
    the options of the script, [mainChart] holds it, the time stamp is the
    payload's, the summary is the payload's when it is complete, and the
    page did the request, the plot call and the timer call, in this order.
    When that first request fails (fetch rejected, body not JSON, or
    [success: false]) on a page with no chart yet, an [alert] is raised, no
    plot call is made, the chart handle stays [null], and the elements,
    [lastUpdateTime] and the timeframe are what they were. *)
Theorem initialize_one_pass_then_timer
    (net : FetchOutcome) (plot : Settles) (s : State) :
  let s' := final (initialize net plot s) in
  initialize net plot s =
    startRealTimeUpdates (final (fetchChartData net plot s)) /\
  initialize net plot s =
    initialize_resume net plot (final (initialize_send s)) /\
  initialize net plot s = Returns tt s' /\
  count_fetches (effects s') = S (count_fetches (effects s)) /\
  (exists id,
     hd_error (effects s') = Some (SetInterval id (cadence (timeframe s))) /\
     updateInterval s' = Some id /\
     In (id, cadence (timeframe s)) (timers s')) /\
  (forall (data : Response.t) (d l : string),
     net = Responds (Some data) -> plot = Resolves ->
     valid data = true ->
     Response.data data = Response.ChartText d l ->
     mainChart s = None ->
     mainChart s' <> None /\
     mainChart_plot (elements s') = Some (MkPlot d l plot_options) /\
     lastUpdateTime s' = Some (MkDate (Response.lastUpdate data)) /\
     (complete data = true ->
      elements s' = rendered data plot_options (elements s)) /\
     (updateInterval s = None ->
      effects s' =
        SetInterval (nextTimer s) (cadence (timeframe s))
        :: NewPlot :: Fetch (GET_chart_data (timeframe s)) :: effects s)) /\
  (request_fails net = true -> mainChart s = None ->
     In (Alert "Failed to fetch chart data") (effects s') /\
     (updateInterval s = None ->
      effects s' =
        SetInterval (nextTimer s) (cadence (timeframe s))
        :: effects (chart_data_failed s)) /\
     mainChart s' = None /\
     elements s' = elements s /\
     lastUpdateTime s' = lastUpdateTime s /\
     timeframe s' = timeframe s).
Proof.
  cbv zeta.
  rewrite <- initialize_split.
  rewrite initialize_runs.
  destruct (startRealTimeUpdates_runs (final (fetchChartData net plot s)))
    as (Hrun & Hhd & Hid & Hin & Hcount & Hchart & Helts & Hlast & Htf & Hkeep).
  destruct (fetchChartData_frame net plot s)
    as (Hu1 & Htf1 & _ & Hn1 & _ & _ & _ & _ & _ & Hcount1 & _).
  cbv zeta in Hu1, Htf1, Hn1, Hcount1.
  assert (Heffects :
            updateInterval s = None ->
            effects (final (startRealTimeUpdates (final (fetchChartData net plot s))))
            = SetInterval (nextTimer s) (cadence (timeframe s))
              :: effects (final (fetchChartData net plot s))).
  { intros Hnone.
    unfold startRealTimeUpdates, setInterval, bind, gets, modify.
    rewrite Hu1, Hnone. simpl. rewrite Hn1, Htf1. reflexivity. }
  split; [reflexivity | ].
  split; [reflexivity | ].
  split; [exact Hrun | ].
  split; [rewrite Hcount; exact Hcount1 | ].
  split.
  { exists (nextTimer (final (fetchChartData net plot s))).
    rewrite <- Htf1. auto. }
  split.
  - intros data d l Hnet Hplot Hvalid Hdata Hnull. subst net plot.
    destruct (fetchChartData_valid data s Hvalid) as (Hmain & Heff & Hstamp & Hsummary).
    cbv zeta in Hmain, Heff, Hstamp, Hsummary.
    pose proof (fetchChartData_valid_plot data d l s Hvalid Hdata) as Hshown.
    assert (Hcfg : next_config s = plot_options)
      by (unfold next_config; rewrite Hnull; reflexivity).
    rewrite Hcfg in Hshown, Hsummary.
    rewrite Hchart, Helts, Hlast.
    split; [exact Hmain | ].
    split; [exact Hshown | ].
    split; [exact Hstamp | ].
    split; [exact Hsummary | ].
    intros Hnone. rewrite (Heffects Hnone), Heff, Hnull. reflexivity.
  - intros Hfail Hnull.
    rewrite Hchart, Helts, Hlast, Htf.
    split; [apply Hkeep; rewrite (fetchChartData_request_fails net plot s Hfail);
            simpl; auto | ].
    split.
    + intros Hnone. rewrite (Heffects Hnone).
      rewrite (fetchChartData_request_fails net plot s Hfail). reflexivity.
    + rewrite (fetchChartData_request_fails net plot s Hfail); simpl; auto.
Qed.

(** The template's page with the backend down, and with a first answer. *)
Lemma initialize_with_backend_down :
  mainChart (final (initialize (Responds (Some failure_payload)) Resolves constructed))
  = None /\
  mainChart_plot
    (elements (final (initialize (Responds (Some payload_1)) Resolves constructed)))
  = Some (MkPlot "traces-1" "layout-1" plot_options).
Proof.
  split.
  - destruct (initialize_one_pass_then_timer
                (Responds (Some failure_payload)) Resolves constructed)
      as (_ & _ & _ & _ & _ & _ & Hfails).
    destruct Hfails as (_ & _ & H & _); [reflexivity | reflexivity | exact H].
  - destruct (initialize_one_pass_then_timer
                (Responds (Some payload_1)) Resolves constructed)
      as (_ & _ & _ & _ & _ & Hdraws & _).
    destruct (Hdraws payload_1 "traces-1" "layout-1") as (_ & H & _);
      [reflexivity | reflexivity | vm_compute; reflexivity | reflexivity
      | reflexivity | exact H].
Defined.

(** *** The load at every [await] *)

Lemma fetchChartData_continue_returns at_ net plot s :
  exists next,
    fetchChartData_continue at_ net plot s
    = Returns next (final (fetchChartData_continue at_ net plot s)).
Proof.
  unfold fetchChartData_continue, try_catch.
  match goal with
  | |- context [match ?body s with _ => _ end] => destruct (body s) as [next s1 | e s1]
  end.
  - exists next. reflexivity.
  - exists None. reflexivity.
Qed.

Lemma fetchChartData_continue_keeps_timer at_ net plot :
  preserves timer_state (fetchChartData_continue at_ net plot).
Proof.
  destruct at_ as [ | response | data chartData creating];
    unfold fetchChartData_continue, plot_settles; unfold_dashboard;
    preserves_walk timer_state.
Qed.

Lemma fetchChartData_continue_keeps_timeframe at_ net plot :
  preserves timeframe (fetchChartData_continue at_ net plot).
Proof.
  destruct at_ as [ | response | data chartData creating];
    unfold fetchChartData_continue, plot_settles; unfold_dashboard;
    preserves_walk timeframe.
Qed.

Lemma initialize_continue_runs at_ net plot s :
  initialize_continue at_ net plot s =
  match fetchChartData_continue at_ net plot s with
  | Returns (Some next) s' => Returns (Some next) s'
  | Returns None s' => Returns None (final (startRealTimeUpdates s'))
  | Throws e s' => Throws e s'
  end.
Proof.
  unfold initialize_continue, try_catch, bind.
  destruct (fetchChartData_continue_returns at_ net plot s) as (next & Hrun).
  rewrite Hrun. destruct next as [next | ]; [reflexivity | ].
  destruct (startRealTimeUpdates_runs (final (fetchChartData_continue at_ net plot s)))
    as (Hstart & _).
  rewrite Hstart. reflexivity.
Qed.

(** With nothing in between, the three stages of the load are
    [initialize] run in one piece. *)
Lemma staged_load_is_initialize net plot s :
  now (advance_all [LoadResumes net plot; LoadResumes net plot; LoadResumes net plot]
         (loading s))
  = final (initialize net plot s).
Proof.
  rewrite initialize_runs.
  unfold advance_all, loading, initialize_send. cbn [fold_left].
  unfold advance at 3. cbn [load now].
  rewrite initialize_continue_runs.
  destruct net as [ | [data | ]].
  - reflexivity.
  - cbn -[advance startRealTimeUpdates fetchChartData].
    unfold advance at 2. cbn [load now].
    rewrite initialize_continue_runs.
    unfold fetchChartData_continue, fetchChartData, fetchChartData_try,
      fetchChartData_rest, fetch, awaited, json, JSON_parse, draw, Plotly_newPlot,
      Plotly_react, try_catch, bind, when, gets, modify, ret, throw,
      fetchChartData_send.
    destruct (Response.success data); cbn -[advance startRealTimeUpdates];
      try reflexivity.
    destruct (Response.data data); cbn -[advance startRealTimeUpdates];
      try reflexivity.
    destruct (mainChart s); cbn -[advance startRealTimeUpdates];
      unfold advance; cbn [load now]; rewrite initialize_continue_runs;
      unfold fetchChartData_continue, plot_settles, try_catch, bind, modify, ret,
        throw;
      destruct plot; cbn -[startRealTimeUpdates updateMarketSummary];
      try reflexivity;
      match goal with
      | |- context [updateMarketSummary data ?s0] =>
          destruct (updateMarketSummary data s0) as [[] s1 | e s1]; reflexivity
      end.
  - cbn -[advance startRealTimeUpdates fetchChartData].
    unfold advance at 2. cbn [load now].
    rewrite initialize_continue_runs.
    reflexivity.
Qed.

Lemma last_pick_snoc (l : list Piece) (p : Piece) (tf : string) :
  last_pick (l ++ [p]) tf = picked p (last_pick l tf).
Proof. unfold last_pick. rewrite fold_left_app. reflexivity. Qed.

Lemma load_invariant_holds (steps : list Step) (s : State) :
  timers s = [] -> updateInterval s = None ->
  load_invariant s steps (advance_all steps (loading s)).
Proof.
  intros Htimers Hnone.
  induction steps as [ | st steps IH] using rev_ind.
  - split; [reflexivity | ]. simpl. split; [discriminate | ].
    unfold timer_state. simpl. rewrite Htimers, Hnone. reflexivity.
  - unfold advance_all in *. rewrite fold_left_app. simpl.
    set (x := fold_left (fun acc st0 => advance st0 acc) steps (loading s)) in *.
    destruct IH as (Htf & Hinv).
    unfold load_invariant, pieces_of. rewrite flat_map_app. fold (pieces_of steps).
    destruct st as [p | net plot].
    + simpl flat_map. rewrite last_pick_snoc. simpl.
      split; [rewrite run_piece_timeframe, Htf; reflexivity | ].
      destruct (started_with x) as [tf | ].
      * destruct Hinv as (Hload & Htimer & before & after & Hsteps & Hpick).
        split; [exact Hload | ].
        split; [rewrite <- Htimer; apply run_piece_keeps_timer | ].
        exists before, (after ++ [Runs p])%list.
        split; [rewrite Hsteps, app_assoc; reflexivity | exact Hpick].
      * destruct Hinv as (Hload & Htimer).
        split; [exact Hload | ].
        rewrite <- Htimer. apply run_piece_keeps_timer.
    + simpl flat_map. rewrite app_nil_r. unfold advance.
      destruct (load x) as [at_ | ] eqn:Hat.
      * destruct (started_with x) as [tf | ] eqn:Hstarted;
          [destruct Hinv as (Hload & _); discriminate Hload | ].
        destruct Hinv as (_ & Htimer).
        rewrite initialize_continue_runs.
        pose proof (fetchChartData_continue_keeps_timer at_ net plot (now x)) as Hkeep.
        pose proof (fetchChartData_continue_keeps_timeframe at_ net plot (now x))
          as Hsame.
        simpl in Hkeep, Hsame.
        destruct (fetchChartData_continue_returns at_ net plot (now x))
          as (next & Hrun).
        rewrite Hrun.
        set (s2 := final (fetchChartData_continue at_ net plot (now x))) in *.
        destruct next as [next | ]; simpl.
        -- split; [rewrite Hsame; exact Htf | ].
           split; [discriminate | rewrite Hkeep; exact Htimer].
        -- destruct (startRealTimeUpdates_runs s2)
             as (_ & _ & _ & _ & _ & _ & _ & _ & Hkeeps & _).
           cbv zeta in Hkeeps.
           split; [rewrite Hkeeps, Hsame; exact Htf | ].
           split; [reflexivity | ].
           split.
           ++ rewrite <- Hkeep in Htimer. unfold timer_state in Htimer.
              injection Htimer as Ht Hu Hn.
              unfold startRealTimeUpdates, setInterval, bind, gets, modify,
                timer_state.
              rewrite Hu. simpl. rewrite Ht, Hn, Hsame. reflexivity.
           ++ exists steps, [LoadResumes net plot]. split; [reflexivity | exact Htf].
      * rewrite Hat. split; [exact Htf | ].
        destruct (started_with x) as [tf | ].
        -- destruct Hinv as (Hload & Htimer & before & after & Hsteps & Hpick).
           split; [reflexivity | ]. split; [exact Htimer | ].
           exists before, (after ++ [LoadResumes net plot])%list.
           split; [rewrite Hsteps, app_assoc; reflexivity | exact Hpick].
        -- destruct Hinv as (Hload & _). contradiction.
Qed.

(** The page load with everything that can happen around it.  The
    constructor calls [initialize] on a page with no timer; [initialize]
    waits at the three awaits of [fetchChartData] (the request, the body,
    the plot call) and the page runs whatever comes in between and after:
    timeframe picks, box clicks, timer ticks, answers to other requests.
    As long as [initialize] has not ended there is no timer.  When it ends,
    whatever the answers were, it starts the timer, and from then on that
    timer is the only one, [updateInterval] is its id, and its period is
    the cadence of the timeframe the page had when [initialize] ended: the
    last one picked up to then, the one of the page when none was.  A
    timeframe picked later never changes it. *)
Theorem one_timer_set_when_the_load_ends (steps : list Step) (s : State) :
  timers s = [] -> updateInterval s = None ->
  let x := advance_all steps (loading s) in
  timeframe (now x) = last_pick (pieces_of steps) (timeframe s) /\
  match started_with x with
  | None =>
      load x <> None /\
      timers (now x) = [] /\
      updateInterval (now x) = None
  | Some tf =>
      load x = None /\
      timers (now x) = [(nextTimer s, cadence tf)] /\
      updateInterval (now x) = Some (nextTimer s) /\
      exists before after : list Step,
        steps = (before ++ after)%list /\
        tf = last_pick (pieces_of before) (timeframe s)
  end.
Proof.
  intros Htimers Hnone. cbv zeta.
  destruct (load_invariant_holds steps s Htimers Hnone) as (Htf & Hinv).
  split; [exact Htf | ].
  destruct (started_with (advance_all steps (loading s))) as [tf | ].
  - destruct Hinv as (Hload & Htimer & Hprefix).
    unfold timer_state in Htimer. injection Htimer as Ht Hu _.
    repeat (split; [assumption | ]). exact Hprefix.
  - destruct Hinv as (Hload & Htimer).
    unfold timer_state in Htimer. injection Htimer as Ht Hu _.
    repeat (split; [assumption | ]). exact Hu.
Qed.

(** On the template's page the user picks ['1m'] while the first request
    is in flight and ['1d'] while the plot is being drawn; the load ends,
    then the user picks ['5m'], a toggle fails and the timer fires: the
    timer runs at the cadence of ['1d']. *)
Lemma one_timer_in_a_sample_session :
  timers
    (now (advance_all
            [Runs (PickSent "1m");
             LoadResumes (Responds (Some payload_1)) Resolves;
             LoadResumes (Responds (Some payload_1)) Resolves;
             Runs (PickSent "1d");
             LoadResumes (Responds (Some payload_1)) Resolves;
             Runs (Whole (SelectTimeframe "5m" (Responds (Some payload_2)) Resolves));
             Runs (Whole (ClickRsi NetworkFailure NetworkFailure Resolves));
             Runs (Whole (Tick 1 (Responds (Some payload_full)) Resolves))]
            (loading constructed)))
  = [(1%nat, 300000%Z)].
Proof.
  pose proof (one_timer_set_when_the_load_ends
                [Runs (PickSent "1m");
                 LoadResumes (Responds (Some payload_1)) Resolves;
                 LoadResumes (Responds (Some payload_1)) Resolves;
                 Runs (PickSent "1d");
                 LoadResumes (Responds (Some payload_1)) Resolves;
                 Runs (Whole (SelectTimeframe "5m" (Responds (Some payload_2)) Resolves));
                 Runs (Whole (ClickRsi NetworkFailure NetworkFailure Resolves));
                 Runs (Whole (Tick 1 (Responds (Some payload_full)) Resolves))]
                constructed eq_refl eq_refl) as H.
  vm_compute in H. destruct H as (_ & _ & H & _).
  vm_compute. exact H.
Defined.

(** ** The chart is created once *)

Lemma chart_kept_refl s : chart_kept s s.
Proof. intro H. split; [exact H | ]. exists []. split; reflexivity. Qed.

Lemma chart_kept_trans a b c : chart_kept a b -> chart_kept b c -> chart_kept a c.
Proof.
  intros Hab Hbc Ha.
  destruct (Hab Ha) as (Hb & n1 & E1 & Q1).
  destruct (Hbc Hb) as (Hc & n2 & E2 & Q2).
  split; [exact Hc | ].
  exists (n2 ++ n1)%list. split.
  - rewrite E2, E1. apply app_assoc.
  - rewrite forallb_app, Q1, Q2. reflexivity.
Qed.

(** A write that is not to [mainChart], or an effect that is not a
    [newPlot]. *)
Ltac chart_kept_write :=
  let s := fresh "s" in
  let Hmain := fresh "Hmain" in
  intros s Hmain; split;
  [ exact Hmain
  | first [ exists (@nil Effect); split; reflexivity
          | eexists (cons _ nil); split; reflexivity ] ].

(** With a chart on the page, [draw] takes the [react] branch. *)
Lemma draw_chart_kept plot chartData : respects chart_kept (draw plot chartData).
Proof.
  intros s Hmain. unfold draw, Plotly_react, bind, gets, modify.
  destruct (mainChart s) as [h | ] eqn:E; [ | congruence ].
  destruct plot; simpl; rewrite E;
    (split; [discriminate | eexists (cons _ nil); split; reflexivity]).
Qed.

Lemma perform_chart_kept (a : Action) : respects chart_kept (perform a).
Proof.
  destruct a;
    unfold perform, select_timeframe, on_timeframe_change, click_rsiToggle,
      click_macdToggle, click_signalsToggle, on_rsiToggle_change,
      on_macdToggle_change, on_signalsToggle_change, timer_fires,
      toggleIndicator, toggleSignals,
      fetchChartData, fetchChartData_try, fetchChartData_rest, fetchChartData_catch,
      fetchUpdate, fetchUpdate_try, fetchUpdate_rest, fetchUpdate_catch,
      showError, fetch, awaited, json, JSON_parse, toISOString,
      Plotly_react, console_error, alert,
      updateMarketSummary, update_lastPrice, update_priceChange, update_volume,
      update_signal, update_llmAnalysis, update_elements;
    repeat first
      [ apply draw_chart_kept
      | apply (@respects_bind _ chart_kept_trans); [ | intro ]
      | apply (@respects_try_catch _ chart_kept_trans); [ | intro ]
      | apply (@respects_when _ chart_kept_refl)
      | apply (@respects_ret _ chart_kept_refl)
      | apply (@respects_throw _ chart_kept_refl)
      | apply (@respects_gets _ chart_kept_refl)
      | apply (@respects_lift _ chart_kept_refl)
      | match goal with
        | |- respects _ (match ?x with _ => _ end) => destruct x
        end
      | apply respects_modify; chart_kept_write ].
Qed.

(** Once [newPlot] has resolved and [mainChart] holds the plot, no sequence
    of timeframe picks, box clicks and timer ticks clears the handle or
    calls [newPlot] again, whatever the backend and the plot library
    answer: every later redraw goes through [react]. *)
Theorem chart_is_created_once (actions : list Action) (s : State) :
  mainChart s <> None ->
  mainChart (perform_all actions s) <> None /\
  exists new,
    effects (perform_all actions s) = (new ++ effects s)%list /\
    forallb (fun e => negb (is_newPlot e)) new = true.
Proof.
  revert s. induction actions as [ | a rest IH]; intros s Hmain.
  - apply chart_kept_refl. exact Hmain.
  - change (perform_all (a :: rest) s)
      with (perform_all rest (final (perform a s))).
    apply (chart_kept_trans s (final (perform a s))).
    + apply perform_chart_kept.
    + intro H. apply IH. exact H.
    + exact Hmain.
Qed.

Lemma chart_is_kept_in_a_sample_session :
  mainChart (perform_all
               [SelectTimeframe "1m" (Responds (Some payload_2)) Resolves;
                ClickSignals (Responds (Some payload_2)) NetworkFailure Rejects;
                Tick 1 (Responds (Some payload_text_change)) Resolves]
               loaded)
  <> None.
Proof.
  apply (chart_is_created_once
           [SelectTimeframe "1m" (Responds (Some payload_2)) Resolves;
            ClickSignals (Responds (Some payload_2)) NetworkFailure Rejects;
            Tick 1 (Responds (Some payload_text_change)) Resolves]
           loaded).
  discriminate.
Defined.

(** ** Toggles *)

(** [toggleSignals()] whose request fails (fetch rejected, body not JSON,
    or [success: false]) ends normally having sent that one request: the
    chart is not refreshed, no element and no field of the class changes,
    and the user gets the [alert] "Failed to toggle signals". *)
Theorem toggleSignals_failure_alerts
    (toggled net : FetchOutcome) (plot : Settles) (s : State) :
  request_fails toggled = true ->
  let s' := final (toggleSignals toggled net plot s) in
  toggleSignals toggled net plot s = Returns tt s' /\
  elements s' = elements s /\
  mainChart s' = mainChart s /\
  lastUpdateTime s' = lastUpdateTime s /\
  timer_state s' = timer_state s /\
  effects s' =
    Alert "Failed to toggle signals"
    :: ConsoleError "Failed to toggle signals"
    :: ConsoleError "Failed to toggle signals:"
    :: Fetch POST_toggle_signals :: effects s.
Proof.
  intros H. cbv zeta.
  unfold toggleSignals, showError, console_error, alert, fetch, awaited, json,
    try_catch, bind, gets, modify, when, ret, throw.
  destruct toggled as [ | [data | ]]; simpl in *; try (repeat split; fail).
  destruct (Response.success data); [discriminate | repeat split].
Qed.

Lemma toggleSignals_with_backend_down :
  elements (final (toggleSignals (Responds (Some failure_payload))
                     (Responds (Some payload_2)) Resolves loaded))
  = elements loaded.
Proof.
  apply (toggleSignals_failure_alerts (Responds (Some failure_payload))
           (Responds (Some payload_2)) Resolves loaded).
  reflexivity.
Defined.

(** A toggle whose request succeeds is that request followed by a chart
    refresh and nothing else: [toggleIndicator] and [toggleSignals] end in
    the state [fetchChartData] ends in, so when the refresh fails the user
    sees the refresh's error, never "Failed to toggle". *)
Theorem successful_toggle_is_a_refresh
    (indicator : string) (data : Response.t)
    (net : FetchOutcome) (plot : Settles) (s : State) :
  Response.success data = true ->
  toggleIndicator indicator (Responds (Some data)) net plot s
  = fetchChartData net plot (emit (Fetch (POST_toggle_indicator indicator)) s) /\
  toggleSignals (Responds (Some data)) net plot s
  = fetchChartData net plot (emit (Fetch POST_toggle_signals) s).
Proof.
  intros Hsuccess.
  unfold toggleIndicator, toggleSignals, fetch, awaited, json, try_catch,
    bind, modify, when, ret.
  rewrite Hsuccess. simpl.
  rewrite (fetchChartData_returns net plot
             (emit (Fetch (POST_toggle_indicator indicator)) s)).
  rewrite (fetchChartData_returns net plot (emit (Fetch POST_toggle_signals) s)).
  split; reflexivity.
Qed.

Lemma successful_toggle_on_loaded_page :
  toggleIndicator "macd" (Responds (Some payload_2))
    (Responds (Some payload_full)) Resolves loaded
  = fetchChartData (Responds (Some payload_full)) Resolves
      (emit (Fetch (POST_toggle_indicator "macd")) loaded).
Proof.
  apply (successful_toggle_is_a_refresh "macd" payload_2
           (Responds (Some payload_full)) Resolves loaded).
  reflexivity.
Defined.

(** ** What a poll asks for *)

Lemma fetchUpdate_sends net plot s t :
  lastUpdateTime s = Some (MkDate (Some t)) ->
  exists new,
    effects (final (fetchUpdate net plot s))
    = (new ++ Fetch (POST_update (timeframe s) t) :: effects s)%list /\
    forallb calm new = true.
Proof.
  intros Hlast. rewrite fetchUpdate_split.
  unfold fetchUpdate_send, fetchUpdate_catch, toISOString, console_error,
    try_catch, bind, gets, modify, ret, throw.
  rewrite Hlast. simpl.
  destruct (fetchUpdate_resume_polled net plot
              (emit (Fetch (POST_update (timeframe s) t)) s))
    as [_ _ _ _ _ _ _ _ _ (new & E & Q)].
  exists new. split; [exact E | exact Q].
Qed.

(** A timeframe switch whose request fails is not undone: the class keeps
    the new timeframe and the select shows it, while the chart, the summary
    and [lastUpdateTime] are those of the old timeframe; the user gets an
    [alert]; and the next background poll asks [/api/update] for the new
    timeframe since the old time stamp. *)
Theorem failed_timeframe_switch_is_kept
    (value : string) (net : FetchOutcome) (plot : Settles)
    (poll : FetchOutcome) (poll_plot : Settles) (t : Z) (s : State) :
  request_fails net = true ->
  lastUpdateTime s = Some (MkDate (Some t)) ->
  let s' := final (select_timeframe value net plot s) in
  timeframe s' = value /\
  timeframeSelect_value (elements s') = value /\
  mainChart_plot (elements s') = mainChart_plot (elements s) /\
  lastPrice_textContent (elements s') = lastPrice_textContent (elements s) /\
  priceChange_textContent (elements s') = priceChange_textContent (elements s) /\
  volume_textContent (elements s') = volume_textContent (elements s) /\
  lastUpdateTime s' = lastUpdateTime s /\
  hd_error (effects s') = Some (Alert "Failed to fetch chart data") /\
  In (Fetch (POST_update value t)) (effects (final (fetchUpdate poll poll_plot s'))).
Proof.
  intros Hfail Hlast. cbv zeta.
  unfold select_timeframe, on_timeframe_change, update_elements, bind, modify.
  rewrite (fetchChartData_request_fails net plot _ Hfail). simpl.
  repeat (split; [reflexivity | ]).
  match goal with
  | |- In _ (effects (final (fetchUpdate _ _ ?s1))) =>
      destruct (fetchUpdate_sends poll poll_plot s1 t Hlast) as (new & E & _);
      rewrite E
  end.
  apply in_or_app. right. left. reflexivity.
Qed.

Lemma failed_switch_on_loaded_page :
  timeframe (final (select_timeframe "4h" NetworkFailure Resolves loaded)) = "4h".
Proof.
  destruct (failed_timeframe_switch_is_kept "4h" NetworkFailure Resolves
              NetworkFailure Resolves 1700000000000%Z loaded) as (H & _).
  - reflexivity.
  - vm_compute. reflexivity.
  - exact H.
Defined.

(** After a load that succeeds with a valid payload whose [lastUpdate] is a
    date, the first background poll asks [/api/update] for the timeframe of
    the load since exactly that date. *)
Theorem first_poll_asks_since_the_load
    (data : Response.t) (t : Z) (poll : FetchOutcome) (poll_plot : Settles)
    (s : State) :
  valid data = true ->
  Response.lastUpdate data = Some t ->
  let s1 := final (initialize (Responds (Some data)) Resolves s) in
  lastUpdateTime s1 = Some (MkDate (Some t)) /\
  In (Fetch (POST_update (timeframe s) t))
     (effects (final (fetchUpdate poll poll_plot s1))).
Proof.
  intros Hvalid Hdate. cbv zeta.
  rewrite initialize_runs.
  destruct (fetchChartData_valid data s Hvalid) as (_ & _ & Hlast & _).
  destruct (fetchChartData_frame (Responds (Some data)) Resolves s)
    as (_ & Htf & _).
  cbv zeta in Hlast, Htf.
  destruct (startRealTimeUpdates_runs
              (final (fetchChartData (Responds (Some data)) Resolves s)))
    as (_ & _ & _ & _ & _ & _ & _ & Hl & Ht & _).
  cbv zeta in Hl, Ht.
  rewrite Hlast, Hdate in Hl. rewrite Htf in Ht.
  split; [exact Hl | ].
  destruct (fetchUpdate_sends poll poll_plot _ t Hl) as (new & E & _).
  rewrite E, Ht. apply in_or_app. right. left. reflexivity.
Qed.

Lemma first_poll_on_the_template_page :
  lastUpdateTime (final (initialize (Responds (Some payload_1)) Resolves constructed))
  = Some (MkDate (Some 1700000000000%Z)).
Proof.
  destruct (first_poll_asks_since_the_load payload_1 1700000000000%Z
              NetworkFailure Resolves constructed) as (H & _).
  - vm_compute. reflexivity.
  - reflexivity.
  - exact H.
Defined.

(** ** A summary field of the wrong type *)

(** [updateMarketSummary] writes its fields one after the other and has no
    [try] of its own.  When [priceChange] is truthy but not a number (a
    non-empty string, [true]) its [toFixed] call throws a [TypeError] after
    [lastPrice] has been written: the price on the page is the new one, the
    change, its class, the volume and both panels are the old ones, and
    nothing is logged by [updateMarketSummary] itself. *)
Theorem wrong_typed_change_stops_the_summary (data : Response.t) (s : State) :
  writes_cleanly (Response.lastPrice data) = true ->
  truthy (Response.priceChange data) = true ->
  writes_cleanly (Response.priceChange data) = false ->
  let s' := final (updateMarketSummary data s) in
  updateMarketSummary data s = Throws TypeError s' /\
  lastPrice_textContent (elements s') =
    (if truthy (Response.lastPrice data)
     then fixed_text (Response.lastPrice data)
     else lastPrice_textContent (elements s)) /\
  priceChange_textContent (elements s') = priceChange_textContent (elements s) /\
  priceChange_className (elements s') = priceChange_className (elements s) /\
  volume_textContent (elements s') = volume_textContent (elements s) /\
  signalMessage_textContent (elements s') = signalMessage_textContent (elements s) /\
  signalDetails_innerHTML (elements s') = signalDetails_innerHTML (elements s) /\
  llmMessage_textContent (elements s') = llmMessage_textContent (elements s) /\
  llmDetails_innerHTML (elements s') = llmDetails_innerHTML (elements s) /\
  mainChart s' = mainChart s /\
  lastUpdateTime s' = lastUpdateTime s /\
  effects s' = effects s.
Proof.
  intros Hprice Htruthy Hwrong. cbv zeta.
  assert (Hthrows : update_priceChange data =
                    fun s0 => Throws TypeError s0).
  { unfold update_priceChange, when. rewrite Htruthy.
    destruct (Response.priceChange data) as [ | | b | n | t];
      try reflexivity.
    unfold writes_cleanly in Hwrong. discriminate. }
  unfold updateMarketSummary, bind.
  rewrite (update_lastPrice_clean data s Hprice), Hthrows.
  unfold final.
  destruct (truthy (Response.lastPrice data));
    repeat (split; [reflexivity | ]); reflexivity.
Qed.

Lemma text_change_on_loaded_page :
  lastPrice_textContent
    (elements (final (updateMarketSummary payload_text_change loaded))) = "101.50" /\
  volume_textContent
    (elements (final (updateMarketSummary payload_text_change loaded))) =
  volume_textContent (elements loaded).
Proof.
  destruct (wrong_typed_change_stops_the_summary payload_text_change loaded)
    as (_ & Hprice & _ & _ & Hvolume & _);
    [reflexivity | reflexivity | reflexivity | ].
  split; [ | exact Hvolume].
  rewrite Hprice. vm_compute. reflexivity.
Defined.

(* ================================================================== *)
(** * Further properties of the second client script *)
(* ================================================================== *)

Section SecondClientPage.

Import MarketClient MarketPage.

Variable toLocaleString : number -> string.

Lemma settle_runs {A : Type} (label : string) (answer : Answer A) (c : Client) :
  settle label answer c =
  (delivers answer, if succeeded answer then c else console_error label c).
Proof.
  unfold settle, delivers, succeeded.
  destruct answer as [ | | e]; try reflexivity.
  destruct (String.eqb (status e) "success"); reflexivity.
Qed.

Lemma delivers_succeeded {A : Type} (answer : Answer A) (a : A) :
  delivers answer = Some a -> succeeded answer = true.
Proof.
  unfold delivers, succeeded. destruct answer as [ | | e]; try discriminate.
  destruct (String.eqb (status e) "success"); [reflexivity | discriminate].
Qed.

Lemma updateMarketInfo_on_two (init : list Candle) (prev latest : Candle) (v : View) :
  updateMarketInfo toLocaleString (init ++ [prev; latest])%list v =
  Done (MkView (charts v)
          (toFixed 2 (close latest))
          (toFixed 2 (mul (div (sub (close latest) (close prev)) (close prev))
                          (of_Z 100)) ++ "%")
          (if ge (mul (div (sub (close latest) (close prev)) (close prev))
                      (of_Z 100)) (of_Z 0)
           then "var(--success-color)" else "var(--error-color)")
          (toLocaleString (volume latest))
          (latestSignal_textContent v) (latestSignal_color v)
          (signalConfidence_textContent v)).
Proof.
  unfold updateMarketInfo.
  rewrite index_last, index_before_last. reflexivity.
Qed.

(** [refresh] shows what [updateDashboard] makes of the results of the two
    fetch functions. *)
Lemma refresh_is_updateDashboard
    (market : Answer (list Candle)) (signals : Answer Signals) (c : Client) :
  match updateDashboard toLocaleString (delivers market) (delivers signals) (view c) with
  | Done v => view (fst (refresh toLocaleString market signals c)) = v /\
              snd (refresh toLocaleString market signals c) = None
  | Failed e v => view (fst (refresh toLocaleString market signals c)) = v /\
                  snd (refresh toLocaleString market signals c) = Some e
  end.
Proof.
  unfold updateDashboard, refresh, fetchMarketData, fetchSignals.
  rewrite settle_runs.
  destruct (delivers market) as [candles | ].
  - destruct (succeeded market); cbv beta iota;
      unfold send, console_error; cbn [view symbol interval requests console];
      destruct (updateMarketInfo toLocaleString candles _) as [v | e v];
      try (split; reflexivity);
      rewrite settle_runs; destruct (succeeded signals); split; reflexivity.
  - destruct (succeeded market); split; reflexivity.
Qed.

Lemma refresh_stops_at_the_guard
    (market : Answer (list Candle)) (signals : Answer Signals) (c : Client) :
  delivers market = None ->
  refresh toLocaleString market signals c =
  (let sent := send (GET_market_data (symbol c) (interval c)) c in
   if succeeded market then sent
   else console_error "Error fetching market data:" sent,
   None).
Proof.
  intros Hnone. unfold refresh, fetchMarketData.
  rewrite settle_runs, Hnone. reflexivity.
Qed.

(** ** A refresh without market data *)

(** When the market-data request brings nothing the script takes (the
    request fails, the body is not JSON, the status is not ['success'], or
    the envelope has no [data]), [updateDashboard] returns at its guard:
    the page keeps what it showed, no chart is drawn, the signals are never
    asked for, and nothing is thrown.  The failure is logged, except for a
    ['success'] envelope without [data], which passes in silence. *)
Theorem refresh_without_market_data
    (market : Answer (list Candle)) (signals : Answer Signals) (c : Client) :
  delivers market = None ->
  let r := refresh toLocaleString market signals c in
  snd r = None /\
  view (fst r) = view c /\
  requests (fst r) = GET_market_data (symbol c) (interval c) :: requests c /\
  symbol (fst r) = symbol c /\
  interval (fst r) = interval c /\
  console (fst r) =
    (if succeeded market then console c
     else "Error fetching market data:" :: console c).
Proof.
  intros Hnone. cbv zeta.
  rewrite (refresh_stops_at_the_guard market signals c Hnone).
  destruct (succeeded market); repeat (split; [reflexivity | ]); reflexivity.
Qed.

(** ** A refresh with both answers *)

(** When the market data ends with the candles [prev; latest] and the
    signals arrive, every text and colour the script owns is written from
    the two answers and none is left from the page before: two refreshes
    with the same answers end in the same view from whatever page they
    start.  The two requests go out in this order with the symbol and
    interval of [config], and nothing is logged. *)
Theorem refresh_shows_only_the_answers
    (market : Answer (list Candle)) (signals : Answer Signals)
    (init : list Candle) (prev latest : Candle) (sg : Signals) (c : Client) :
  delivers market = Some (init ++ [prev; latest])%list ->
  delivers signals = Some sg ->
  let r := refresh toLocaleString market signals c in
  let change :=
    mul (div (sub (close latest) (close prev)) (close prev)) (of_Z 100) in
  snd r = None /\
  view (fst r) =
    MkView (Some (init ++ [prev; latest])%list)
      (toFixed 2 (close latest))
      (toFixed 2 change ++ "%")
      (if ge change (of_Z 0) then "var(--success-color)" else "var(--error-color)")
      (toLocaleString (volume latest))
      (if SFltb (of_Z 0) (signal sg) then "BUY"
       else if SFltb (signal sg) (of_Z 0) then "SELL" else "NEUTRAL")
      (if SFltb (of_Z 0) (signal sg) then "var(--success-color)"
       else if SFltb (signal sg) (of_Z 0) then "var(--error-color)"
       else "var(--text-color)")
      ("Confidence: " ++ toFixed 1 (mul (confidence sg) (of_Z 100)) ++ "%") /\
  requests (fst r) =
    GET_signals (symbol c) :: GET_market_data (symbol c) (interval c) :: requests c /\
  console (fst r) = console c.
Proof.
  intros Hmarket Hsignals. cbv zeta.
  unfold refresh, fetchMarketData, fetchSignals.
  rewrite settle_runs, Hmarket, (delivers_succeeded market _ Hmarket).
  cbv beta iota. rewrite updateMarketInfo_on_two.
  rewrite settle_runs, Hsignals, (delivers_succeeded signals _ Hsignals).
  repeat (split; [reflexivity | ]); reflexivity.
Qed.

(** ** A refresh whose signals fail *)

(** The signals are asked for after the market data has been written.  When
    that second request brings nothing, the page shows the new price, change
    and volume beside the signal, colour and confidence it showed before;
    the failure is logged (a ['success'] envelope without [data] apart) and
    nothing is thrown. *)
Theorem refresh_keeps_the_old_signal
    (market : Answer (list Candle)) (signals : Answer Signals)
    (init : list Candle) (prev latest : Candle) (c : Client) :
  delivers market = Some (init ++ [prev; latest])%list ->
  delivers signals = None ->
  let r := refresh toLocaleString market signals c in
  snd r = None /\
  charts (view (fst r)) = Some (init ++ [prev; latest])%list /\
  lastPrice_textContent (view (fst r)) = toFixed 2 (close latest) /\
  volume_textContent (view (fst r)) = toLocaleString (volume latest) /\
  latestSignal_textContent (view (fst r)) = latestSignal_textContent (view c) /\
  latestSignal_color (view (fst r)) = latestSignal_color (view c) /\
  signalConfidence_textContent (view (fst r)) = signalConfidence_textContent (view c) /\
  requests (fst r) =
    GET_signals (symbol c) :: GET_market_data (symbol c) (interval c) :: requests c /\
  console (fst r) =
    (if succeeded signals then console c
     else "Error fetching signals:" :: console c).
Proof.
  intros Hmarket Hsignals. cbv zeta.
  unfold refresh, fetchMarketData, fetchSignals.
  rewrite settle_runs, Hmarket, (delivers_succeeded market _ Hmarket).
  cbv beta iota. rewrite updateMarketInfo_on_two.
  rewrite settle_runs, Hsignals.
  destruct (succeeded signals); repeat (split; [reflexivity | ]); reflexivity.
Qed.

(** ** A refresh with fewer than two candles *)

(** An array of fewer than two candles passes the guard of
    [updateDashboard] (an array is truthy even when empty): the charts are
    drawn from it, then [updateMarketInfo] throws a [TypeError] and the
    promise of [updateDashboard] rejects.  The change, the volume and the
    three signal elements keep their texts, and the signals are never asked
    for. *)
Theorem refresh_on_short_data
    (market : Answer (list Candle)) (signals : Answer Signals)
    (candles : list Candle) (c : Client) :
  delivers market = Some candles ->
  (List.length candles < 2)%nat ->
  let r := refresh toLocaleString market signals c in
  snd r = Some TypeError /\
  charts (view (fst r)) = Some candles /\
  priceChange_textContent (view (fst r)) = priceChange_textContent (view c) /\
  priceChange_color (view (fst r)) = priceChange_color (view c) /\
  volume_textContent (view (fst r)) = volume_textContent (view c) /\
  latestSignal_textContent (view (fst r)) = latestSignal_textContent (view c) /\
  latestSignal_color (view (fst r)) = latestSignal_color (view c) /\
  signalConfidence_textContent (view (fst r)) = signalConfidence_textContent (view c) /\
  requests (fst r) = GET_market_data (symbol c) (interval c) :: requests c /\
  console (fst r) = console c.
Proof.
  intros Hmarket Hshort. cbv zeta.
  unfold refresh, fetchMarketData.
  rewrite settle_runs, Hmarket, (delivers_succeeded market _ Hmarket).
  cbv beta iota.
  destruct candles as [ | only [ | second rest]]; simpl in Hshort; try lia;
    repeat (split; [reflexivity | ]); reflexivity.
Qed.

(** ** A selection whose refresh fails *)


End SecondClientPage.

Lemma refresh_with_backend_down :
  MarketPage.view
    (fst (MarketPage.refresh sample_locale (refused (list MarketClient.Candle))
            signals_answer MarketPage.loaded_client))
  = MarketPage.view MarketPage.loaded_client.
Proof.
  destruct (refresh_without_market_data sample_locale
              (refused (list MarketClient.Candle)) signals_answer
              MarketPage.loaded_client) as (_ & H & _).
  - reflexivity.
  - exact H.
Defined.

Lemma refresh_with_both_answers :
  snd (MarketPage.refresh sample_locale market_answer signals_answer
         MarketPage.loaded_client) = None.
Proof.
  destruct (refresh_shows_only_the_answers sample_locale
              market_answer signals_answer [] candle_100 candle_101
              (MarketClient.MkSignals (of_Z 1) (of_Z 1))
              MarketPage.loaded_client) as (H & _).
  - reflexivity.
  - reflexivity.
  - exact H.
Defined.

Lemma refresh_with_refused_signals :
  snd (MarketPage.refresh sample_locale market_answer
         (refused MarketClient.Signals) MarketPage.loaded_client) = None.
Proof.
  destruct (refresh_keeps_the_old_signal sample_locale
              market_answer (refused MarketClient.Signals)
              [] candle_100 candle_101 MarketPage.loaded_client) as (H & _).
  - reflexivity.
  - reflexivity.
  - exact H.
Defined.

Lemma refresh_on_one_candle :
  snd (MarketPage.refresh sample_locale short_market_answer signals_answer
         MarketPage.loaded_client) = Some TypeError.
Proof.
  destruct (refresh_on_short_data sample_locale
              short_market_answer signals_answer [candle_101]
              MarketPage.loaded_client) as (H & _).
  - reflexivity.
  - simpl. lia.
  - exact H.
Defined.

